(** * Rush web SDK: ECS runtime, blueprint validation, storage adapters

    A shallow embedding of the TypeScript sources

      - [src/core/Entity.ts], [src/core/World.ts]
      - [src/RushSDK.ts]
      - [src/storage/SolanaStorageAdapter.ts] (two generations)

    into Rocq, followed by the properties the specification states about
    them.  JavaScript objects with identity (ES [Map]s) live in an explicit
    heap; every method is a function that threads the state it touches. *)

From stdpp Require Import base strings list pretty.
From Stdlib Require Import ZArith Lia Ascii Sorted Floats Uint63.

Local Open Scope string_scope.
Local Open Scope list_scope.
Set Warnings "-register-all".

(** ** JavaScript values

    Component payloads are of TypeScript type [any].  A [number] is an
    IEEE 754 double, the kernel's [float]: it has [NaN], the infinities and
    fractions, and rounds as JavaScript does.  A string is held as the bytes
    of its UTF-8 encoding, which is what a string literal of this file
    denotes.  The list of [JObj] holds the own enumerable properties of
    an ordinary object in the order in which [for..in], [Object.keys],
    [Object.entries] and [JSON.stringify] visit them (keys that are array
    indices first, ascending, then the other keys as they were created);
    the lists of a schema's [properties] and of a blueprint's component
    schemas are in that order too.  [JFun] stands for any function object
    and [JObjectPrototype] for [Object.prototype], both reachable by
    property reads through the prototype chain. *)

Inductive JsValue : Type :=
  | JUndefined
  | JNull
  | JBool (b : bool)
  | JNum (x : float)
  | JBigInt (n : Z)
  | JStr (s : string)
  | JSymbol (description : string)
  | JArr (elems : list JsValue)
  | JObj (props : list (string * JsValue))
  | JFun
  | JObjectPrototype.

(** [typeof v] *)
Definition typeof (v : JsValue) : string :=
  match v with
  | JUndefined => "undefined"
  | JNull => "object"
  | JBool _ => "boolean"
  | JNum _ => "number"
  | JBigInt _ => "bigint"
  | JStr _ => "string"
  | JSymbol _ => "symbol"
  | JArr _ => "object"
  | JObj _ => "object"
  | JFun => "function"
  | JObjectPrototype => "object"
  end.

(** [Array.isArray(v)] *)
Definition Array_isArray (v : JsValue) : bool :=
  match v with JArr _ => true | _ => false end.

(** [v === null] *)
Definition is_null (v : JsValue) : bool :=
  match v with JNull => true | _ => false end.

(** [arr.includes(s)] on an array of strings *)
Definition includes (s : string) (arr : list string) : bool :=
  existsb (String.eqb s) arr.

(** Names every ordinary object inherits from [Object.prototype]; the [in]
    operator sees them. *)
Definition Object_prototype_keys : list string :=
  [ "constructor"; "__defineGetter__"; "__defineSetter__"; "hasOwnProperty";
    "__lookupGetter__"; "__lookupSetter__"; "isPrototypeOf";
    "propertyIsEnumerable"; "toString"; "valueOf"; "__proto__";
    "toLocaleString" ].

Fixpoint own_property {A : Type} (k : string) (props : list (string * A)) : option A :=
  match props with
  | [] => None
  | (k', v) :: rest => if String.eqb k' k then Some v else own_property k rest
  end.

(** [k in props] for an ordinary object whose own properties are [props] *)
Definition js_in {A : Type} (k : string) (props : list (string * A)) : bool :=
  match own_property k props with
  | Some _ => true
  | None => includes k Object_prototype_keys
  end.

(** A read [Object.prototype[k]] *)
Definition prototype_get (k : string) : JsValue :=
  if String.eqb k "__proto__" then JNull
  else if includes k Object_prototype_keys then JFun
  else JUndefined.

(** A read [obj[k]] on an ordinary object *)
Definition js_get (k : string) (props : list (string * JsValue)) : JsValue :=
  match own_property k props with
  | Some v => v
  | None =>
      if String.eqb k "__proto__" then JObjectPrototype else prototype_get k
  end.

(** [Array.prototype.sort()] without comparator on an array of strings:
    ascending order of the code units, which for names within the Basic
    Multilingual Plane is the order of their bytes.  The sort is stable; on
    strings with a total order every sorting algorithm yields the same
    array. *)
Fixpoint sort_insert (s : string) (l : list string) : list string :=
  match l with
  | [] => [s]
  | x :: l' => if String.leb s x then s :: x :: l' else x :: sort_insert s l'
  end.

Fixpoint sort (l : list string) : list string :=
  match l with
  | [] => []
  | x :: l' => sort_insert x (sort l')
  end.

(** The order [sort] arranges its result in. *)
Definition ascending (a b : string) : Prop := String.leb a b = true.

(** [arr.join(sep)] *)
Definition join (sep : string) (arr : list string) : string :=
  String.concat sep arr.

(** [s.split(',')]; the empty string splits into one empty piece. *)
Fixpoint split_comma (s : string) : list string :=
  match s with
  | EmptyString => [EmptyString]
  | String c s' =>
      if Ascii.eqb c ","%char then EmptyString :: split_comma s'
      else match split_comma s' with
           | [] => [String c EmptyString]
           | piece :: pieces => String c piece :: pieces
           end
  end.

(** ** ES [Map] with string keys

    Iteration follows the order in which keys were first inserted; [set] on
    a present key replaces the value in place.  An association list with
    unique keys keeps exactly that. *)

Module JsMap.

Abbreviation t V := (list (string * V)).

Section JsMap.
Context {V : Type}.

Definition empty : t V := [].

Fixpoint set (k : string) (v : V) (m : t V) : t V :=
  match m with
  | [] => [(k, v)]
  | (k', v') :: m' =>
      if String.eqb k' k then (k, v) :: m' else (k', v') :: set k v m'
  end.

Fixpoint get (k : string) (m : t V) : option V :=
  match m with
  | [] => None
  | (k', v') :: m' => if String.eqb k' k then Some v' else get k m'
  end.

Definition has (k : string) (m : t V) : bool :=
  match get k m with Some _ => true | None => false end.

Fixpoint remove (k : string) (m : t V) : t V :=
  match m with
  | [] => []
  | (k', v') :: m' =>
      if String.eqb k' k then m' else (k', v') :: remove k m'
  end.

(** [m.delete(k)]: whether an entry was present, and the map afterwards *)
Definition delete (k : string) (m : t V) : bool * t V :=
  (has k m, remove k m).

Definition values (m : t V) : list V := map snd m.

Definition keys (m : t V) : list string := map fst m.
End JsMap.
End JsMap.

(** ** Objects made from entries

    A property key is an array index when it is the decimal text, without
    leading zeros, of an integer below 2^32 - 1.  An object lists its own
    keys with the array indices first, in ascending order, and the other
    keys after them, in the order of their creation. *)

Definition digit_of (c : ascii) : option N :=
  let n := N_of_ascii c in
  if ((48 <=? n) && (n <=? 57))%N then Some (n - 48)%N else None.

Fixpoint decimal (s : string) (acc : N) : option N :=
  match s with
  | EmptyString => Some acc
  | String c rest =>
      match digit_of c with
      | Some d => decimal rest (10 * acc + d)%N
      | None => None
      end
  end.

Definition array_index (k : string) : option N :=
  match k with
  | EmptyString => None
  | String c rest =>
      if Ascii.eqb c "0"%char && negb (String.eqb rest "") then None
      else match decimal k 0%N with
           | Some n => if (n <? 4294967295)%N then Some n else None
           | None => None
           end
  end.

Section OwnKeys.
Context {V : Type}.

Fixpoint insert_index (n : N) (entry : string * V)
    (sorted : list (N * (string * V))) : list (N * (string * V)) :=
  match sorted with
  | [] => [(n, entry)]
  | (n', entry') :: rest =>
      if (n <? n')%N then (n, entry) :: (n', entry') :: rest
      else (n', entry') :: insert_index n entry rest
  end.

Fixpoint index_entries (entries : list (string * V))
    : list (N * (string * V)) :=
  match entries with
  | [] => []
  | entry :: rest =>
      match array_index (fst entry) with
      | Some n => insert_index n entry (index_entries rest)
      | None => index_entries rest
      end
  end.

(** [Object.fromEntries(map)] for a [Map], whose keys are distinct: the
    properties of the new object, in the order the object lists them. *)
Definition Object_fromEntries (entries : JsMap.t V) : list (string * V) :=
  map snd (index_entries entries)
  ++ List.filter (fun entry => match array_index (fst entry) with
                | Some _ => false
                | None => true
                end) entries.

End OwnKeys.

(** ** Entity.ts *)

Definition PublicKey : Type := string.   (* a key, named by its base58 text *)

Definition toBase58 (k : PublicKey) : string := k.

(** Address of a [Map] object in the heap. *)
Abbreviation loc := nat.

(** The heap holds the [Map<string, any>] objects.  Allocation appends. *)
Abbreviation Heap := (list (JsMap.t JsValue)).

(** An [Entity] object.  Its three fields are assigned once, in the
    constructor; [components] refers to the entity's private [Map].  Since
    every constructor call allocates its own [Map], two references denote
    the same [Entity] object exactly when their [components] agree. *)
Record Entity : Type := mkEntity {
  id : string;
  components : loc;
  publicKey : PublicKey
}.

Module EntityOps.

(** [new Entity(id, publicKey)] *)
Definition new (i : string) (pk : PublicKey) (h : Heap) : Entity * Heap :=
  (mkEntity i (List.length h) pk, h ++ [JsMap.empty]).

Definition getId (e : Entity) : string := id e.

Definition getPublicKey (e : Entity) : PublicKey := publicKey e.

(** [this.components.set(componentType, data)] *)
Definition addComponent (e : Entity) (componentType : string) (data : JsValue)
    (h : Heap) : Heap :=
  alter (JsMap.set componentType data) (components e) h.

(** [this.components.get(componentType)]; [undefined] when not set *)
Definition getComponent (e : Entity) (componentType : string) (h : Heap) : JsValue :=
  match h !! components e with
  | Some m => default JUndefined (JsMap.get componentType m)
  | None => JUndefined
  end.

Definition hasComponent (e : Entity) (componentType : string) (h : Heap) : bool :=
  match h !! components e with
  | Some m => JsMap.has componentType m
  | None => false
  end.

Definition removeComponent (e : Entity) (componentType : string) (h : Heap)
    : bool * Heap :=
  (hasComponent e componentType h,
   alter (JsMap.remove componentType) (components e) h).

(** [new Map(this.components)]: a fresh [Map] object with the same
    entries; the reference to it is returned. *)
Definition getComponents (e : Entity) (h : Heap) : loc * Heap :=
  (List.length h, h ++ [default JsMap.empty (h !! components e)]).

(** [===] on entity references *)
Definition same (e1 e2 : Entity) : bool :=
  Nat.eqb (components e1) (components e2).

End EntityOps.

(** Operations a holder of a [Map] reference can apply to it. *)
Inductive MapMutation : Type :=
  | MapSet (k : string) (v : JsValue)
  | MapDelete (k : string)
  | MapClear.

Definition mutate (m : loc) (op : MapMutation) (h : Heap) : Heap :=
  match op with
  | MapSet k v => alter (JsMap.set k v) m h
  | MapDelete k => alter (JsMap.remove k) m h
  | MapClear => alter (fun _ => JsMap.empty) m h
  end.

Definition mutate_all (m : loc) (ops : list MapMutation) (h : Heap) : Heap :=
  fold_left (fun h' op => mutate m op h') ops h.

(** ** SystemPort.ts and the programs that use a World

    A system's [update(deltaTime, world)] is arbitrary client code.  What it
    can do to a [World] is call the public methods of [World] and of the
    entities it holds; a [Script] is such a program, each call continuing
    with the value the call returned.  [deltaTime] is a [number]. *)

Inductive Script : Type :=
  | Done
  | NewEntity (i : string) (pk : PublicKey) (k : Entity -> Script)
  | CallCreateEntity (i : string) (pk : PublicKey) (k : Entity -> Script)
  | CallGetEntity (i : string) (k : option Entity -> Script)
  | CallRemoveEntity (i : string) (k : bool -> Script)
  | CallAddSystem (s : float -> Script) (k : Script)
  | CallUpdate (deltaTime : float) (k : Script)
  | CallQuery (names : list string) (k : list Entity -> Script)
  | CallAddComponent (e : Entity) (ty : string) (data : JsValue) (k : Script)
  | CallGetComponent (e : Entity) (ty : string) (k : JsValue -> Script)
  | CallHasComponent (e : Entity) (ty : string) (k : bool -> Script)
  | CallRemoveComponent (e : Entity) (ty : string) (k : bool -> Script)
  | CallGetComponents (e : Entity) (k : loc -> Script)
  | CallMutate (m : loc) (op : MapMutation) (k : Script).

(** ([CallMutate] acts on a [Map] reference; client code holds only the
    references [getComponents] gave it.) *)

(** An object implementing [SystemPort]: its [update] method. *)
Definition SystemPort : Type := float -> Script.

(** ** World.ts *)

Record World : Type := mkWorld {
  entities : JsMap.t Entity;
  systems : list SystemPort;
  queries : JsMap.t (list Entity)
}.

Module WorldOps.

(** [new World()] *)
Definition new : World := mkWorld JsMap.empty [] JsMap.empty.

(** [components.every(component => entity.hasComponent(component))] *)
Definition hasEvery (names : list string) (h : Heap) (e : Entity) : bool :=
  forallb (fun component => EntityOps.hasComponent e component h) names.

Definition updateQueries (e : Entity) (w : World) (h : Heap) : World :=
  mkWorld (entities w) (systems w)
    (map (fun '(queryKey, ents) =>
            let names := split_comma queryKey in
            if hasEvery names h e then (queryKey, ents ++ [e])
            else (queryKey, ents))
         (queries w)).

(** [entities.indexOf(entity)] followed by [splice(index, 1)] when the
    index is not [-1]: the first occurrence goes. *)
Fixpoint spliceFirst (e : Entity) (ents : list Entity) : list Entity :=
  match ents with
  | [] => []
  | x :: rest => if EntityOps.same x e then rest else x :: spliceFirst e rest
  end.

Definition removeEntityFromQueries (e : Entity) (w : World) : World :=
  mkWorld (entities w) (systems w)
    (map (fun '(queryKey, ents) => (queryKey, spliceFirst e ents)) (queries w)).

Definition createEntity (i : string) (pk : PublicKey) (w : World) (h : Heap)
    : Entity * World * Heap :=
  let '(entity, h1) := EntityOps.new i pk h in
  let w1 := mkWorld (JsMap.set i entity (entities w)) (systems w) (queries w) in
  (entity, updateQueries entity w1 h1, h1).

Definition getEntity (i : string) (w : World) : option Entity :=
  JsMap.get i (entities w).

Definition removeEntity (i : string) (w : World) : bool * World :=
  match JsMap.get i (entities w) with
  | Some entity =>
      let w1 := mkWorld (JsMap.remove i (entities w)) (systems w) (queries w) in
      (true, removeEntityFromQueries entity w1)
  | None => (false, w)
  end.

Definition addSystem (s : SystemPort) (w : World) : World :=
  mkWorld (entities w) (systems w ++ [s]) (queries w).

(** [query(components)].  The call sorts the caller's array in place;
    [queryKey] is computed and not used. *)
Definition query (names : list string) (w : World) (h : Heap) : list Entity :=
  let sorted := sort names in
  let queryKey := join "," sorted in
  let matchingEntities :=
    List.filter (hasEvery sorted h) (JsMap.values (entities w)) in
  matchingEntities.

(** What [query] leaves in the array it was given. *)
Definition query_argument_after (names : list string) : list string :=
  sort names.

End WorldOps.

(** ** Running client code

    A script, and [World.update] with it, need not terminate (a system may
    call [world.update] itself), so the interpreter counts its steps down
    from [fuel]; [None] means no final state within [fuel].  The [for..of]
    loop of [update] walks the live [systems] array by index, so a system
    appended during the walk is run in the same tick. *)

Definition State : Type := World * Heap.

Fixpoint run (fuel : nat) (p : Script) (st : State) : option State :=
  match fuel with
  | O => None
  | S fuel' =>
      let '(w, h) := st in
      match p with
      | Done => Some st
      | NewEntity i pk k =>
          let '(e, h1) := EntityOps.new i pk h in run fuel' (k e) (w, h1)
      | CallCreateEntity i pk k =>
          let '(e, w1, h1) := WorldOps.createEntity i pk w h in
          run fuel' (k e) (w1, h1)
      | CallGetEntity i k => run fuel' (k (WorldOps.getEntity i w)) st
      | CallRemoveEntity i k =>
          let '(b, w1) := WorldOps.removeEntity i w in run fuel' (k b) (w1, h)
      | CallAddSystem s k => run fuel' k (WorldOps.addSystem s w, h)
      | CallUpdate deltaTime k =>
          match update_from fuel' 0 deltaTime st with
          | Some st1 => run fuel' k st1
          | None => None
          end
      | CallQuery names k => run fuel' (k (WorldOps.query names w h)) st
      | CallAddComponent e ty data k =>
          run fuel' k (w, EntityOps.addComponent e ty data h)
      | CallGetComponent e ty k => run fuel' (k (EntityOps.getComponent e ty h)) st
      | CallHasComponent e ty k => run fuel' (k (EntityOps.hasComponent e ty h)) st
      | CallRemoveComponent e ty k =>
          let '(b, h1) := EntityOps.removeComponent e ty h in
          run fuel' (k b) (w, h1)
      | CallGetComponents e k =>
          let '(m, h1) := EntityOps.getComponents e h in run fuel' (k m) (w, h1)
      | CallMutate m op k => run fuel' k (w, mutate m op h)
      end
  end
with update_from (fuel : nat) (index : nat) (deltaTime : float) (st : State)
    : option State :=
  match fuel with
  | O => None
  | S fuel' =>
      match systems (fst st) !! index with
      | None => Some st
      | Some system =>
          match run fuel' (system deltaTime) st with
          | Some st1 => update_from fuel' (S index) deltaTime st1
          | None => None
          end
      end
  end.

(** [world.update(deltaTime)] *)
Definition World_update (fuel : nat) (deltaTime : float) (st : State)
    : option State :=
  update_from fuel 0 deltaTime st.

(** ** Errors, console and the effect monad

    Thrown values are objects.  [mkError] is an [Error] object: a [name], a
    [message], the [code] a [SolanaStorageError] adds and the [cause] an
    [SDKError] may carry.  [mkThrown] is a thrown object that is not an
    instance of [Error] (a plain object, say); of it the code reads, at
    most, what its [name] and [message] properties show in a template
    literal. *)

Inductive JsError : Type :=
  | mkError (name message : string) (code : option string)
      (cause : option JsError)
  | mkThrown (name message : string).

Definition error_name (e : JsError) : string :=
  match e with mkError n _ _ _ => n | mkThrown n _ => n end.
Definition error_message (e : JsError) : string :=
  match e with mkError _ m _ _ => m | mkThrown _ m => m end.
Definition error_code (e : JsError) : option string :=
  match e with mkError _ _ c _ => c | mkThrown _ _ => None end.
Definition error_cause (e : JsError) : option JsError :=
  match e with mkError _ _ _ c => c | mkThrown _ _ => None end.

(** [e instanceof Error] *)
Definition instanceof_Error (e : JsError) : bool :=
  match e with mkError _ _ _ _ => true | mkThrown _ _ => false end.

(** [new Error(message)] *)
Definition Error (message : string) : JsError := mkError "Error" message None None.
(** [new TypeError(message)] *)
Definition TypeError (message : string) : JsError :=
  mkError "TypeError" message None None.
(** [new SDKError(message, cause)] of RushSDK.ts *)
Definition SDKError (message : string) (cause : option JsError) : JsError :=
  mkError "SDKError" message None cause.
(** [new SolanaStorageError(message, code)] of the strict adapter *)
Definition SolanaStorageError (message code : string) : JsError :=
  mkError "SolanaStorageError" message (Some code) None.

Inductive LogLevel : Type := Log | Warn | Err.

(** One [console.log] / [console.warn] / [console.error] call: the text and,
    where the call passes the caught error as second argument, that error. *)
Record LogEntry : Type := mkLog {
  level : LogLevel;
  text : string;
  detail : option JsError
}.

Definition Console : Type := list LogEntry.

(** The ambient state library code touches: what was written to the
    console, oldest first, and how many keypairs [Keypair.generate()] has
    handed out. *)
Record Env : Type := mkEnv {
  console : Console;
  generated : nat
}.

(** State and exceptions: a computation yields a value or a thrown error,
    and the state as it stands at that point (nothing is undone by a
    throw). *)
Definition M (S A : Type) : Type := S -> (JsError + A) * S.

Definition ret {S A : Type} (a : A) : M S A := fun s => (inr a, s).

Definition throw {S A : Type} (e : JsError) : M S A := fun s => (inl e, s).

Definition bind {S A B : Type} (c : M S A) (k : A -> M S B) : M S B :=
  fun s =>
    match c s with
    | (inr a, s1) => k a s1
    | (inl e, s1) => (inl e, s1)
    end.

(** [try { c } catch (error) { handler error }] *)
Definition try_catch {S A : Type} (c : M S A) (handler : JsError -> M S A) : M S A :=
  fun s =>
    match c s with
    | (inr a, s1) => (inr a, s1)
    | (inl e, s1) => handler e s1
    end.

(** A call whose outcome is drawn from outside the program. *)
Definition outcome {S A : Type} (r : JsError + A) : M S A :=
  match r with
  | inl e => throw e
  | inr a => ret a
  end.

Declare Scope js_scope.
Delimit Scope js_scope with js.
Notation "x <- c1 ;; c2" := (bind c1 (fun x => c2))
  (at level 100, c1 at next level, right associativity) : js_scope.
Notation "c1 ;; c2" := (bind c1 (fun _ => c2))
  (at level 100, right associativity) : js_scope.
Local Open Scope js_scope.

Definition emit (l : LogLevel) (s : string) (d : option JsError) : M Env unit :=
  fun env => (inr tt, mkEnv (console env ++ [mkLog l s d]) (generated env)).

Definition console_log (s : string) : M Env unit := emit Log s None.
Definition console_warn (s : string) : M Env unit := emit Warn s None.
Definition console_error (s : string) (e : JsError) : M Env unit := emit Err s (Some e).

(** [for (const x of xs) body x], leaving the loop at the first throw *)
Fixpoint for_of {S A : Type} (xs : list A) (body : A -> M S unit) : M S unit :=
  match xs with
  | [] => ret tt
  | x :: rest => body x ;; for_of rest body
  end.

(** ** types.ts *)

(** [JsonSchemaType | JsonSchemaType[]] *)
Inductive SchemaType : Type :=
  | TName (t : string)
  | TNames (ts : list string).

Inductive ComponentSchema : Type := mkSchema {
  type : option SchemaType;
  optional : option bool;
  properties : option (list (string * ComponentSchema));
  required : option (list string);
  items : option (ComponentSchema + list ComponentSchema);
  minLength : option float;
  maxLength : option float;
  pattern : option string;
  minimum : option float;
  maximum : option float
}.

(** What reading the schema fields of an object without any of them gives:
    every field [undefined]. *)
Definition no_schema : ComponentSchema :=
  mkSchema None None None None None None None None None None.

Module Types.
Record IBTreeMap : Type := mkBTreeMap { K : string; V : string; A : string }.

Record IBluePrint : Type := mkBluePrint {
  name : string;
  description : string;
  componentSchemas : option (list (string * ComponentSchema));
  entities : option IBTreeMap;
  regions : option IBTreeMap;
  instances : option IBTreeMap
}.
End Types.

(** Built-ins of the host whose results the code only passes on:
    [new RegExp(pattern).test(s)] (the constructor throws on a malformed
    pattern); [JSON.stringify(v)], which throws - a [TypeError] for a
    [bigint] and for a cyclic structure - or gives the text that a template
    literal or [Buffer.from] then takes; the text [`${x}`] of a number [x];
    and [JSON.parse(fs.readFileSync(path, 'utf-8')) as IBluePrint], which
    throws when the file cannot be read or parsed and gives [None] for a
    document that is falsy ([null], [false], [0] or the empty string). *)
Record Host : Type := mkHost {
  RegExp_test : string -> string -> JsError + bool;
  JSON_stringify : JsValue -> JsError + string;
  Number_toString : float -> string;
  read_blueprint : string -> JsError + option Types.IBluePrint
}.

(** ** RushSDK.ts: the component schema validator *)

(** The double-quote character and a text between two of them, as the
    template literals of the messages write it. *)
Definition dquote : string := String "034"%char EmptyString.
Definition quoted (s : string) : string := dquote +:+ s +:+ dquote.

(** [schema.type] in a condition: [undefined] and the empty string are
    falsy, an array is truthy. *)
Definition type_truthy (t : option SchemaType) : bool :=
  match t with
  | None => false
  | Some (TName s) => negb (String.eqb s "")
  | Some (TNames _) => true
  end.

(** [typeof data !== schema.type]; a string never equals an array. *)
Definition type_differs (data : JsValue) (t : option SchemaType) : bool :=
  match t with
  | Some (TName s) => negb (String.eqb (typeof data) s)
  | _ => true
  end.

(** [Array.isArray(schema.type) && schema.type.includes(typeof data)] *)
Definition type_listed (data : JsValue) (t : option SchemaType) : bool :=
  match t with
  | Some (TNames ts) => includes (typeof data) ts
  | _ => false
  end.

(** The value of [typeMatch] when the message is decided (lines 322-332). *)
Definition typeMatch (data : JsValue) (t : option SchemaType) : bool :=
  match t with
  | Some (TNames ts) =>
      includes (typeof data) ts
      || (includes "array" ts && Array_isArray data)
      || (includes "null" ts && is_null data)
  | Some (TName s) =>
      if String.eqb s "array" && Array_isArray data then true
      else if String.eqb s "null" && is_null data then true
      else if String.eqb (typeof data) s then true
      else false
  | None => false
  end.

(** [Array.isArray(schema.type) ? schema.type.join(' or ') : schema.type] *)
Definition expected_text (t : option SchemaType) : string :=
  match t with
  | Some (TNames ts) => join " or " ts
  | Some (TName s) => s
  | None => "undefined"
  end.

(** [schema.type === name] *)
Definition type_is (t : option SchemaType) (name : string) : bool :=
  match t with
  | Some (TName s) => String.eqb s name
  | _ => false
  end.

(** [key in data], [data[key]] and the keys [for (key in data)] visits, for
    a [data] that is an object, not [null] and not an array. *)
Definition value_in (key : string) (data : JsValue) : bool :=
  match data with
  | JObj props => js_in key props
  | JObjectPrototype => includes key Object_prototype_keys
  | _ => false
  end.

Definition value_get (key : string) (data : JsValue) : JsValue :=
  match data with
  | JObj props => js_get key props
  | JObjectPrototype => prototype_get key
  | _ => JUndefined
  end.

Definition value_keys (data : JsValue) : list string :=
  match data with
  | JObj props => map fst props
  | _ => []
  end.

(** [s.length] of a string: its UTF-16 code units.  Of the UTF-8 bytes,
    one that starts a character of up to three bytes stands for one code
    unit, one that starts a character of four bytes for two (a surrogate
    pair), and a continuation byte for none. *)
Fixpoint utf16_length (s : string) : nat :=
  match s with
  | EmptyString => 0
  | String c rest =>
      let byte := nat_of_ascii c in
      (if Nat.ltb byte 128 then 1
       else if Nat.ltb byte 192 then 0
       else if Nat.ltb byte 240 then 1
       else 2)
      + utf16_length rest
  end.

(** [data.length] of a string or an array *)
Definition js_length (data : JsValue) : nat :=
  match data with
  | JStr s => utf16_length s
  | JArr elems => List.length elems
  | _ => 0
  end.

(** A length as the number it is in a comparison; lengths stay below
    2^53, where the conversion is exact. *)
Definition Number_of_length (n : nat) : float :=
  PrimFloat.of_uint63 (Uint63.of_Z (Z.of_nat n)).

Definition array_elems (data : JsValue) : list JsValue :=
  match data with JArr elems => elems | _ => [] end.

(** The number a [data] with [typeof data === 'number'] holds. *)
Definition number_of (data : JsValue) : float :=
  match data with JNum x => x | _ => 0%float end.

Definition is_some {A : Type} (o : option A) : bool :=
  match o with Some _ => true | None => false end.

(** [when c body]: [if (c) { body }] *)
Definition when {S : Type} (c : bool) (body : M S unit) : M S unit :=
  if c then body else ret tt.

(** The loop [for (let i = 0; i < data.length; i++)] over the elements. *)
Definition for_each_item (validate_item : JsValue -> string -> M Env unit)
    (componentType : string) : nat -> list JsValue -> M Env unit :=
  fix go (i : nat) (elems : list JsValue) : M Env unit :=
    match elems with
    | [] => ret tt
    | x :: rest =>
        validate_item x (componentType +:+ "[" +:+ pretty i +:+ "]") ;;
        go (S i) rest
    end.

Section Validator.
Context (host : Host).

(** The text [`${data}`] of a number or a string. *)
Definition template (data : JsValue) : string :=
  match data with
  | JNum x => Number_toString host x
  | JStr s => s
  | _ => ""
  end.

Fixpoint validateComponentDataAgainstSchema (data : JsValue)
    (schema : ComponentSchema) (componentType : string) {struct schema}
    : M Env unit :=
  match schema with
  | mkSchema ty opt props req its minL maxL pat minV maxV =>
    when (type_truthy ty && type_differs data ty && negb (type_listed data ty))
      (when (negb (typeMatch data ty))
         (throw (SDKError
            ("Data for component " +:+ quoted componentType
             +:+ " has incorrect type. Expected " +:+ expected_text ty
             +:+ ", got " +:+ typeof data +:+ ".") None))) ;;
    (if type_is ty "object" then
       when (negb (String.eqb (typeof data) "object") || is_null data
             || Array_isArray data)
         (throw (SDKError
            ("Component " +:+ quoted componentType
             +:+ " data expected to be an object, got " +:+ typeof data
             +:+ ".") None)) ;;
       match req with
       | Some names =>
           for_of names (fun requiredProp =>
             when (negb (value_in requiredProp data))
               (throw (SDKError
                  ("Missing required property " +:+ quoted requiredProp
                   +:+ " for component " +:+ quoted componentType +:+ ".")
                  None)))
       | None => ret tt
       end ;;
       match props with
       | Some ps =>
           (fix each (rest : list (string * ComponentSchema)) : M Env unit :=
              match rest with
              | [] => ret tt
              | (propName, sub) :: rest' =>
                  (if value_in propName data then
                     validateComponentDataAgainstSchema
                       (value_get propName data) sub
                       (componentType +:+ "." +:+ propName)
                   else if negb (default false (optional sub))
                           && negb (match req with
                                    | Some names => includes propName names
                                    | None => false
                                    end)
                   then ret tt
                   else ret tt) ;;
                  each rest'
              end) ps ;;
           for_of (value_keys data) (fun dataKey =>
             when (negb (js_in dataKey ps))
               (console_warn
                  ("Warning: Component " +:+ quoted componentType
                   +:+ " has extra property " +:+ quoted dataKey
                   +:+ " not defined in blueprint schema.")))
       | None => ret tt
       end
     else if type_is ty "array" then
       when (negb (Array_isArray data))
         (throw (SDKError
            ("Component " +:+ quoted componentType
             +:+ " data expected to be an array, got " +:+ typeof data
             +:+ ".") None)) ;;
       match its with
       | Some it =>
           if Nat.ltb 0 (js_length data) then
             match it with
             | inl itemSchema =>
                 for_each_item
                   (fun d path =>
                      validateComponentDataAgainstSchema d itemSchema path)
                   componentType 0 (array_elems data)
             | inr (itemSchema :: _) =>
                 for_each_item
                   (fun d path =>
                      validateComponentDataAgainstSchema d itemSchema path)
                   componentType 0 (array_elems data)
             | inr [] => ret tt
             end
           else ret tt
       | None => ret tt
       end
     else ret tt) ;;
    match minL with
    | Some m =>
        when (String.eqb (typeof data) "string"
              && PrimFloat.ltb (Number_of_length (js_length data)) m)
          (throw (SDKError
             ("Component " +:+ quoted componentType +:+ " string length "
              +:+ pretty (js_length data) +:+ " is less than minimum "
              +:+ Number_toString host m +:+ ".") None))
    | None => ret tt
    end ;;
    match maxL with
    | Some m =>
        when (String.eqb (typeof data) "string"
              && PrimFloat.ltb m (Number_of_length (js_length data)))
          (throw (SDKError
             ("Component " +:+ quoted componentType +:+ " string length "
              +:+ pretty (js_length data) +:+ " exceeds maximum "
              +:+ Number_toString host m +:+ ".") None))
    | None => ret tt
    end ;;
    match minV with
    | Some m =>
        when (String.eqb (typeof data) "number"
              && PrimFloat.ltb (number_of data) m)
          (throw (SDKError
             ("Component " +:+ quoted componentType +:+ " value "
              +:+ template data +:+ " is less than minimum "
              +:+ Number_toString host m +:+ ".") None))
    | None => ret tt
    end ;;
    match maxV with
    | Some m =>
        when (String.eqb (typeof data) "number"
              && PrimFloat.ltb m (number_of data))
          (throw (SDKError
             ("Component " +:+ quoted componentType +:+ " value "
              +:+ template data +:+ " exceeds maximum "
              +:+ Number_toString host m +:+ ".") None))
    | None => ret tt
    end ;;
    match pat with
    | Some p =>
        if negb (String.eqb p "") && String.eqb (typeof data) "string" then
          matched <- outcome (RegExp_test host p (template data)) ;;
          when (negb matched)
            (throw (SDKError
               ("Component " +:+ quoted componentType +:+ " value "
                +:+ quoted (template data) +:+ " does not match pattern "
                +:+ quoted p +:+ ".") None))
        else ret tt
    | None => ret tt
    end
  end.

End Validator.

(** ** @solana/web3.js, as far as the adapters and the facade use it

    The ledger is outside the program.  A [Connection] gives, for every
    request, the outcome the remote node produces for it: a value, or the
    error the promise is rejected with. *)

Definition Buffer : Type := list Byte.byte.

(** [Buffer.from(text)] *)
Definition Buffer_from (s : string) : Buffer := String.list_byte_of_string s.

Module Web3.

Record Keypair : Type := mkKeypair {
  publicKey : PublicKey;
  secretKey : Buffer
}.

(** [AccountInfo<Buffer>]; [data] is [None] for an account object whose
    [data] is [null] or missing. *)
Record AccountInfo : Type := mkAccountInfo {
  data : option Buffer;
  owner : PublicKey;
  lamports : Z
}.

Record AccountMeta : Type := mkMeta {
  pubkey : PublicKey;
  isSigner : bool;
  isWritable : bool
}.

Inductive TransactionInstruction : Type :=
  | CreateAccount (fromPubkey newAccountPubkey : PublicKey) (lamports : Z)
      (space : nat) (programId : PublicKey)
  | Instruction (keys : list AccountMeta) (programId : PublicKey) (data : Buffer).

Definition Transaction : Type := list TransactionInstruction.

Record Connection : Type := mkConnection {
  getAccountInfo : PublicKey -> JsError + option AccountInfo;
  getMultipleAccountsInfo : list PublicKey -> JsError + list (option AccountInfo);
  getMinimumBalanceForRentExemption : nat -> JsError + Z;
  sendTransaction : Transaction -> list Keypair -> JsError + string;
  confirmTransaction : string -> string -> JsError + unit
}.

(** The module-level functions. [generate n] is the keypair the [n]-th
    call of [Keypair.generate()] returns. *)
Record Lib : Type := mkLib {
  findProgramAddressSync : list Buffer -> PublicKey -> JsError + (PublicKey * Z);
  sendAndConfirmTransaction :
    Connection -> Transaction -> list Keypair -> JsError + string;
  generate : nat -> Keypair;
  SystemProgram_programId : PublicKey
}.

(** [Keypair.generate()] *)
Definition Keypair_generate (lib : Lib) : M Env Keypair :=
  fun env =>
    (inr (generate lib (generated env)),
     mkEnv (console env) (S (generated env))).

End Web3.

(** ** StoragePort.ts *)

Record StoragePort : Type := mkStoragePort {
  getData : PublicKey -> M Env (option Buffer);
  getMultipleAccounts : list PublicKey -> M Env (list (option Buffer));
  sendTransaction : Web3.Transaction -> M Env string;
  getConnection : Web3.Connection;
  getProgramId : PublicKey;
  createEntity : Buffer -> Web3.Keypair -> option string -> M Env string;
  getEntityDataById : string -> option string -> M Env (option Buffer);
  setEntityDataById : string -> Buffer -> Web3.Keypair -> option string -> M Env string;
  deleteEntityById : string -> Web3.Keypair -> option string -> M Env string
}.

(** A parameter [worldName: string = "default_world"] *)
Definition worldName_or_default (worldName : option string) : string :=
  default "default_world" worldName.

(** ** storage/SolanaStorageAdapter.ts (the adapter the facade constructs) *)

Module SolanaStorageAdapter.
Section Adapter.
Context (lib : Web3.Lib).

Record t : Type := mk {
  connection : Web3.Connection;
  programId : PublicKey
}.

(** [accountInfo?.data || null]; a [Buffer] is an object and so truthy
    whatever its length. *)
Definition data_or_null (accountInfo : option Web3.AccountInfo) : option Buffer :=
  match accountInfo with
  | Some info => Web3.data info
  | None => None
  end.

Definition getData (this : t) (address : PublicKey) : M Env (option Buffer) :=
  try_catch
    (accountInfo <- outcome (Web3.getAccountInfo (connection this) address) ;;
     ret (data_or_null accountInfo))
    (fun error =>
       console_error "Error fetching data from SolanaStorageAdapter:" error ;;
       ret None).

Definition getMultipleAccounts (this : t) (addresses : list PublicKey)
    : M Env (list (option Buffer)) :=
  try_catch
    (accountsInfo <-
       outcome (Web3.getMultipleAccountsInfo (connection this) addresses) ;;
     ret (map data_or_null accountsInfo))
    (fun error =>
       console_error
         "Error fetching multiple accounts from SolanaStorageAdapter:" error ;;
       ret (replicate (List.length addresses) None)).

Definition sendTransaction (this : t) (transaction : Web3.Transaction)
    : M Env string :=
  try_catch
    (signature <-
       outcome (Web3.sendTransaction (connection this) transaction []) ;;
     outcome (Web3.confirmTransaction (connection this) signature "confirmed") ;;
     ret signature)
    (fun error =>
       console_error "Error sending transaction from SolanaStorageAdapter:"
         error ;;
       throw error).

Definition getConnection (this : t) : Web3.Connection := connection this.

Definition getProgramId (this : t) : PublicKey := programId this.

Definition createEntity (this : t) (entityData : Buffer) (payer : Web3.Keypair)
    (worldName : option string) : M Env string :=
  let worldName := worldName_or_default worldName in
  try_catch
    (let connection := getConnection this in
     let programId := getProgramId this in
     pda <- outcome (Web3.findProgramAddressSync lib
              [Buffer_from "world"; Buffer_from worldName] programId) ;;
     let worldPDA := fst pda in
     console_log ("Target World PDA: " +:+ toBase58 worldPDA) ;;
     entityAccount <- Web3.Keypair_generate lib ;;
     console_log ("New Entity Account: "
                  +:+ toBase58 (Web3.publicKey entityAccount)) ;;
     lamportsForEntityAccount <-
       outcome (Web3.getMinimumBalanceForRentExemption connection
                  (List.length entityData)) ;;
     let transaction :=
       [ Web3.CreateAccount (Web3.publicKey payer)
           (Web3.publicKey entityAccount) lamportsForEntityAccount
           (List.length entityData) programId;
         Web3.Instruction
           [ Web3.mkMeta (Web3.publicKey payer) true true;
             Web3.mkMeta worldPDA false true;
             Web3.mkMeta (Web3.publicKey entityAccount) false true;
             Web3.mkMeta (Web3.SystemProgram_programId lib) false false ]
           programId entityData ] in
     signature <-
       outcome (Web3.sendAndConfirmTransaction lib connection transaction
                  [payer; entityAccount]) ;;
     console_log ("Entity created successfully. Entity Account: "
                  +:+ toBase58 (Web3.publicKey entityAccount)
                  +:+ ", Transaction: " +:+ signature) ;;
     ret signature)
    (fun error =>
       console_error "Error in SolanaStorageAdapter.createEntity:" error ;;
       if instanceof_Error error
       then throw (Error ("Failed to create entity: " +:+ error_message error))
       else throw (Error "Failed to create entity due to an unknown error.")).

Definition entityPDA (this : t) (entityId worldName : string)
    : JsError + (PublicKey * Z) :=
  Web3.findProgramAddressSync lib
    [Buffer_from "entity"; Buffer_from worldName; Buffer_from entityId]
    (getProgramId this).

Definition getEntityDataById (this : t) (entityId : string)
    (worldName : option string) : M Env (option Buffer) :=
  let worldName := worldName_or_default worldName in
  try_catch
    (pda <- outcome (entityPDA this entityId worldName) ;;
     console_log ("Derived Entity PDA for ID " +:+ quoted entityId
                  +:+ " in world " +:+ quoted worldName +:+ ": "
                  +:+ toBase58 (fst pda)) ;;
     getData this (fst pda))
    (fun error =>
       console_error
         ("Error in SolanaStorageAdapter.getEntityDataById for entityId "
          +:+ quoted entityId +:+ ":") error ;;
       ret None).

Definition setEntityDataById (this : t) (entityId : string) (newData : Buffer)
    (payer : Web3.Keypair) (worldName : option string) : M Env string :=
  let worldName := worldName_or_default worldName in
  try_catch
    (let connection := getConnection this in
     let programId := getProgramId this in
     pda <- outcome (entityPDA this entityId worldName) ;;
     console_log ("Target Entity PDA for update: " +:+ toBase58 (fst pda)) ;;
     let transaction :=
       [ Web3.Instruction
           [ Web3.mkMeta (Web3.publicKey payer) true false;
             Web3.mkMeta (fst pda) false true ]
           programId newData ] in
     signature <-
       outcome (Web3.sendAndConfirmTransaction lib connection transaction
                  [payer]) ;;
     console_log ("Entity data updated successfully for PDA "
                  +:+ toBase58 (fst pda) +:+ ". Transaction: " +:+ signature) ;;
     ret signature)
    (fun error =>
       console_error
         ("Error in SolanaStorageAdapter.setEntityDataById for entityId "
          +:+ quoted entityId +:+ ":") error ;;
       if instanceof_Error error
       then throw (Error ("Failed to set entity data: "
                          +:+ error_message error))
       else throw (Error "Failed to set entity data due to an unknown error.")).

Definition deleteEntityById (this : t) (entityId : string)
    (payer : Web3.Keypair) (worldName : option string) : M Env string :=
  let worldName := worldName_or_default worldName in
  try_catch
    (let connection := getConnection this in
     let programId := getProgramId this in
     pda <- outcome (entityPDA this entityId worldName) ;;
     console_log ("Target Entity PDA for deletion: " +:+ toBase58 (fst pda)) ;;
     let transaction :=
       [ Web3.Instruction
           [ Web3.mkMeta (Web3.publicKey payer) true true;
             Web3.mkMeta (fst pda) false true ]
           programId (Buffer_from "") ] in
     signature <-
       outcome (Web3.sendAndConfirmTransaction lib connection transaction
                  [payer]) ;;
     console_log ("Entity deleted successfully for PDA "
                  +:+ toBase58 (fst pda) +:+ ". Transaction: " +:+ signature) ;;
     ret signature)
    (fun error =>
       console_error
         ("Error in SolanaStorageAdapter.deleteEntityById for entityId "
          +:+ quoted entityId +:+ ":") error ;;
       if instanceof_Error error
       then throw (Error ("Failed to delete entity: " +:+ error_message error))
       else throw (Error "Failed to delete entity due to an unknown error.")).

(** The adapter as an implementation of [StoragePort]. *)
Definition port (this : t) : StoragePort :=
  mkStoragePort (getData this) (getMultipleAccounts this)
    (sendTransaction this) (getConnection this) (getProgramId this)
    (createEntity this) (getEntityDataById this) (setEntityDataById this)
    (deleteEntityById this).

End Adapter.
End SolanaStorageAdapter.

(** ** The adapter generation that raises [SolanaStorageError]: its reads *)

Module StrictSolanaStorageAdapter.
Section Adapter.
Context (lib : Web3.Lib).

Record t : Type := mk {
  connection : Web3.Connection;
  programId : PublicKey
}.

(** [!accountInfo || !accountInfo.data] is false exactly when both are
    there; the payload is then [accountInfo.data]. *)
Definition payload (accountInfo : option Web3.AccountInfo) : option Buffer :=
  match accountInfo with
  | Some info => Web3.data info
  | None => None
  end.

Definition getData (this : t) (address : PublicKey) : M Env (option Buffer) :=
  try_catch
    (accountInfo <- outcome (Web3.getAccountInfo (connection this) address) ;;
     match payload accountInfo with
     | None =>
         throw (SolanaStorageError
                  ("Account data not found for address " +:+ toBase58 address)
                  "DATA_FETCH_ERROR")
     | Some d => ret (Some d)
     end)
    (fun error =>
       console_error "Error fetching data from SolanaStorageAdapter:" error ;;
       throw (SolanaStorageError
                ("Failed to fetch data for address " +:+ toBase58 address
                 +:+ ": " +:+ error_message error)
                "DATA_FETCH_ERROR")).

(** The callback of [accountsInfo.map((info, index) => ...)], applied from
    index 0 upwards; [addresses[index]] is [undefined] past the end of
    [addresses], and calling [toString] on it is a [TypeError]. *)
Fixpoint map_accounts (addresses : list PublicKey) (index : nat)
    (accountsInfo : list (option Web3.AccountInfo))
    : M Env (list (option Buffer)) :=
  match accountsInfo with
  | [] => ret []
  | info :: rest =>
      d <- match payload info with
           | None =>
               match addresses !! index with
               | Some address =>
                   throw (SolanaStorageError
                            ("Account data not found for address "
                             +:+ toBase58 address)
                            "MULTIPLE_ACCOUNTS_FETCH_ERROR")
               | None =>
                   throw (TypeError
                            "Cannot read properties of undefined (reading 'toString')")
               end
           | Some d => ret d
           end ;;
      results <- map_accounts addresses (S index) rest ;;
      ret (Some d :: results)
  end.

Definition getMultipleAccounts (this : t) (addresses : list PublicKey)
    : M Env (list (option Buffer)) :=
  try_catch
    (accountsInfo <-
       outcome (Web3.getMultipleAccountsInfo (connection this) addresses) ;;
     results <- map_accounts addresses 0 accountsInfo ;;
     ret results)
    (fun error =>
       console_error
         "Error fetching multiple accounts from SolanaStorageAdapter:" error ;;
       throw (SolanaStorageError
                ("Failed to fetch multiple accounts: " +:+ error_message error)
                "MULTIPLE_ACCOUNTS_FETCH_ERROR")).

Definition getEntityDataById (this : t) (entityId worldName : string)
    : M Env (option Buffer) :=
  try_catch
    (let entitySeed := Buffer_from entityId in
     let worldSeed := Buffer_from worldName in
     let entityPrefix := Buffer_from "entity" in
     pda <- outcome (Web3.findProgramAddressSync lib
              [entityPrefix; worldSeed; entitySeed] (programId this)) ;;
     let entityPda := fst pda in
     console_log ("Derived Entity PDA for ID " +:+ quoted entityId
                  +:+ " in world " +:+ quoted worldName +:+ ": "
                  +:+ toBase58 entityPda) ;;
     accountInfo <-
       outcome (Web3.getAccountInfo (connection this) entityPda) ;;
     match payload accountInfo with
     | None =>
         throw (SolanaStorageError
                  ("Entity " +:+ entityId +:+ " not found in world "
                   +:+ worldName)
                  "ENTITY_GET_ERROR")
     | Some d => ret (Some d)
     end)
    (fun error =>
       console_error
         ("Error in SolanaStorageAdapter.getEntityDataById for entityId "
          +:+ quoted entityId +:+ ":") error ;;
       throw (SolanaStorageError
                ("Failed to get entity data for ID " +:+ entityId +:+ ": "
                 +:+ error_message error)
                "ENTITY_GET_ERROR")).


(** *** The writes of the same adapter *)

Definition sendTransaction (this : t) (transaction : Web3.Transaction)
    : M Env string :=
  try_catch
    (signature <-
       outcome (Web3.sendTransaction (connection this) transaction []) ;;
     outcome (Web3.confirmTransaction (connection this) signature "confirmed") ;;
     ret signature)
    (fun error =>
       console_error "Error sending transaction from SolanaStorageAdapter:"
         error ;;
       throw (SolanaStorageError
                ("Transaction failed: " +:+ error_message error)
                "TRANSACTION_SEND_ERROR")).

Definition getConnection (this : t) : Web3.Connection := connection this.

Definition getProgramId (this : t) : PublicKey := programId this.

(** The private [sendAndConfirmTransaction(transaction, signers)] *)
Definition sendAndConfirmTransaction (this : t)
    (transaction : Web3.Transaction) (signers : list Web3.Keypair)
    : M Env string :=
  try_catch
    (signature <-
       outcome (Web3.sendTransaction (connection this) transaction signers) ;;
     outcome (Web3.confirmTransaction (connection this) signature "confirmed") ;;
     ret signature)
    (fun error =>
       throw (SolanaStorageError
                ("Transaction failed: " +:+ error_message error)
                "TRANSACTION_SEND_ERROR")).

Definition createEntity (this : t) (entityData : Buffer) (payer : Web3.Keypair)
    (worldName : string) : M Env string :=
  try_catch
    (let worldSeed := Buffer_from "world" in
     let worldNameSeed := Buffer_from worldName in
     pda <- outcome (Web3.findProgramAddressSync lib
              [worldSeed; worldNameSeed] (programId this)) ;;
     let worldPda := fst pda in
     console_log ("Target World PDA: " +:+ toBase58 worldPda) ;;
     entityAccount <- Web3.Keypair_generate lib ;;
     console_log ("New Entity Account: "
                  +:+ toBase58 (Web3.publicKey entityAccount)) ;;
     rentExemptionAmount <-
       outcome (Web3.getMinimumBalanceForRentExemption (connection this)
                  (List.length entityData)) ;;
     let transaction :=
       [ Web3.CreateAccount (Web3.publicKey payer)
           (Web3.publicKey entityAccount) rentExemptionAmount
           (List.length entityData) (programId this);
         Web3.Instruction
           [ Web3.mkMeta (Web3.publicKey payer) true true;
             Web3.mkMeta (Web3.publicKey entityAccount) false true;
             Web3.mkMeta worldPda false true ]
           (programId this) entityData ] in
     signature <-
       sendAndConfirmTransaction this transaction [payer; entityAccount] ;;
     console_log ("Entity created successfully. Entity Account: "
                  +:+ toBase58 (Web3.publicKey entityAccount)
                  +:+ ", Transaction: " +:+ signature) ;;
     ret signature)
    (fun error =>
       console_error "Error in SolanaStorageAdapter.createEntity:" error ;;
       throw (SolanaStorageError
                ("Failed to create entity: " +:+ error_message error)
                "ENTITY_CREATE_ERROR")).

(** The derivation [setEntityDataById] and [deleteEntityById] start with,
    as [getEntityDataById] does. *)
Definition entityPda (this : t) (entityId worldName : string)
    : JsError + (PublicKey * Z) :=
  let entitySeed := Buffer_from entityId in
  let worldSeed := Buffer_from worldName in
  let entityPrefix := Buffer_from "entity" in
  Web3.findProgramAddressSync lib [entityPrefix; worldSeed; entitySeed]
    (programId this).

Definition setEntityDataById (this : t) (entityId : string) (data : Buffer)
    (payer : Web3.Keypair) (worldName : string) : M Env string :=
  try_catch
    (pda <- outcome (entityPda this entityId worldName) ;;
     let entityPda := fst pda in
     console_log ("Target Entity PDA for update: " +:+ toBase58 entityPda) ;;
     let transaction :=
       [ Web3.Instruction
           [ Web3.mkMeta (Web3.publicKey payer) true true;
             Web3.mkMeta entityPda false true ]
           (programId this) data ] in
     signature <- sendAndConfirmTransaction this transaction [payer] ;;
     console_log ("Entity data updated successfully for PDA "
                  +:+ toBase58 entityPda +:+ ". Transaction: " +:+ signature) ;;
     ret signature)
    (fun error =>
       console_error
         ("Error in SolanaStorageAdapter.setEntityDataById for entityId "
          +:+ quoted entityId +:+ ":") error ;;
       throw (SolanaStorageError
                ("Failed to set entity data for ID " +:+ entityId +:+ ": "
                 +:+ error_message error)
                "ENTITY_SET_ERROR")).

Definition deleteEntityById (this : t) (entityId : string)
    (payer : Web3.Keypair) (worldName : string) : M Env string :=
  try_catch
    (pda <- outcome (entityPda this entityId worldName) ;;
     let entityPda := fst pda in
     console_log ("Target Entity PDA for deletion: " +:+ toBase58 entityPda) ;;
     let transaction :=
       [ Web3.Instruction
           [ Web3.mkMeta (Web3.publicKey payer) true true;
             Web3.mkMeta entityPda false true ]
           (programId this) [] ] in
     signature <- sendAndConfirmTransaction this transaction [payer] ;;
     console_log ("Entity deleted successfully for PDA "
                  +:+ toBase58 entityPda +:+ ". Transaction: " +:+ signature) ;;
     ret signature)
    (fun error =>
       console_error
         ("Error in SolanaStorageAdapter.deleteEntityById for entityId "
          +:+ quoted entityId +:+ ":") error ;;
       throw (SolanaStorageError
                ("Failed to delete entity with ID " +:+ entityId +:+ ": "
                 +:+ error_message error)
                "ENTITY_DELETE_ERROR")).

(** [Buffer.from([worldBump])]: one byte, the number modulo 256. *)
Definition bump_byte (worldBump : Z) : Buffer :=
  match Byte.of_N (Z.to_N (worldBump mod 256)) with
  | Some b => [b]
  | None => [Byte.x00]
  end.

Definition migrate (this : t) (worldName : string) (payer : Web3.Keypair)
    : M Env string :=
  try_catch
    (let worldSeed := Buffer_from worldName in
     pda <- outcome (Web3.findProgramAddressSync lib [worldSeed]
                       (programId this)) ;;
     let worldPda := fst pda in
     let worldBump := snd pda in
     console_log ("Migrating World PDA: " +:+ toBase58 worldPda) ;;
     let transaction :=
       [ Web3.Instruction
           [ Web3.mkMeta (Web3.publicKey payer) true true;
             Web3.mkMeta worldPda false true ]
           (programId this) (bump_byte worldBump) ] in
     signature <- sendAndConfirmTransaction this transaction [payer] ;;
     console_log ("World migrated successfully. Transaction: " +:+ signature) ;;
     ret signature)
    (fun error =>
       console_error "Error in SolanaStorageAdapter.migrate:" error ;;
       throw (SolanaStorageError
                ("Failed to migrate world: " +:+ error_message error)
                "WORLD_MIGRATE_ERROR")).

End Adapter.
End StrictSolanaStorageAdapter.

(** ** RushSDK.ts: the facade

    The session methods that only forward to [SessionAuth] (a module this
    development does not cover) are left out, and with them the
    [sessionAuth] field. *)

Record RushSDK : Type := mkRushSDK {
  world : World;
  storage : StoragePort;
  wallet : option Web3.Keypair;
  blueprint : option Types.IBluePrint;
  userWalletPublicKey : option PublicKey;
  activeSessionKeypair : option Web3.Keypair
}.

(** Everything a facade method can read or change: the ambient state, the
    heap of [Map] objects, and the facade object itself. *)
Record Machine : Type := mkMachine {
  env : Env;
  heap : Heap;
  sdk : RushSDK
}.

Definition lift_env {A : Type} (c : M Env A) : M Machine A :=
  fun m =>
    let '(r, e) := c (env m) in (r, mkMachine e (heap m) (sdk m)).

Definition get_sdk : M Machine RushSDK := fun m => (inr (sdk m), m).

Definition put_sdk (s : RushSDK) : M Machine unit :=
  fun m => (inr tt, mkMachine (env m) (heap m) s).

Module RushSDKOps.
Section Facade.
Context (host : Host) (lib : Web3.Lib).

Definition loadBlueprint (blueprintPath : string) (this : RushSDK)
    : M Env RushSDK :=
  try_catch
    (parsed <- outcome (read_blueprint host blueprintPath) ;;
     match parsed with
     | Some bp =>
         if String.eqb (Types.name bp) "" || negb (is_some (Types.entities bp))
         then throw (Error "Invalid blueprint structure.")
         else
           console_log ("Blueprint " +:+ quoted (Types.name bp)
                        +:+ " loaded successfully.") ;;
           ret (mkRushSDK (world this) (storage this) (wallet this) (Some bp)
                  (userWalletPublicKey this) (activeSessionKeypair this))
     | None => throw (Error "Invalid blueprint structure.")
     end)
    (fun error =>
       throw (SDKError ("Failed to load blueprint from " +:+ blueprintPath)
                (Some error))).

(** [new RushSDK(connection, programId, blueprintPath?)] *)
Definition new (connection : Web3.Connection) (programId : PublicKey)
    (blueprintPath : option string) : M Env RushSDK :=
  let this :=
    mkRushSDK WorldOps.new
      (SolanaStorageAdapter.port lib
         (SolanaStorageAdapter.mk connection programId))
      None None None None in
  match blueprintPath with
  | Some path =>
      if negb (String.eqb path "") then loadBlueprint path this else ret this
  | None => ret this
  end.

Definition setPrimaryWallet (w : Web3.Keypair) : M Machine unit :=
  this <- get_sdk ;;
  put_sdk (mkRushSDK (world this) (storage this) (Some w) (blueprint this)
             (Some (Web3.publicKey w)) None) ;;
  lift_env (console_log ("Primary wallet set: "
                         +:+ toBase58 (Web3.publicKey w))).

Definition getActivePayer : M Machine Web3.Keypair :=
  this <- get_sdk ;;
  match activeSessionKeypair this with
  | Some session =>
      lift_env (console_log "Using active session keypair as payer.") ;;
      ret session
  | None =>
      match wallet this with
      | Some w =>
          lift_env (console_log "Using primary wallet as payer.") ;;
          ret w
      | None =>
          throw (SDKError
                   "No active payer wallet found. Set a primary wallet or create and activate a session."
                   None)
      end
  end.

Definition activateSessionKeypair (sessionKeypair : Web3.Keypair)
    : M Machine unit :=
  this <- get_sdk ;;
  put_sdk (mkRushSDK (world this) (storage this) (Some sessionKeypair)
             (blueprint this) (userWalletPublicKey this)
             (Some sessionKeypair)) ;;
  lift_env (console_log ("Session activated with keypair: "
                         +:+ toBase58 (Web3.publicKey sessionKeypair))).

Definition deactivateSession : M Machine unit :=
  this <- get_sdk ;;
  lift_env (console_log
    ("Deactivating session keypair: "
     +:+ match activeSessionKeypair this with
         | Some session => toBase58 (Web3.publicKey session)
         | None => "undefined"
         end)) ;;
  put_sdk (mkRushSDK (world this) (storage this) None (blueprint this)
             (userWalletPublicKey this) None) ;;
  lift_env (console_log
    "Session deactivated. SDK will use primary wallet if set, or require a new session/wallet.").

Definition setWallet (w : Web3.Keypair) : M Machine unit :=
  lift_env (console_warn
    "setWallet is called. Consider using setPrimaryWallet or activateSessionKeypair for clarity with session management.") ;;
  this <- get_sdk ;;
  let user :=
    match userWalletPublicKey this with
    | Some pk =>
        if negb (String.eqb (toBase58 pk) (toBase58 (Web3.publicKey w)))
        then Some (Web3.publicKey w) else Some pk
    | None => Some (Web3.publicKey w)
    end in
  put_sdk (mkRushSDK (world this) (storage this) (Some w) (blueprint this)
             user None).

Definition getWorld : M Machine World := this <- get_sdk ;; ret (world this).

Definition getStorage : M Machine StoragePort :=
  this <- get_sdk ;; ret (storage this).

(** [this.world.createEntity(id, publicKey)] *)
Definition world_createEntity (i : string) (pk : PublicKey) : M Machine Entity :=
  fun m =>
    let this := sdk m in
    let '(entity, w1, h1) := WorldOps.createEntity i pk (world this) (heap m) in
    (inr entity,
     mkMachine (env m) h1
       (mkRushSDK w1 (storage this) (wallet this) (blueprint this)
          (userWalletPublicKey this) (activeSessionKeypair this))).

(** [entity.addComponent(componentType, data)] *)
Definition entity_addComponent (e : Entity) (componentType : string)
    (d : JsValue) : M Machine unit :=
  fun m =>
    (inr tt,
     mkMachine (env m) (EntityOps.addComponent e componentType d (heap m))
       (sdk m)).

(** [componentSchemas[componentType]] once [componentType in
    componentSchemas] holds: the own entry, or else an inherited member of
    [Object.prototype], none of which has a schema field. *)
Definition schema_at (componentType : string)
    (schemas : list (string * ComponentSchema)) : ComponentSchema :=
  default no_schema (own_property componentType schemas).

Definition processComponent (entityId componentType : string)
    (componentData : JsValue) : M Machine unit :=
  this <- get_sdk ;;
  match blueprint this with
  | Some bp =>
      match Types.componentSchemas bp with
      | Some schemas =>
          when (negb (js_in componentType schemas))
            (throw (SDKError
               ("Component type " +:+ quoted componentType
                +:+ " is not defined in the blueprint's componentSchemas.")
               None)) ;;
          let schema := schema_at componentType schemas in
          lift_env (validateComponentDataAgainstSchema host componentData
                      schema componentType) ;;
          serialized <- outcome (JSON_stringify host componentData) ;;
          lift_env (console_log
            ("Component " +:+ quoted componentType +:+ " for entity "
             +:+ quoted entityId
             +:+ " validated successfully against blueprint. Data: "
             +:+ serialized))
      | None =>
          lift_env (console_warn
            ("Blueprint " +:+ quoted (Types.name bp)
             +:+ " is loaded but does not contain a 'componentSchemas' definition. Skipping validation for component "
             +:+ quoted componentType +:+ "."))
      end
  | None => ret tt
  end ;;
  this <- get_sdk ;;
  match WorldOps.getEntity entityId (world this) with
  | Some entity => entity_addComponent entity componentType componentData
  | None =>
      lift_env (console_warn
        ("Entity " +:+ quoted entityId +:+ " not found locally. Component "
         +:+ quoted componentType +:+ " was validated but not added."))
  end.

(** [serializeEntityData(entity)]; [entity.getComponents()] allocates the
    copy it returns, and [JSON.stringify] may throw. *)
Definition serializeEntityData (entity : Entity) : M Machine Buffer :=
  fun m =>
    let '(copy, h1) := EntityOps.getComponents entity (heap m) in
    let document :=
      JObj [ ("id", JStr (EntityOps.getId entity));
             ("owner", JStr (toBase58 (EntityOps.getPublicKey entity)));
             ("components",
              JObj (Object_fromEntries (default JsMap.empty (h1 !! copy)))) ]
      in
    match JSON_stringify host document with
    | inr serialized =>
        (inr (Buffer_from serialized), mkMachine (env m) h1 (sdk m))
    | inl error => (inl error, mkMachine (env m) h1 (sdk m))
    end.

Definition createEntity (components : list (string * JsValue))
    : M Machine Entity :=
  payer <- getActivePayer ;;
  entityAccount <- lift_env (Web3.Keypair_generate lib) ;;
  let entityId := toBase58 (Web3.publicKey entityAccount) in
  entity <- world_createEntity entityId (Web3.publicKey entityAccount) ;;
  for_of components (fun '(componentType, d) =>
    processComponent entityId componentType d) ;;
  serializedEntityData <- serializeEntityData entity ;;
  try_catch
    (this <- get_sdk ;;
     signature <- lift_env (createEntity (storage this) serializedEntityData
                              payer (Some "default_world")) ;;
     lift_env (console_log ("Entity " +:+ entityId
                            +:+ " created on-chain. Signature: "
                            +:+ signature)))
    (fun error =>
       throw (SDKError ("Failed to save entity " +:+ entityId
                        +:+ " to chain during creation.") (Some error))) ;;
  ret entity.

Definition saveEntityToChain (entity : Entity) : M Machine unit :=
  payer <- getActivePayer ;;
  try_catch
    (serializedData <- serializeEntityData entity ;;
     this <- get_sdk ;;
     lift_env (setEntityDataById (storage this) (EntityOps.getId entity)
                 serializedData payer (Some "default_world")) ;;
     lift_env (console_log ("Entity " +:+ EntityOps.getId entity
                            +:+ " saved/updated on chain via setEntityDataById.")))
    (fun error =>
       throw (SDKError ("Failed to save entity " +:+ EntityOps.getId entity
                        +:+ " to chain") (Some error))).

(** [saveToChain()].  The test [if (!payer)] after [getActivePayer()]
    never fires: a keypair is an object. *)
Definition saveToChain : M Machine unit :=
  payer <- getActivePayer ;;
  lift_env (console_log "Saving world state to the blockchain...") ;;
  try_catch
    (entitiesToSave <-
       (fun m => (inr (WorldOps.query [] (world (sdk m)) (heap m)), m)) ;;
     for_of entitiesToSave saveEntityToChain ;;
     lift_env (console_log "World state saved to blockchain."))
    (fun error =>
       throw (SDKError "Failed to save world state to chain" (Some error))).

End Facade.
End RushSDKOps.

(** ** Statements about outcomes *)

(** The outcome [r] is a thrown [SolanaStorageError] with code [code]. *)
Definition raises_storage_error {A : Type} (code : string)
    (r : (JsError + A) * Env) : Prop :=
  exists message, fst r = inl (SolanaStorageError message code).

(** A single read ended with a payload or with a [SolanaStorageError] of
    code [code], not with the absent value; and the same for a batch read,
    none of whose results is then absent. *)
Definition payload_or_typed_error (code : string)
    (r : (JsError + option Buffer) * Env) : Prop :=
  match fst r with
  | inr (Some _) => True
  | inr None => False
  | inl e => error_name e = "SolanaStorageError" /\ error_code e = Some code
  end.

Definition payloads_or_typed_error (code : string)
    (r : (JsError + list (option Buffer)) * Env) : Prop :=
  match fst r with
  | inr results => Forall (fun result => result <> None) results
  | inl e => error_name e = "SolanaStorageError" /\ error_code e = Some code
  end.




(** The message of [getActivePayer] when there is no payer. *)
Definition no_payer : JsError :=
  SDKError
    "No active payer wallet found. Set a primary wallet or create and activate a session."
    None.

(** The statements of [RushSDKOps.createEntity] that precede its [try]
    block (lines 249-264): payer, fresh account, local entity, components,
    serialized record. *)
Definition createEntity_local (host : Host) (lib : Web3.Lib)
    (components : list (string * JsValue))
    : M Machine (Web3.Keypair * Entity * Buffer) :=
  payer <- RushSDKOps.getActivePayer ;;
  entityAccount <- lift_env (Web3.Keypair_generate lib) ;;
  let entityId := toBase58 (Web3.publicKey entityAccount) in
  entity <- RushSDKOps.world_createEntity entityId
              (Web3.publicKey entityAccount) ;;
  for_of components (fun '(componentType, d) =>
    RushSDKOps.processComponent host entityId componentType d) ;;
  serializedEntityData <- RushSDKOps.serializeEntityData host entity ;;
  ret (payer, entity, serializedEntityData).

(** The component data an object literal leaves under [componentType]: the
    last entry with that name. *)
Definition last_entry (componentType : string)
    (components : list (string * JsValue)) : JsValue :=
  default JUndefined (own_property componentType (rev components)).

(** The heap after [addComponent] was called on [e] for every entry of
    [comps], in order. *)
Definition attach_all (e : Entity) (comps : list (string * JsValue)) (h : Heap)
    : Heap :=
  fold_left (fun h' '(ty, d) => EntityOps.addComponent e ty d h') comps h.

(** ** Scenarios *)

(** The scenario of the specification: [e1] with [position] and
    [renderable], [e2] with [position] only. *)
Definition two_entities : State :=
  let '(e1, w1, h1) := WorldOps.createEntity "e1" "pk1" WorldOps.new [] in
  let '(e2, w2, h2) := WorldOps.createEntity "e2" "pk2" w1 h1 in
  let h3 := EntityOps.addComponent e1 "position" (JNum 1) h2 in
  let h4 := EntityOps.addComponent e1 "renderable" (JBool true) h3 in
  let h5 := EntityOps.addComponent e2 "position" (JNum 2) h4 in
  (w2, h5).

(** A system in the manner of the test suite's mock: it queries and is
    done.  The client script queries, creates an entity, registers the
    system, ticks the World, queries again and removes the entity. *)
Definition mock_system (names : list string) : SystemPort :=
  fun _ => CallQuery names (fun _ => Done).

Definition client_script : Script :=
  CallQuery ["position"] (fun _ =>
  CallCreateEntity "e1" "pk1" (fun e1 =>
  CallAddComponent e1 "position" (JNum 0) (
  CallAddSystem (mock_system ["position"]) (
  CallUpdate 1 (
  CallQuery ["position"] (fun _ =>
  CallRemoveEntity "e1" (fun _ =>
  CallQuery ["position"] (fun _ => Done)))))))).

(** The payload of the specification's example: [{x: "wrong", y: 20}]. *)
Definition wrong_position : JsValue :=
  JObj [("x", JStr "wrong"); ("y", JNum 20)].

(** The blueprint of the test suite. *)
Definition typed (t : string) : ComponentSchema :=
  mkSchema (Some (TName t)) None None None None None None None None None.

Definition Position_schema : ComponentSchema :=
  mkSchema (Some (TName "object")) None
    (Some [ ("x", typed "number"); ("y", typed "number");
            ("z", mkSchema (Some (TName "number")) (Some true) None None None
                    None None None None None) ])
    (Some ["x"; "y"]) None None None None None None.

Definition Health_schema : ComponentSchema :=
  mkSchema (Some (TName "object")) None
    (Some [ ("current", mkSchema (Some (TName "number")) None None None None
                          None None None (Some 0%float) None);
            ("max", mkSchema (Some (TName "number")) None None None None
                      None None None (Some 1%float) None) ])
    (Some ["current"; "max"]) None None None None None None.

Definition Name_schema : ComponentSchema :=
  mkSchema (Some (TName "string")) None None None None (Some 1%float)
    (Some 50%float)
    None None None.

Definition Inventory_schema : ComponentSchema :=
  mkSchema (Some (TName "array")) None None None (Some (inl (typed "string")))
    None None None None None.

Definition sampleBlueprint : Types.IBluePrint :=
  Types.mkBluePrint "TestBlueprint" "A test blueprint"
    (Some [ ("Position", Position_schema); ("Health", Health_schema);
            ("PlayerTag", typed "boolean"); ("Name", Name_schema);
            ("Inventory", Inventory_schema) ])
    (Some (Types.mkBTreeMap "" "" "")) (Some (Types.mkBTreeMap "" "" ""))
    (Some (Types.mkBTreeMap "" "" "")).

(** Whether a [bigint] occurs in the value. *)
Fixpoint contains_bigint (v : JsValue) : bool :=
  match v with
  | JBigInt _ => true
  | JArr elems => existsb contains_bigint elems
  | JObj props => existsb (fun prop => contains_bigint (snd prop)) props
  | _ => false
  end.

(** The integer a finite number is, if it is one and lies between -2^53
    and 2^53: its mantissa times the power of two of its exponent. *)
Definition integer_of (x : float) : option Z :=
  match Prim2SF x with
  | S754_zero _ => Some 0%Z
  | S754_finite negative m e =>
      let magnitude :=
        if (0 <=? e)%Z then Some (Z.pos m * 2 ^ e)%Z
        else if (Z.pos m mod 2 ^ (- e) =? 0)%Z
             then Some (Z.pos m / 2 ^ (- e))%Z
             else None in
      match magnitude with
      | Some n =>
          if (n <=? 2 ^ 53)%Z then Some (if negative then - n else n)%Z
          else None
      | None => None
      end
  | _ => None
  end.

(** The text of a number, for the numbers the scenarios print: an integer
    between -2^53 and 2^53 by its digits, and the three numbers that are
    not finite by their names.  (What JavaScript prints for the other
    numbers is not needed here; the sample host shows them as [?].) *)
Definition sample_Number_toString (x : float) : string :=
  match integer_of x with
  | Some n => pretty n
  | None =>
      match Prim2SF x with
      | S754_nan => "NaN"
      | S754_infinity false => "Infinity"
      | S754_infinity true => "-Infinity"
      | _ => "?"
      end
  end.

(** A host, a node that rejects every request, and a library whose
    transactions fail.  The host matches every pattern and refuses to
    serialize a value that holds a [bigint], as [JSON.stringify] does. *)
Definition sample_host : Host :=
  mkHost (fun _ _ => inr true)
    (fun v =>
       if contains_bigint v
       then inl (TypeError "Do not know how to serialize a BigInt")
       else inr "{}")
    sample_Number_toString
    (fun _ => inr (Some sampleBlueprint)).

Definition unreachable_node : Web3.Connection :=
  Web3.mkConnection
    (fun _ => inl (Error "Fetch failed"))
    (fun _ => inl (Error "Fetch failed"))
    (fun _ => inr 1000000%Z)
    (fun _ _ => inl (Error "Send failed"))
    (fun _ _ => inl (Error "Confirm failed")).

Definition failing_lib : Web3.Lib :=
  Web3.mkLib
    (fun _ programId => inr (programId, 255%Z))
    (fun _ _ _ => inl (Error "Create failed"))
    (fun n => Web3.mkKeypair ("account" +:+ pretty n) [])
    "11111111111111111111111111111111".

(** A node that knows one account with a payload, one without, and no
    other. *)
Definition small_ledger : Web3.Connection :=
  let account (address : PublicKey) : option Web3.AccountInfo :=
    if String.eqb address "full" then
      Some (Web3.mkAccountInfo (Some (Buffer_from "data1")) "program" 1%Z)
    else if String.eqb address "hollow" then
      Some (Web3.mkAccountInfo None "program" 1%Z)
    else None in
  Web3.mkConnection
    (fun address => inr (account address))
    (fun addresses => inr (map account addresses))
    (fun _ => inr 1000000%Z)
    (fun _ _ => inr "signature")
    (fun _ _ => inr tt).

(** A node on which every account is found and holds a payload of length
    zero. *)
Definition empty_payload_node : Web3.Connection :=
  let account : option Web3.AccountInfo :=
    Some (Web3.mkAccountInfo (Some []) "program" 1%Z) in
  Web3.mkConnection
    (fun _ => inr account)
    (fun addresses => inr (map (fun _ => account) addresses))
    (fun _ => inr 1000000%Z)
    (fun _ _ => inr "signature")
    (fun _ _ => inr tt).

(** A facade as its constructor leaves it, with the test blueprint. *)
Definition sample_machine : Machine :=
  mkMachine (mkEnv [] 0) []
    (mkRushSDK WorldOps.new
       (SolanaStorageAdapter.port failing_lib
          (SolanaStorageAdapter.mk unreachable_node "program"))
       None (Some sampleBlueprint) None None).



Definition wallet1 : Web3.Keypair := Web3.mkKeypair "W1" [].
Definition wallet2 : Web3.Keypair := Web3.mkKeypair "W2" [].

(** The facade after [setPrimaryWallet(wallet1)]. *)
Definition funded_machine : Machine :=
  snd (RushSDKOps.setPrimaryWallet wallet1 sample_machine).

Definition one_position : list (string * JsValue) :=
  [("Position", JObj [("x", JNum 1); ("y", JNum 2)])].

(** ** Well-formed states

    What holds of every state a program can reach: the keys of each [Map]
    are distinct; the World stores each entity under the entity's own id,
    once; and every entity of the World is an object of the heap. *)

Definition heap_wf (h : Heap) : Prop :=
  Forall (fun m => NoDup (JsMap.keys m)) h.

Definition world_wf (w : World) (h : Heap) : Prop :=
  NoDup (JsMap.keys (entities w))
  /\ Forall (fun entry : string * Entity =>
               id (snd entry) = fst entry
               /\ components (snd entry) < List.length h)
            (entities w).

Definition consistent (st : State) : Prop :=
  heap_wf (snd st) /\ world_wf (fst st) (snd st).

(** ** Computations that only warn

    The computation ends the same way in every ambient state, and all it
    does to that state is append the warnings [ws] to the console. *)
Definition warns_only {A : Type} (c : M Env A) : Prop :=
  exists (r : JsError + A) (ws : list LogEntry),
    Forall (fun l => level l = Warn /\ detail l = None) ws
    /\ forall env, c env = (r, mkEnv (console env ++ ws) (generated env)).

(** How the validator ends, and the warnings it writes on its way: what it
    does when the console is empty.  (It does the same on any console.) *)
Definition verdict (host : Host) (data : JsValue) (schema : ComponentSchema)
    (path : string) : JsError + unit :=
  fst (validateComponentDataAgainstSchema host data schema path (mkEnv [] 0)).

Definition warnings (host : Host) (data : JsValue) (schema : ComponentSchema)
    (path : string) : list LogEntry :=
  console
    (snd (validateComponentDataAgainstSchema host data schema path
            (mkEnv [] 0))).

(** ** Messages of processComponent *)

Definition undeclared_component (componentType : string) : JsError :=
  SDKError
    ("Component type " +:+ quoted componentType
     +:+ " is not defined in the blueprint's componentSchemas.")
    None.

Definition validated_log (entityId componentType serialized : string)
    : LogEntry :=
  mkLog Log
    ("Component " +:+ quoted componentType +:+ " for entity "
     +:+ quoted entityId
     +:+ " validated successfully against blueprint. Data: "
     +:+ serialized) None.

(** ** Further scenarios *)

(** A facade constructed without a blueprint path, after
    [setPrimaryWallet(wallet1)]. *)
Definition bare_machine : Machine :=
  snd (RushSDKOps.setPrimaryWallet wallet1
         (mkMachine (mkEnv [] 0) []
            (mkRushSDK WorldOps.new
               (SolanaStorageAdapter.port failing_lib
                  (SolanaStorageAdapter.mk unreachable_node "program"))
               None None None None))).

(** The warning of the validator for a key of the data that the schema's
    [properties] do not have. *)
Definition extra_property_warning (componentType dataKey : string) : LogEntry :=
  mkLog Warn
    ("Warning: Component " +:+ quoted componentType
     +:+ " has extra property " +:+ quoted dataKey
     +:+ " not defined in blueprint schema.") None.

(** The first statements of [RushSDKOps.createEntity] (lines 249-256):
    the payer, the fresh account and the local entity. *)
Definition createEntity_prologue (lib : Web3.Lib)
    : M Machine (Web3.Keypair * Entity) :=
  payer <- RushSDKOps.getActivePayer ;;
  entityAccount <- lift_env (Web3.Keypair_generate lib) ;;
  let entityId := toBase58 (Web3.publicKey entityAccount) in
  entity <- RushSDKOps.world_createEntity entityId
              (Web3.publicKey entityAccount) ;;
  ret (payer, entity).

(** The entry of the console for a completed [createEntity]. *)
Definition created_log (entityId signature : string) : LogEntry :=
  mkLog Log
    ("Entity " +:+ entityId +:+ " created on-chain. Signature: "
     +:+ signature) None.

(** A library whose transactions go through, and a facade over it with
    the test blueprint and [wallet1] as primary wallet. *)
Definition working_lib : Web3.Lib :=
  Web3.mkLib
    (fun _ programId => inr (programId, 255%Z))
    (fun _ _ _ => inr "signature")
    (fun n => Web3.mkKeypair ("account" +:+ pretty n) [])
    "11111111111111111111111111111111".

(** A library whose transactions are rejected with a plain object. *)
Definition rejecting_lib : Web3.Lib :=
  Web3.mkLib
    (fun _ programId => inr (programId, 255%Z))
    (fun _ _ _ => inl (mkThrown "undefined" "blockhash not found"))
    (fun n => Web3.mkKeypair ("account" +:+ pretty n) [])
    "11111111111111111111111111111111".

Definition connected_machine : Machine :=
  snd (RushSDKOps.setPrimaryWallet wallet1
         (mkMachine (mkEnv [] 0) []
            (mkRushSDK WorldOps.new
               (SolanaStorageAdapter.port working_lib
                  (SolanaStorageAdapter.mk small_ledger "program"))
               None (Some sampleBlueprint) None None))).

(** The errors of [saveEntityToChain] and [saveToChain]. *)
Definition entity_save_error (entityId : string) (cause : JsError) : JsError :=
  SDKError ("Failed to save entity " +:+ entityId +:+ " to chain") (Some cause).

Definition world_save_error (cause : JsError) : JsError :=
  SDKError "Failed to save world state to chain" (Some cause).

(** The record [serializeEntityData] builds of an entity whose [Map] holds
    [comps], and the two things that can go wrong when [saveEntityToChain]
    saves the entity for [payer] through the storage port: serializing the
    record, or the port's [setEntityDataById]. *)
Definition entity_record (entity : Entity) (comps : JsMap.t JsValue)
    : JsValue :=
  JObj [ ("id", JStr (id entity));
         ("owner", JStr (toBase58 (publicKey entity)));
         ("components", JObj comps) ].

Definition save_failure (host : Host) (port : StoragePort)
    (payer : Web3.Keypair) (entity : Entity) (cause : JsError) : Prop :=
  (exists comps, JSON_stringify host (entity_record entity comps) = inl cause)
  \/ (exists buf env1 env2,
        setEntityDataById port (id entity) buf payer (Some "default_world")
          env1 = (inl cause, env2)).

(** A facade with [wallet1] as primary wallet whose World holds [e1] with a
    [Position], over a library whose transactions fail. *)
Definition populated_machine : Machine :=
  snd (RushSDKOps.processComponent sample_host "e1" "Position"
         (JObj [("x", JNum 1); ("y", JNum 2)])
         (snd (RushSDKOps.world_createEntity "e1" "pk1" funded_machine))).

(** ** Calls of the wallet methods

    A client's calls of the four methods of the facade that set or clear
    the signing keys, and their execution in order. *)
Inductive WalletCall : Type :=
  | CallSetPrimaryWallet (w : Web3.Keypair)
  | CallActivateSessionKeypair (sessionKeypair : Web3.Keypair)
  | CallDeactivateSession
  | CallSetWallet (w : Web3.Keypair).

Definition wallet_call (c : WalletCall) : M Machine unit :=
  match c with
  | CallSetPrimaryWallet w => RushSDKOps.setPrimaryWallet w
  | CallActivateSessionKeypair k => RushSDKOps.activateSessionKeypair k
  | CallDeactivateSession => RushSDKOps.deactivateSession
  | CallSetWallet w => RushSDKOps.setWallet w
  end.

Definition wallet_calls (cs : list WalletCall) : M Machine unit :=
  for_of cs wallet_call.

(** ** Outcomes of the adapters' writes *)

(** If the call raised, it raised a [SolanaStorageError] of code [code]. *)
Definition typed_failure {A : Type} (code : string)
    (r : (JsError + A) * Env) : Prop :=
  match fst r with
  | inl e => error_name e = "SolanaStorageError" /\ error_code e = Some code
  | inr _ => True
  end.

(** If the call raised, it raised a plain [Error] made from some caught
    [cause]: its message is [prefix] followed by the message of the cause
    when the cause is an instance of [Error], and the text [unknown] when it
    is not; and the last entry of the console is the report of that
    cause. *)
Definition plain_failure {A : Type} (prefix unknown : string)
    (r : (JsError + A) * Env) : Prop :=
  match fst r with
  | inl e =>
      exists cause report,
        e = (if instanceof_Error cause
             then Error (prefix +:+ error_message cause)
             else Error unknown)
        /\ last (console (snd r)) = Some (mkLog Err report (Some cause))
  | inr _ => True
  end.

(** * Properties *)

(** ** Lists, sorting and maps *)

(** [sort] is a sort: it rearranges its argument into ascending order. *)
Lemma sort_insert_permutation (s : string) (l : list string) :
  Permutation (sort_insert s l) (s :: l).
Proof.
  induction l as [|x l IH]; simpl.
  - reflexivity.
  - destruct (String.leb s x).
    + reflexivity.
    + rewrite IH. apply perm_swap.
Qed.

Lemma sort_permutation (l : list string) : Permutation (sort l) l.
Proof.
  induction l as [|x l IH]; simpl.
  - reflexivity.
  - rewrite sort_insert_permutation, IH. reflexivity.
Qed.

Lemma sort_insert_sorted (s : string) (l : list string) :
  Sorted ascending l -> Sorted ascending (sort_insert s l).
Proof.
  induction l as [|x l IH]; simpl; intros Hl.
  - repeat constructor.
  - destruct (String.leb s x) eqn:E.
    + constructor; [exact Hl|]. constructor. exact E.
    + apply Sorted_inv in Hl as [Hl Hx]. constructor; [apply IH, Hl|].
      assert (ascending x s) as Hxs.
      { destruct (String.leb_total s x) as [H|H]; [congruence|exact H]. }
      destruct l as [|y l]; simpl.
      * constructor. exact Hxs.
      * destruct (String.leb s y); constructor; [exact Hxs|].
        apply HdRel_inv in Hx. exact Hx.
Qed.

Lemma sort_sorted (l : list string) : Sorted ascending (sort l).
Proof.
  induction l as [|x l IH]; simpl.
  - constructor.
  - apply sort_insert_sorted, IH.
Qed.

Lemma forallb_sort_insert (f : string -> bool) (s : string) (l : list string) :
  forallb f (sort_insert s l) = f s && forallb f l.
Proof.
  induction l as [|x l IH]; simpl.
  - reflexivity.
  - destruct (String.leb s x); simpl.
    + reflexivity.
    + rewrite IH. destruct (f s), (f x); reflexivity.
Qed.

Lemma forallb_sort (f : string -> bool) (l : list string) :
  forallb f (sort l) = forallb f l.
Proof.
  induction l as [|x l IH]; simpl.
  - reflexivity.
  - rewrite forallb_sort_insert, IH. reflexivity.
Qed.

Lemma forallb_same_elements {A : Type} (f : A -> bool) (l1 l2 : list A) :
  (forall x, In x l1 <-> In x l2) -> forallb f l1 = forallb f l2.
Proof.
  intros Hsame.
  destruct (forallb f l1) eqn:H1, (forallb f l2) eqn:H2; try reflexivity.
  - rewrite forallb_forall in H1.
    assert (forallb f l2 = true) as H.
    { apply forallb_forall. intros x Hx. apply H1, Hsame, Hx. }
    congruence.
  - rewrite forallb_forall in H2.
    assert (forallb f l1 = true) as H.
    { apply forallb_forall. intros x Hx. apply H2, Hsame, Hx. }
    congruence.
Qed.

Lemma hasEvery_sort (names : list string) (h : Heap) (e : Entity) :
  WorldOps.hasEvery (sort names) h e = WorldOps.hasEvery names h e.
Proof. unfold WorldOps.hasEvery. apply forallb_sort. Qed.

Lemma query_unfold (names : list string) (w : World) (h : Heap) :
  WorldOps.query names w h
  = List.filter (WorldOps.hasEvery names h) (JsMap.values (entities w)).
Proof.
  unfold WorldOps.query. apply List.filter_ext. intros e. apply hasEvery_sort.
Qed.

Lemma filter_none {A : Type} (f : A -> bool) (l : list A) :
  (forall x, In x l -> f x = false) -> List.filter f l = [].
Proof.
  induction l as [|x l IH]; intros H; simpl.
  - reflexivity.
  - rewrite (H x (or_introl eq_refl)). apply IH.
    intros y Hy. apply H. right. exact Hy.
Qed.

Lemma filter_all {A : Type} (f : A -> bool) (l : list A) :
  (forall x, f x = true) -> List.filter f l = l.
Proof.
  intros H. induction l as [|x l IH]; simpl.
  - reflexivity.
  - rewrite H, IH. reflexivity.
Qed.

(** [set] on a key that is not there appends: insertion order. *)
Lemma values_set_fresh {V : Type} (k : string) (v : V) (m : JsMap.t V) :
  JsMap.get k m = None ->
  JsMap.values (JsMap.set k v m) = JsMap.values m ++ [v].
Proof.
  unfold JsMap.values.
  induction m as [|[k' v'] m IH]; simpl; intros H.
  - reflexivity.
  - destruct (String.eqb k' k); [discriminate|].
    simpl. rewrite IH by exact H. reflexivity.
Qed.

Lemma get_set_eq {V : Type} (k : string) (v : V) (m : JsMap.t V) :
  JsMap.get k (JsMap.set k v m) = Some v.
Proof.
  induction m as [|[k' v'] m IH]; simpl.
  - rewrite String.eqb_refl. reflexivity.
  - destruct (String.eqb k' k) eqn:E; simpl.
    + rewrite String.eqb_refl. reflexivity.
    + rewrite E. exact IH.
Qed.

Lemma get_set_ne {V : Type} (k k0 : string) (v : V) (m : JsMap.t V) :
  k <> k0 -> JsMap.get k0 (JsMap.set k v m) = JsMap.get k0 m.
Proof.
  intros Hne. induction m as [|[k' v'] m IH]; simpl.
  - destruct (String.eqb k k0) eqn:E; [|reflexivity].
    apply String.eqb_eq in E. contradiction.
  - destruct (String.eqb k' k) eqn:E; simpl.
    + apply String.eqb_eq in E. subst k'.
      destruct (String.eqb k k0) eqn:E0; [|reflexivity].
      apply String.eqb_eq in E0. contradiction.
    + destruct (String.eqb k' k0); [reflexivity|exact IH].
Qed.

(** A new id goes to the end of the World's entity sequence. *)
Lemma createEntity_appends (i : string) (pk : PublicKey) (w : World) (h : Heap) :
  WorldOps.getEntity i w = None ->
  let '(e, w1, h1) := WorldOps.createEntity i pk w h in
  JsMap.values (entities w1) = JsMap.values (entities w) ++ [e].
Proof.
  intros Hnone. unfold WorldOps.createEntity. simpl.
  apply values_set_fresh. exact Hnone.
Qed.

(** ** World.query *)


Example query_containment :
  let '(w, h) := two_entities in
  map id (WorldOps.query ["renderable"] w h) = ["e1"]
  /\ map id (WorldOps.query ["position"] w h) = ["e1"; "e2"]
  /\ map id (WorldOps.query [] w h) = ["e1"; "e2"]
  /\ WorldOps.query ["velocity"] w h = [].
Proof. repeat split. Qed.

(** C2. For every World state and every list of component names, [query]
    returns the entities of the World, scanned in insertion order, whose
    component set holds every requested name: it is the filter of the
    World's entity sequence by that test.  The empty request returns every
    entity, and a request naming a component that no entity has returns the
    empty sequence. *)
Theorem query_returns_the_matching_entities :
  forall (w : World) (h : Heap) (names : list string),
    WorldOps.query names w h
    = List.filter
        (fun e => forallb (fun c => EntityOps.hasComponent e c h) names)
        (JsMap.values (entities w))
    /\ WorldOps.query [] w h = JsMap.values (entities w)
    /\ (forall c,
          In c names ->
          (forall e, In e (JsMap.values (entities w)) ->
                     EntityOps.hasComponent e c h = false) ->
          WorldOps.query names w h = []).
Proof.
  intros w h names. split; [|split].
  - apply query_unfold.
  - rewrite query_unfold. apply filter_all. reflexivity.
  - intros c Hc Hnone. rewrite query_unfold. apply filter_none.
    intros e He. unfold WorldOps.hasEvery.
    destruct (forallb _ names) eqn:E; [|reflexivity].
    rewrite forallb_forall in E. rewrite <- (Hnone e He). symmetry.
    apply E, Hc.
Qed.

Lemma query_returns_the_matching_entities_witness :
  WorldOps.query ["velocity"] (fst two_entities) (snd two_entities) = [].
Proof.
  apply (proj2 (proj2 (query_returns_the_matching_entities
                         (fst two_entities) (snd two_entities) ["velocity"]))
           "velocity").
  - simpl. left. reflexivity.
  - intros e He. vm_compute in He.
    destruct He as [<-|[<-|[]]]; reflexivity.
Defined.

(** C10. The result of [query] depends only on the set of requested names:
    two request lists with the same elements, in whatever order and with
    whatever repetitions, give the same sequence of entities. *)
Theorem query_depends_on_the_set_of_names :
  forall (w : World) (h : Heap) (names1 names2 : list string),
    (forall c, In c names1 <-> In c names2) ->
    WorldOps.query names1 w h = WorldOps.query names2 w h.
Proof.
  intros w h names1 names2 Hsame. rewrite !query_unfold.
  apply List.filter_ext. intros e. unfold WorldOps.hasEvery.
  apply forallb_same_elements, Hsame.
Qed.

Lemma query_depends_on_the_set_of_names_witness :
  WorldOps.query ["renderable"; "position"; "renderable"]
    (fst two_entities) (snd two_entities)
  = WorldOps.query ["position"; "renderable"]
      (fst two_entities) (snd two_entities).
Proof.
  apply query_depends_on_the_set_of_names.
  intros c. simpl. tauto.
Defined.

(** ** The query cache of the World *)

Lemma updateQueries_keys (e : Entity) (w : World) (h : Heap) :
  JsMap.keys (queries (WorldOps.updateQueries e w h)) = JsMap.keys (queries w).
Proof.
  unfold WorldOps.updateQueries, JsMap.keys. simpl.
  induction (queries w) as [|[queryKey ents] cache IH]; simpl.
  - reflexivity.
  - rewrite IH. destruct (WorldOps.hasEvery _ h e); reflexivity.
Qed.

Lemma removeEntityFromQueries_keys (e : Entity) (w : World) :
  JsMap.keys (queries (WorldOps.removeEntityFromQueries e w))
  = JsMap.keys (queries w).
Proof.
  unfold WorldOps.removeEntityFromQueries, JsMap.keys. simpl.
  induction (queries w) as [|[queryKey ents] cache IH]; simpl.
  - reflexivity.
  - rewrite IH. reflexivity.
Qed.

Lemma createEntity_keys (i : string) (pk : PublicKey) (w : World) (h : Heap) :
  JsMap.keys (queries (snd (fst (WorldOps.createEntity i pk w h))))
  = JsMap.keys (queries w).
Proof. unfold WorldOps.createEntity. simpl. apply updateQueries_keys. Qed.

Lemma removeEntity_keys (i : string) (w : World) :
  JsMap.keys (queries (snd (WorldOps.removeEntity i w))) = JsMap.keys (queries w).
Proof.
  unfold WorldOps.removeEntity.
  destruct (JsMap.get i (entities w)); simpl.
  - apply removeEntityFromQueries_keys.
  - reflexivity.
Qed.

Lemma keys_nil {V : Type} (m : JsMap.t V) : JsMap.keys m = [] -> m = [].
Proof. destruct m; [reflexivity|discriminate]. Qed.

Lemma createEntity_cache_empty (i : string) (pk : PublicKey) (w : World) (h : Heap) :
  queries w = [] -> queries (snd (fst (WorldOps.createEntity i pk w h))) = [].
Proof.
  intros H. apply keys_nil. rewrite createEntity_keys, H. reflexivity.
Qed.

Lemma removeEntity_cache_empty (i : string) (w : World) :
  queries w = [] -> queries (snd (WorldOps.removeEntity i w)) = [].
Proof.
  intros H. apply keys_nil. rewrite removeEntity_keys, H. reflexivity.
Qed.

(** Every step of client code keeps an empty cache empty; by induction on
    the step count, for [run] and for the loop of [update] together. *)
Lemma run_keeps_cache_empty (fuel : nat) :
  (forall p st st',
     queries (fst st) = [] -> run fuel p st = Some st' -> queries (fst st') = [])
  /\ (forall index deltaTime st st',
        queries (fst st) = [] ->
        update_from fuel index deltaTime st = Some st' ->
        queries (fst st') = []).
Proof.
  induction fuel as [|fuel [IHrun IHupd]].
  - split; intros; discriminate.
  - split.
    + intros p [w h] st' Hempty Hrun. simpl in Hempty.
      destruct p; simpl in Hrun.
      * injection Hrun as <-. exact Hempty.
      * eapply IHrun; [|exact Hrun]. exact Hempty.
      * eapply IHrun; [|exact Hrun]. simpl.
        apply (createEntity_cache_empty i pk w h Hempty).
      * eapply IHrun; [|exact Hrun]. exact Hempty.
      * destruct (WorldOps.removeEntity i w) as [b w1] eqn:E.
        eapply IHrun; [|exact Hrun]. simpl.
        pose proof (removeEntity_cache_empty i w Hempty) as H.
        rewrite E in H. exact H.
      * eapply IHrun; [|exact Hrun]. exact Hempty.
      * destruct (update_from fuel 0 deltaTime (w, h)) as [st1|] eqn:E;
          [|discriminate].
        eapply IHrun; [|exact Hrun].
        eapply IHupd; [|exact E]. exact Hempty.
      * eapply IHrun; [|exact Hrun]. exact Hempty.
      * eapply IHrun; [|exact Hrun]. exact Hempty.
      * eapply IHrun; [|exact Hrun]. exact Hempty.
      * eapply IHrun; [|exact Hrun]. exact Hempty.
      * eapply IHrun; [|exact Hrun]. exact Hempty.
      * eapply IHrun; [|exact Hrun]. exact Hempty.
      * eapply IHrun; [|exact Hrun]. exact Hempty.
    + intros index deltaTime st st' Hempty Hupd. simpl in Hupd.
      destruct (systems (fst st) !! index) as [system|].
      * destruct (run fuel (system deltaTime) st) as [st1|] eqn:E;
          [|discriminate].
        eapply IHupd; [|exact Hupd].
        eapply IHrun; [|exact E]. exact Hempty.
      * injection Hupd as <-. exact Hempty.
Qed.

(** C3. [query] never writes the cache, and creating or removing an entity
    only extends or prunes the entries that are there, never adding a key.
    So from a fresh World the cache is empty after every terminating run of
    client code over the public operations, and what [query] returns does
    not depend on the cache. *)
Theorem query_cache_stays_empty :
  (forall (fuel : nat) (p : Script) (h0 : Heap) (st : State),
     run fuel p (WorldOps.new, h0) = Some st -> queries (fst st) = JsMap.empty)
  /\ (forall (fuel : nat) (names : list string) (k : list Entity -> Script)
             (st : State),
        run (S fuel) (CallQuery names k) st
        = run fuel (k (WorldOps.query names (fst st) (snd st))) st)
  /\ (forall (i : string) (pk : PublicKey) (w : World) (h : Heap),
        JsMap.keys (queries (snd (fst (WorldOps.createEntity i pk w h))))
        = JsMap.keys (queries w))
  /\ (forall (i : string) (w : World),
        JsMap.keys (queries (snd (WorldOps.removeEntity i w)))
        = JsMap.keys (queries w))
  /\ (forall (names : list string) (w : World) (h : Heap)
             (cache : JsMap.t (list Entity)),
        WorldOps.query names (mkWorld (entities w) (systems w) cache) h
        = WorldOps.query names w h).
Proof.
  split; [|split; [|split; [|split]]].
  - intros fuel p h0 st Hrun.
    exact (proj1 (run_keeps_cache_empty fuel) p (WorldOps.new, h0) st
             eq_refl Hrun).
  - intros fuel names k [w h]. reflexivity.
  - apply createEntity_keys.
  - apply removeEntity_keys.
  - intros names w h cache. reflexivity.
Qed.


Lemma query_cache_stays_empty_witness :
  match run 16 client_script (WorldOps.new, []) with
  | Some st => queries (fst st) = JsMap.empty /\ entities (fst st) = []
  | None => False
  end.
Proof.
  destruct (run 16 client_script (WorldOps.new, [])) as [st|] eqn:Hrun.
  - split.
    + exact (proj1 query_cache_stays_empty 16 client_script [] st Hrun).
    + vm_compute in Hrun. injection Hrun as <-. reflexivity.
  - vm_compute in Hrun. discriminate.
Defined.

(** ** Entity.getComponents *)

Lemma mutate_other (m i : loc) (op : MapMutation) (h : Heap) :
  m <> i -> mutate m op h !! i = h !! i.
Proof.
  intros Hne. destruct op; simpl; apply list_lookup_alter_ne; exact Hne.
Qed.

Lemma mutate_all_other (m i : loc) (ops : list MapMutation) (h : Heap) :
  m <> i -> mutate_all m ops h !! i = h !! i.
Proof.
  intros Hne. unfold mutate_all. revert h.
  induction ops as [|op ops IH]; intros h; simpl.
  - reflexivity.
  - rewrite IH. apply mutate_other. exact Hne.
Qed.

Lemma getComponent_lookup (e : Entity) (ty : string) (h1 h2 : Heap) :
  h1 !! components e = h2 !! components e ->
  EntityOps.getComponent e ty h1 = EntityOps.getComponent e ty h2.
Proof. unfold EntityOps.getComponent. intros ->. reflexivity. Qed.

(** C4. The [Map] that [getComponents()] returns is a fresh object holding
    the entity's entries.  Whatever entries are then added to it, replaced
    in it or deleted from it, [getComponent] on the entity returns what it
    returned before.  ([components e < length h] says that [e] is an object
    of the heap [h].) *)
Theorem getComponents_returns_a_defensive_copy :
  forall (h : Heap) (e : Entity) (ops : list MapMutation) (ty : string),
    components e < List.length h ->
    let '(m, h1) := EntityOps.getComponents e h in
    h1 !! m = h !! components e
    /\ EntityOps.getComponent e ty (mutate_all m ops h1)
       = EntityOps.getComponent e ty h.
Proof.
  intros h e ops ty Hlive. unfold EntityOps.getComponents. cbv beta iota.
  split.
  - rewrite lookup_app_r by lia.
    replace (List.length h - List.length h) with 0 by lia. simpl.
    destruct (h !! components e) as [m|] eqn:E; [reflexivity|].
    apply lookup_ge_None in E. lia.
  - apply getComponent_lookup.
    rewrite mutate_all_other by lia.
    apply lookup_app_l. exact Hlive.
Qed.

Lemma getComponents_returns_a_defensive_copy_witness :
  let h := snd two_entities in
  let e1 := mkEntity "e1" 0 "pk1" in
  let '(m, h1) := EntityOps.getComponents e1 h in
  h1 !! m = h !! components e1
  /\ EntityOps.getComponent e1 "position"
       (mutate_all m [MapSet "position" (JNum 9); MapDelete "renderable";
                      MapSet "velocity" JNull; MapClear] h1)
     = EntityOps.getComponent e1 "position" h.
Proof.
  apply (getComponents_returns_a_defensive_copy (snd two_entities)
           (mkEntity "e1" 0 "pk1")
           [MapSet "position" (JNum 9); MapDelete "renderable";
            MapSet "velocity" JNull; MapClear] "position").
  vm_compute. lia.
Defined.

(** ** Blueprint validation in processComponent *)

Lemma own_property_in {A : Type} (k : string) (props : list (string * A)) (v : A) :
  own_property k props = Some v -> js_in k props = true.
Proof. unfold js_in. intros ->. reflexivity. Qed.

Lemma for_of_when_never {S A : Type} (xs : list A) (c : A -> bool)
    (body : A -> M S unit) (s : S) :
  (forall x, In x xs -> c x = false) ->
  for_of xs (fun x => when (c x) (body x)) s = (inr tt, s).
Proof.
  intros H. induction xs as [|x xs IH]; simpl.
  - reflexivity.
  - unfold bind. rewrite (H x (or_introl eq_refl)). simpl.
    apply IH. intros y Hy. apply H. right. exact Hy.
Qed.

Lemma number_schema_rejects_string (host : Host) (sx : ComponentSchema)
    (s path : string) (e : Env) :
  type sx = Some (TName "number") ->
  validateComponentDataAgainstSchema host (JStr s) sx path e
  = (inl (SDKError
            ("Data for component " +:+ quoted path
             +:+ " has incorrect type. Expected number, got string.")
            None),
     e).
Proof.
  destruct sx as [ty opt props req its minL maxL pat minV maxV].
  simpl. intros ->. reflexivity.
Qed.


Lemma position_rejects_wrong_x (host : Host) (sx sy : ComponentSchema)
    (more : list (string * ComponentSchema)) (opt : option bool)
    (req : option (list string))
    (its : option (ComponentSchema + list ComponentSchema))
    (minL maxL : option float) (pat : option string) (minV maxV : option float)
    (e : Env) :
  type sx = Some (TName "number") ->
  (forall names r, req = Some names -> In r names ->
                   value_in r wrong_position = true) ->
  validateComponentDataAgainstSchema host wrong_position
    (mkSchema (Some (TName "object")) opt
       (Some (("x", sx) :: ("y", sy) :: more)) req its minL maxL pat minV maxV)
    "Position" e
  = (inl (SDKError
            ("Data for component " +:+ quoted "Position.x"
             +:+ " has incorrect type. Expected number, got string.")
            None),
     e).
Proof.
  intros Hx Hreq.
  cbn [validateComponentDataAgainstSchema].
  unfold bind at 1. cbn.
  unfold bind at 1. unfold bind at 1. cbn [ret].
  unfold bind at 1.
  assert (match req with
          | Some names =>
              for_of names
                (fun requiredProp : string =>
                   when (negb (js_in requiredProp
                                 [("x", JStr "wrong"); ("y", JNum 20)]))
                     (throw
                        (SDKError
                           ("Missing required property "
                            +:+ quoted requiredProp +:+ " for component "
                            +:+ quoted "Position" +:+ ".") None)))
          | None => ret tt
          end e = (inr tt, e)) as ->.
  { destruct req as [names|]; [|reflexivity].
    apply for_of_when_never. intros r Hr.
    pose proof (Hreq names r eq_refl Hr) as H. simpl in H. rewrite H.
    reflexivity. }
  unfold bind at 1. unfold bind at 1.
  rewrite (number_schema_rejects_string host sx "wrong" _ e Hx).
  reflexivity.
Qed.

(** C5. With a blueprint whose [Position] schema is an object schema with
    properties [x] and [y] of type [number] (whatever else it declares, and
    with every required name present in the data), [processComponent] on
    [{x: "wrong", y: 20}] raises the SDK error whose message is exactly
    [Data for component "Position.x" has incorrect type. Expected number,
    got string.]; nothing is logged or attached before it. *)
Theorem position_type_mismatch_message :
  forall (host : Host) (m : Machine) (entityId : string)
         (bp : Types.IBluePrint) (schemas : list (string * ComponentSchema))
         (sx sy : ComponentSchema) (more : list (string * ComponentSchema))
         (opt : option bool) (req : option (list string))
         (its : option (ComponentSchema + list ComponentSchema))
         (minL maxL : option float) (pat : option string) (minV maxV : option float),
    blueprint (sdk m) = Some bp ->
    Types.componentSchemas bp = Some schemas ->
    own_property "Position" schemas
    = Some (mkSchema (Some (TName "object")) opt
              (Some (("x", sx) :: ("y", sy) :: more)) req its
              minL maxL pat minV maxV) ->
    type sx = Some (TName "number") ->
    type sy = Some (TName "number") ->
    (forall names r, req = Some names -> In r names ->
                     value_in r wrong_position = true) ->
    RushSDKOps.processComponent host entityId "Position" wrong_position m
    = (inl (SDKError
              ("Data for component " +:+ quoted "Position.x"
               +:+ " has incorrect type. Expected number, got string.")
              None),
       m).
Proof.
  intros host [e h s] entityId bp schemas sx sy more opt req its minL maxL pat
    minV maxV Hbp Hschemas Hown Hx Hy Hreq.
  simpl in Hbp.
  unfold RushSDKOps.processComponent, bind at 1, get_sdk. cbn [sdk].
  rewrite Hbp, Hschemas.
  unfold bind at 1. unfold bind at 1.
  rewrite (own_property_in _ _ _ Hown). cbn [negb when ret].
  unfold RushSDKOps.schema_at. rewrite Hown.
  cbn [default from_option Datatypes.id].
  unfold bind at 1. unfold lift_env at 1. cbn [env heap sdk].
  rewrite (position_rejects_wrong_x host sx sy more opt req its minL maxL pat
             minV maxV e Hx Hreq).
  reflexivity.
Qed.

Lemma position_type_mismatch_message_witness :
  RushSDKOps.processComponent sample_host "testEntity1" "Position"
    wrong_position sample_machine
  = (inl (SDKError
            ("Data for component " +:+ quoted "Position.x"
             +:+ " has incorrect type. Expected number, got string.")
            None),
     sample_machine).
Proof.
  apply (position_type_mismatch_message sample_host sample_machine
           "testEntity1" sampleBlueprint
           (default [] (Types.componentSchemas sampleBlueprint))
           (typed "number") (typed "number")
           [("z", mkSchema (Some (TName "number")) (Some true) None None None
                    None None None None None)]
           None (Some ["x"; "y"]) None None None None None None).
  - reflexivity.
  - reflexivity.
  - reflexivity.
  - reflexivity.
  - reflexivity.
  - intros names r Hnames Hr. injection Hnames as <-.
    destruct Hr as [<-|[<-|[]]]; reflexivity.
Defined.

(** ** processComponent and a missing entity *)





(** ** The storage adapter that returns absent values *)

Lemma permissive_getData_outcome (this : SolanaStorageAdapter.t)
    (address : PublicKey) (env : Env) :
  fst (SolanaStorageAdapter.getData this address env)
  = inr match Web3.getAccountInfo (SolanaStorageAdapter.connection this)
                address with
        | inr (Some info) => Web3.data info
        | inr None => None
        | inl _ => None
        end.
Proof.
  unfold SolanaStorageAdapter.getData, try_catch, bind, outcome.
  destruct (Web3.getAccountInfo _ address) as [err|[info|]]; reflexivity.
Qed.

Lemma data_or_null_entries (infos : list (option Web3.AccountInfo)) :
  Forall2
    (fun info result =>
       result = match info with
                | Some i => Web3.data i
                | None => None
                end)
    infos (map SolanaStorageAdapter.data_or_null infos).
Proof.
  induction infos as [|info infos IH]; simpl; constructor.
  - destruct info; reflexivity.
  - exact IH.
Qed.

Lemma data_or_null_all_absent (infos : list (option Web3.AccountInfo)) :
  Forall (fun info => match info with
                      | Some i => Web3.data i = None
                      | None => True
                      end) infos ->
  map SolanaStorageAdapter.data_or_null infos
  = replicate (List.length infos) None.
Proof.
  induction 1 as [|info infos Hinfo _ IH]; simpl.
  - reflexivity.
  - rewrite IH. destruct info as [i|]; simpl; [rewrite Hinfo|]; reflexivity.
Qed.

(** C8, as it holds.  The reads of the permissive adapter always return.
    [getData] gives the payload of a found account, whatever its length,
    and the absent value when the fetch fails, the account is not found, or
    the account has no payload ([data] is [null] or missing).
    [getMultipleAccounts] gives an array of absent values, one per
    requested address, when the fetch fails; otherwise one result per
    account the node answered with, absent where the account is missing or
    has no payload - so when the node answers one account per address and
    none has a payload, again an array of absent values of the length of
    the request. *)
Theorem permissive_reads_return_absent_values :
  forall (this : SolanaStorageAdapter.t) (env : Env),
    (forall address,
       fst (SolanaStorageAdapter.getData this address env)
       = inr match Web3.getAccountInfo (SolanaStorageAdapter.connection this)
                     address with
             | inr (Some info) => Web3.data info
             | inr None => None
             | inl _ => None
             end)
    /\ (forall addresses,
          match Web3.getMultipleAccountsInfo
                  (SolanaStorageAdapter.connection this) addresses with
          | inl _ =>
              fst (SolanaStorageAdapter.getMultipleAccounts this addresses env)
              = inr (replicate (List.length addresses) None)
          | inr infos =>
              exists results,
                fst (SolanaStorageAdapter.getMultipleAccounts this addresses env)
                = inr results
                /\ List.length results = List.length infos
                /\ Forall2
                     (fun info result =>
                        result = match info with
                                 | Some i => Web3.data i
                                 | None => None
                                 end)
                     infos results
          end)
    /\ (forall addresses infos,
          Web3.getMultipleAccountsInfo (SolanaStorageAdapter.connection this)
            addresses = inr infos ->
          List.length infos = List.length addresses ->
          Forall (fun info => match info with
                              | Some i => Web3.data i = None
                              | None => True
                              end) infos ->
          fst (SolanaStorageAdapter.getMultipleAccounts this addresses env)
          = inr (replicate (List.length addresses) None)).
Proof.
  intros this env. split; [|split].
  - intros address. apply permissive_getData_outcome.
  - intros addresses.
    unfold SolanaStorageAdapter.getMultipleAccounts, try_catch, bind, outcome.
    destruct (Web3.getMultipleAccountsInfo _ addresses) as [err|infos].
    + reflexivity.
    + eexists. split; [reflexivity|]. split.
      * apply length_map.
      * apply data_or_null_entries.
  - intros addresses infos Hinfos Hlen Habsent.
    unfold SolanaStorageAdapter.getMultipleAccounts, try_catch, bind, outcome.
    rewrite Hinfos. simpl.
    rewrite (data_or_null_all_absent infos Habsent), Hlen. reflexivity.
Qed.

Lemma permissive_reads_return_absent_values_witness :
  fst (SolanaStorageAdapter.getMultipleAccounts
         (SolanaStorageAdapter.mk small_ledger "program")
         ["ghost"; "hollow"] (mkEnv [] 0))
  = inr [None; None].
Proof.
  apply (proj2 (proj2 (permissive_reads_return_absent_values
                         (SolanaStorageAdapter.mk small_ledger "program")
                         (mkEnv [] 0)))
           ["ghost"; "hollow"]
           [None; Some (Web3.mkAccountInfo None "program" 1%Z)]).
  - reflexivity.
  - reflexivity.
  - repeat constructor.
Defined.

(** C8, as the specification words it, fails for an account whose
    payload is empty: a [Buffer] of length zero is an object and so truthy,
    [accountInfo?.data || null] is that buffer, and the reads return it
    where the claim has the absent value. *)
Lemma permissive_reads_return_an_empty_payload :
  let adapter := SolanaStorageAdapter.mk empty_payload_node "program" in
  fst (SolanaStorageAdapter.getData adapter "account" (mkEnv [] 0))
  = inr (Some [])
  /\ fst (SolanaStorageAdapter.getMultipleAccounts adapter
            ["account1"; "account2"] (mkEnv [] 0))
     = inr [Some []; Some []].
Proof. repeat split. Qed.

(** ** The storage adapter that raises typed errors *)

Lemma strict_getData_outcome (this : StrictSolanaStorageAdapter.t)
    (address : PublicKey) (env : Env) :
  match Web3.getAccountInfo (StrictSolanaStorageAdapter.connection this)
          address with
  | inr (Some info) =>
      match Web3.data info with
      | Some d =>
          fst (StrictSolanaStorageAdapter.getData this address env)
          = inr (Some d)
      | None =>
          raises_storage_error "DATA_FETCH_ERROR"
            (StrictSolanaStorageAdapter.getData this address env)
      end
  | _ =>
      raises_storage_error "DATA_FETCH_ERROR"
        (StrictSolanaStorageAdapter.getData this address env)
  end.
Proof.
  unfold raises_storage_error, StrictSolanaStorageAdapter.getData, try_catch,
    bind, outcome.
  destruct (Web3.getAccountInfo _ address) as [err|[[[d|] o l]|]]; simpl;
    try reflexivity; eexists; reflexivity.
Qed.

Lemma map_accounts_all_present (addresses : list PublicKey)
    (infos : list (option Web3.AccountInfo)) (index : nat) (env : Env) :
  forallb (fun info => is_some (StrictSolanaStorageAdapter.payload info)) infos
  = true ->
  StrictSolanaStorageAdapter.map_accounts addresses index infos env
  = (inr (map StrictSolanaStorageAdapter.payload infos), env).
Proof.
  revert index. induction infos as [|info infos IH]; intros index H; simpl.
  - reflexivity.
  - simpl in H. apply andb_prop in H as [Hinfo Hrest].
    unfold bind. destruct (StrictSolanaStorageAdapter.payload info) as [d|];
      [|discriminate].
    simpl. rewrite (IH (S index) Hrest). reflexivity.
Qed.

Lemma map_accounts_some_absent (addresses : list PublicKey)
    (infos : list (option Web3.AccountInfo)) (index : nat) (env : Env) :
  forallb (fun info => is_some (StrictSolanaStorageAdapter.payload info)) infos
  = false ->
  exists err,
    StrictSolanaStorageAdapter.map_accounts addresses index infos env
    = (inl err, env).
Proof.
  revert index. induction infos as [|info infos IH]; intros index H; simpl.
  - discriminate.
  - simpl in H. unfold bind.
    destruct (StrictSolanaStorageAdapter.payload info) as [d|]; simpl in *.
    + destruct (IH (S index) H) as [err ->]. eexists. reflexivity.
    + destruct (addresses !! index); eexists; reflexivity.
Qed.

Lemma strict_getMultipleAccounts_outcome (this : StrictSolanaStorageAdapter.t)
    (addresses : list PublicKey) (env : Env) :
  match Web3.getMultipleAccountsInfo
          (StrictSolanaStorageAdapter.connection this) addresses with
  | inr infos =>
      if forallb (fun info => is_some (StrictSolanaStorageAdapter.payload info))
           infos
      then fst (StrictSolanaStorageAdapter.getMultipleAccounts this addresses env)
           = inr (map StrictSolanaStorageAdapter.payload infos)
      else raises_storage_error "MULTIPLE_ACCOUNTS_FETCH_ERROR"
             (StrictSolanaStorageAdapter.getMultipleAccounts this addresses env)
  | inl _ =>
      raises_storage_error "MULTIPLE_ACCOUNTS_FETCH_ERROR"
        (StrictSolanaStorageAdapter.getMultipleAccounts this addresses env)
  end.
Proof.
  unfold raises_storage_error, StrictSolanaStorageAdapter.getMultipleAccounts,
    try_catch, bind at 1, outcome.
  destruct (Web3.getMultipleAccountsInfo _ addresses) as [err|infos]; simpl.
  - eexists. reflexivity.
  - unfold bind. cbn [ret].
    destruct (forallb _ infos) eqn:E.
    + rewrite (map_accounts_all_present addresses infos 0 env E). reflexivity.
    + destruct (map_accounts_some_absent addresses infos 0 env E) as [err ->].
      eexists. reflexivity.
Qed.

Lemma strict_getEntityDataById_outcome (lib : Web3.Lib)
    (this : StrictSolanaStorageAdapter.t) (entityId worldName : string)
    (env : Env) :
  match Web3.findProgramAddressSync lib
          [Buffer_from "entity"; Buffer_from worldName; Buffer_from entityId]
          (StrictSolanaStorageAdapter.programId this) with
  | inr (entityPda, _) =>
      match Web3.getAccountInfo (StrictSolanaStorageAdapter.connection this)
              entityPda with
      | inr (Some info) =>
          match Web3.data info with
          | Some d =>
              fst (StrictSolanaStorageAdapter.getEntityDataById lib this
                     entityId worldName env)
              = inr (Some d)
          | None =>
              raises_storage_error "ENTITY_GET_ERROR"
                (StrictSolanaStorageAdapter.getEntityDataById lib this
                   entityId worldName env)
          end
      | _ =>
          raises_storage_error "ENTITY_GET_ERROR"
            (StrictSolanaStorageAdapter.getEntityDataById lib this entityId
               worldName env)
      end
  | inl _ =>
      raises_storage_error "ENTITY_GET_ERROR"
        (StrictSolanaStorageAdapter.getEntityDataById lib this entityId
           worldName env)
  end.
Proof.
  unfold raises_storage_error, StrictSolanaStorageAdapter.getEntityDataById,
    try_catch, bind, outcome.
  destruct (Web3.findProgramAddressSync lib _ _) as [err|[entityPda bump]];
    simpl.
  - eexists. reflexivity.
  - destruct (Web3.getAccountInfo _ entityPda) as [err|[[[d|] o l]|]]; simpl;
      try reflexivity; eexists; reflexivity.
Qed.

Lemma all_present_no_absent (infos : list (option Web3.AccountInfo)) :
  forallb (fun info => is_some (StrictSolanaStorageAdapter.payload info)) infos
  = true ->
  Forall (fun result : option Buffer => result <> None)
    (map StrictSolanaStorageAdapter.payload infos).
Proof.
  induction infos as [|info infos IH]; simpl; intros H.
  - constructor.
  - apply andb_prop in H as [Hinfo Hrest]. constructor.
    + destruct (StrictSolanaStorageAdapter.payload info); [discriminate|].
      discriminate.
    + apply IH, Hrest.
Qed.

(** From the outcome [H] of a read - a returned payload, or a raised
    storage error - to its classification. *)
Ltac typed_or_found H :=
  match type of H with
  | ex _ => let m := fresh "message" in
            let Hm := fresh "Hm" in
            destruct H as [m Hm]; rewrite Hm; split; reflexivity
  | _ = _ => rewrite H; try exact I
  end.

(** C7, as it holds.  Every read of the strict adapter ends with the
    payload or with a [SolanaStorageError] carrying the code of that read,
    never with an absent value.  [getData] raises [DATA_FETCH_ERROR] when
    the fetch fails, when the account is not found and when it is found
    without a payload ([data] is [null] or missing);
    [getMultipleAccounts] raises [MULTIPLE_ACCOUNTS_FETCH_ERROR] when the
    fetch fails or any account is missing or without payload;
    [getEntityDataById] raises [ENTITY_GET_ERROR] when the address cannot be
    derived, the fetch fails, or the account is missing or without payload.
    An account that is found with a payload is read as that payload,
    whatever its length: a payload of length zero is returned, not
    refused. *)
Theorem strict_reads_raise_typed_errors :
  forall (lib : Web3.Lib) (this : StrictSolanaStorageAdapter.t) (env : Env),
    (forall address,
       payload_or_typed_error "DATA_FETCH_ERROR"
         (StrictSolanaStorageAdapter.getData this address env)
       /\ match Web3.getAccountInfo
                  (StrictSolanaStorageAdapter.connection this) address with
          | inr (Some info) =>
              match Web3.data info with
              | Some d =>
                  fst (StrictSolanaStorageAdapter.getData this address env)
                  = inr (Some d)
              | None =>
                  raises_storage_error "DATA_FETCH_ERROR"
                    (StrictSolanaStorageAdapter.getData this address env)
              end
          | _ =>
              raises_storage_error "DATA_FETCH_ERROR"
                (StrictSolanaStorageAdapter.getData this address env)
          end)
    /\ (forall addresses,
          payloads_or_typed_error "MULTIPLE_ACCOUNTS_FETCH_ERROR"
            (StrictSolanaStorageAdapter.getMultipleAccounts this addresses env)
          /\ match Web3.getMultipleAccountsInfo
                     (StrictSolanaStorageAdapter.connection this) addresses with
             | inr infos =>
                 if forallb
                      (fun info =>
                         is_some match info with
                                 | Some i => Web3.data i
                                 | None => None
                                 end) infos
                 then
                   fst (StrictSolanaStorageAdapter.getMultipleAccounts this
                          addresses env)
                   = inr (map (fun info =>
                                 match info with
                                 | Some i => Web3.data i
                                 | None => None
                                 end) infos)
                 else
                   raises_storage_error "MULTIPLE_ACCOUNTS_FETCH_ERROR"
                     (StrictSolanaStorageAdapter.getMultipleAccounts this
                        addresses env)
             | inl _ =>
                 raises_storage_error "MULTIPLE_ACCOUNTS_FETCH_ERROR"
                   (StrictSolanaStorageAdapter.getMultipleAccounts this
                      addresses env)
             end)
    /\ (forall entityId worldName,
          payload_or_typed_error "ENTITY_GET_ERROR"
            (StrictSolanaStorageAdapter.getEntityDataById lib this entityId
               worldName env)
          /\ match Web3.findProgramAddressSync lib
                     [Buffer_from "entity"; Buffer_from worldName;
                      Buffer_from entityId]
                     (StrictSolanaStorageAdapter.programId this) with
             | inr (entityPda, _) =>
                 match Web3.getAccountInfo
                         (StrictSolanaStorageAdapter.connection this)
                         entityPda with
                 | inr (Some info) =>
                     match Web3.data info with
                     | Some d =>
                         fst (StrictSolanaStorageAdapter.getEntityDataById lib
                                this entityId worldName env)
                         = inr (Some d)
                     | None =>
                         raises_storage_error "ENTITY_GET_ERROR"
                           (StrictSolanaStorageAdapter.getEntityDataById lib
                              this entityId worldName env)
                     end
                 | _ =>
                     raises_storage_error "ENTITY_GET_ERROR"
                       (StrictSolanaStorageAdapter.getEntityDataById lib this
                          entityId worldName env)
                 end
             | inl _ =>
                 raises_storage_error "ENTITY_GET_ERROR"
                   (StrictSolanaStorageAdapter.getEntityDataById lib this
                      entityId worldName env)
             end).
Proof.
  intros lib this env. split; [|split].
  - intros address. split; [|apply strict_getData_outcome].
    pose proof (strict_getData_outcome this address env) as H.
    unfold payload_or_typed_error, raises_storage_error in *.
    destruct (Web3.getAccountInfo _ address) as [err|[info|]];
      [|destruct (Web3.data info)|]; typed_or_found H.
  - intros addresses.
    pose proof (strict_getMultipleAccounts_outcome this addresses env) as H.
    split; [|exact H].
    unfold payloads_or_typed_error, raises_storage_error in *.
    destruct (Web3.getMultipleAccountsInfo _ addresses) as [err|infos];
      [|destruct (forallb _ infos) eqn:E]; typed_or_found H.
    apply all_present_no_absent, E.
  - intros entityId worldName.
    split; [|apply strict_getEntityDataById_outcome].
    pose proof (strict_getEntityDataById_outcome lib this entityId worldName
                  env) as H.
    unfold payload_or_typed_error, raises_storage_error in *.
    destruct (Web3.findProgramAddressSync lib _ _) as [err|[entityPda bump]];
      [|destruct (Web3.getAccountInfo _ entityPda) as [err|[info|]];
        [|destruct (Web3.data info)|]]; typed_or_found H.
Qed.

Lemma strict_reads_raise_typed_errors_witness :
  raises_storage_error "DATA_FETCH_ERROR"
    (StrictSolanaStorageAdapter.getData
       (StrictSolanaStorageAdapter.mk small_ledger "program") "ghost"
       (mkEnv [] 0))
  /\ raises_storage_error "DATA_FETCH_ERROR"
       (StrictSolanaStorageAdapter.getData
          (StrictSolanaStorageAdapter.mk small_ledger "program") "hollow"
          (mkEnv [] 0))
  /\ raises_storage_error "MULTIPLE_ACCOUNTS_FETCH_ERROR"
       (StrictSolanaStorageAdapter.getMultipleAccounts
          (StrictSolanaStorageAdapter.mk small_ledger "program")
          ["full"; "hollow"] (mkEnv [] 0))
  /\ raises_storage_error "ENTITY_GET_ERROR"
       (StrictSolanaStorageAdapter.getEntityDataById failing_lib
          (StrictSolanaStorageAdapter.mk small_ledger "program")
          "e1" "default_world" (mkEnv [] 0)).
Proof.
  pose proof (strict_reads_raise_typed_errors failing_lib
                (StrictSolanaStorageAdapter.mk small_ledger "program")
                (mkEnv [] 0)) as [Hdata [Hbatch Hentity]].
  split; [|split; [|split]].
  - exact (proj2 (Hdata "ghost")).
  - exact (proj2 (Hdata "hollow")).
  - exact (proj2 (Hbatch ["full"; "hollow"])).
  - exact (proj2 (Hentity "e1" "default_world")).
Defined.

(** C7, as the specification words it, fails for an account that is
    found but empty: a [Buffer] of length zero is an object and so truthy,
    the test [!accountInfo.data] lets it pass, and each of the three reads
    returns it. *)
Lemma strict_reads_return_an_empty_payload :
  let adapter := StrictSolanaStorageAdapter.mk empty_payload_node "program" in
  fst (StrictSolanaStorageAdapter.getData adapter "account" (mkEnv [] 0))
  = inr (Some [])
  /\ fst (StrictSolanaStorageAdapter.getMultipleAccounts adapter
            ["account1"; "account2"] (mkEnv [] 0))
     = inr [Some []; Some []]
  /\ fst (StrictSolanaStorageAdapter.getEntityDataById failing_lib adapter
            "e1" "default_world" (mkEnv [] 0))
     = inr (Some []).
Proof. repeat split. Qed.

(** ** createEntity and a failed submission *)

Lemma own_property_app {A : Type} (k : string) (l1 l2 : list (string * A)) :
  own_property k (l1 ++ l2)
  = match own_property k l1 with
    | Some v => Some v
    | None => own_property k l2
    end.
Proof.
  induction l1 as [|[k' v'] l1 IH]; simpl.
  - reflexivity.
  - destruct (String.eqb k' k); [reflexivity|exact IH].
Qed.

Lemma getComponent_addComponent (e : Entity) (k ty : string) (d : JsValue)
    (h : Heap) :
  components e < List.length h ->
  EntityOps.getComponent e ty (EntityOps.addComponent e k d h)
  = if String.eqb k ty then d else EntityOps.getComponent e ty h.
Proof.
  intros Hlive. unfold EntityOps.getComponent, EntityOps.addComponent.
  rewrite list_lookup_alter_eq.
  destruct (h !! components e) as [m|] eqn:E.
  - rewrite ?E. simpl. destruct (String.eqb k ty) eqn:Ek.
    + apply String.eqb_eq in Ek. subst ty. rewrite get_set_eq. reflexivity.
    + apply String.eqb_neq in Ek. rewrite get_set_ne by exact Ek. reflexivity.
  - apply lookup_ge_None in E. lia.
Qed.

Lemma getComponent_attach_all (e : Entity) (ty : string)
    (comps : list (string * JsValue)) (h : Heap) :
  components e < List.length h ->
  EntityOps.getComponent e ty (attach_all e comps h)
  = match own_property ty (rev comps) with
    | Some d => d
    | None => EntityOps.getComponent e ty h
    end.
Proof.
  revert h. induction comps as [|[k d] comps IH]; intros h Hlive.
  - reflexivity.
  - simpl. unfold attach_all in *. rewrite IH.
    + rewrite own_property_app. destruct (own_property ty (rev comps)); [reflexivity|].
      simpl. rewrite getComponent_addComponent by exact Hlive.
      destruct (String.eqb k ty); reflexivity.
    + unfold EntityOps.addComponent. rewrite length_alter. exact Hlive.
Qed.

Lemma processComponent_attaches (host : Host) (m m' : Machine)
    (entityId componentType : string) (componentData : JsValue) (e : Entity) :
  WorldOps.getEntity entityId (world (sdk m)) = Some e ->
  RushSDKOps.processComponent host entityId componentType componentData m
  = (inr tt, m') ->
  sdk m' = sdk m
  /\ heap m' = EntityOps.addComponent e componentType componentData (heap m).
Proof.
  destruct m as [en h s]. cbn [sdk env heap]. intros Hsome.
  unfold RushSDKOps.processComponent, bind, get_sdk, lift_env,
    RushSDKOps.entity_addComponent.
  cbn [sdk env heap].
  destruct (blueprint s) as [bp|].
  - destruct (Types.componentSchemas bp) as [schemas|].
    + destruct (js_in componentType schemas);
        cbn [negb when ret throw env heap sdk].
      * destruct (validateComponentDataAgainstSchema host componentData
                    (RushSDKOps.schema_at componentType schemas)
                    componentType en) as [[err|[]] e1].
        -- cbn. discriminate.
        -- destruct (JSON_stringify host componentData) as [err|serialized];
             cbn; [discriminate|].
           rewrite Hsome. intros H. injection H as <-. split; reflexivity.
      * cbn. discriminate.
    + cbn. rewrite Hsome. intros H. injection H as <-. split; reflexivity.
  - cbn. rewrite Hsome. intros H. injection H as <-. split; reflexivity.
Qed.

Lemma components_loop_attaches (host : Host) (entityId : string) (e : Entity)
    (comps : list (string * JsValue)) (m m' : Machine) :
  WorldOps.getEntity entityId (world (sdk m)) = Some e ->
  for_of comps (fun '(componentType, d) =>
    RushSDKOps.processComponent host entityId componentType d) m
  = (inr tt, m') ->
  sdk m' = sdk m /\ heap m' = attach_all e comps (heap m).
Proof.
  revert m. induction comps as [|[ty d] comps IH]; intros m Hsome; simpl.
  - intros H. injection H as <-. split; reflexivity.
  - unfold bind.
    destruct (RushSDKOps.processComponent host entityId ty d m)
      as [[err|[]] m1] eqn:E; [discriminate|].
    destruct (processComponent_attaches host m m1 entityId ty d e Hsome E)
      as [Hsdk Hheap].
    intros Hrest.
    destruct (IH m1) as [Hsdk' Hheap']; [rewrite Hsdk; exact Hsome|exact Hrest|].
    split; [congruence|]. rewrite Hheap', Hheap. reflexivity.
Qed.

Lemma attach_all_length (e : Entity) (comps : list (string * JsValue)) (h : Heap) :
  List.length (attach_all e comps h) = List.length h.
Proof.
  revert h. induction comps as [|[ty d] comps IH]; intros h; simpl.
  - reflexivity.
  - unfold attach_all in *. simpl. rewrite IH. apply length_alter.
Qed.

Lemma getActivePayer_frame (m m' : Machine) (r : JsError + Web3.Keypair) :
  RushSDKOps.getActivePayer m = (r, m') ->
  heap m' = heap m /\ sdk m' = sdk m /\ generated (env m') = generated (env m).
Proof.
  destruct m as [en h s].
  unfold RushSDKOps.getActivePayer, bind, get_sdk, lift_env. cbn.
  destruct (activeSessionKeypair s); [|destruct (wallet s)]; cbn;
    intros H; injection H as <- <-; repeat split.
Qed.

(** C9. [createEntity] creates the local World entity and attaches the
    components before it submits anything.  If those local statements
    complete and the submission through the storage port then fails, the
    call raises the SDK error that wraps the failure, and the state it
    leaves is the state before the submission: the new entity (an object
    that did not exist before the call) is in the World with its components
    attached - nothing is rolled back. *)
Theorem createEntity_keeps_the_local_entity :
  forall (host : Host) (lib : Web3.Lib) (comps : list (string * JsValue))
         (m m1 : Machine) (payer : Web3.Keypair) (entity : Entity)
         (serialized : Buffer) (err : JsError) (env2 : Env),
    createEntity_local host lib comps m = (inr (payer, entity, serialized), m1) ->
    createEntity (storage (sdk m1)) serialized payer (Some "default_world")
      (env m1)
    = (inl err, env2) ->
    RushSDKOps.createEntity host lib comps m
    = (inl (SDKError ("Failed to save entity " +:+ id entity
                      +:+ " to chain during creation.") (Some err)),
       mkMachine env2 (heap m1) (sdk m1))
    /\ WorldOps.getEntity (id entity) (world (sdk m1)) = Some entity
    /\ components entity = List.length (heap m)
    /\ (forall ty,
          EntityOps.getComponent entity ty (heap m1) = last_entry ty comps).
Proof.
  intros host lib comps m m1 payer entity serialized err env2 Hlocal Hchain.
  unfold createEntity_local, RushSDKOps.createEntity in *.
  unfold bind at 1 in Hlocal. unfold bind at 1.
  destruct (RushSDKOps.getActivePayer m) as [[e0|p] ma] eqn:Epayer;
    [discriminate|].
  destruct (getActivePayer_frame m ma _ Epayer) as [Hh [Hs Hg]].
  unfold bind at 1 in Hlocal. unfold bind at 1.
  unfold lift_env at 1 in Hlocal. unfold lift_env at 1.
  unfold Web3.Keypair_generate in *. cbn [env heap sdk console generated] in *.
  unfold bind at 1 in Hlocal. unfold bind at 1.
  unfold RushSDKOps.world_createEntity at 1 in Hlocal.
  unfold RushSDKOps.world_createEntity at 1.
  unfold WorldOps.createEntity, EntityOps.new in *.
  cbn [env heap sdk console generated] in *.
  remember (Web3.generate lib (generated (env ma))) as kp eqn:Ekp.
  remember (mkEntity (toBase58 (Web3.publicKey kp)) (List.length (heap ma))
              (Web3.publicKey kp)) as ent eqn:Eent.
  match type of Hlocal with
  | _ ?st = _ => remember st as mb eqn:Emb
  end.
  unfold bind at 1 in Hlocal. unfold bind at 1.
  destruct (for_of comps _ mb) as [[e1|[]] mc] eqn:Eloop; [discriminate|].
  assert (WorldOps.getEntity (toBase58 (Web3.publicKey kp)) (world (sdk mb))
          = Some ent) as Hget.
  { rewrite Emb. cbn. unfold WorldOps.getEntity. cbn. apply get_set_eq. }
  destruct (components_loop_attaches host _ ent comps mb mc Hget Eloop)
    as [Hsdk Hheap].
  unfold bind at 1 in Hlocal. unfold bind at 1.
  unfold RushSDKOps.serializeEntityData at 1 in Hlocal.
  unfold RushSDKOps.serializeEntityData at 1.
  unfold EntityOps.getComponents in *.
  destruct (JSON_stringify host _) as [e4|text]; [discriminate|].
  cbn [ret] in Hlocal.
  injection Hlocal as <- <- <- <-.
  cbn [env heap sdk] in *.
  split; [|split; [|split]].
  - unfold bind at 1, try_catch, bind at 1, get_sdk. cbn [sdk].
    unfold bind at 1, lift_env at 1. cbn [env heap sdk].
    rewrite Hchain. cbn. rewrite Eent. reflexivity.
  - rewrite Hsdk. rewrite Eent at 1. exact Hget.
  - rewrite Eent. cbn. congruence.
  - intros ty. apply eq_trans with (EntityOps.getComponent ent ty (heap mc)).
    + apply getComponent_lookup. apply lookup_app_l.
      rewrite Hheap, attach_all_length, Emb, Eent. cbn.
      rewrite length_app. simpl. lia.
    + rewrite Hheap, getComponent_attach_all.
      * unfold last_entry. destruct (own_property ty (rev comps)); [reflexivity|].
        rewrite Emb, Eent. unfold EntityOps.getComponent. cbn.
        rewrite lookup_app_r by lia.
        replace (List.length (heap ma) - List.length (heap ma)) with 0 by lia.
        reflexivity.
      * rewrite Emb, Eent. cbn. rewrite length_app. simpl. lia.
Qed.

Lemma createEntity_keeps_the_local_entity_witness :
  match createEntity_local sample_host failing_lib one_position funded_machine with
  | (inr (payer, entity, serialized), m1) =>
      match createEntity (storage (sdk m1)) serialized payer
              (Some "default_world") (env m1) with
      | (inl err, env2) =>
          RushSDKOps.createEntity sample_host failing_lib one_position
            funded_machine
          = (inl (SDKError ("Failed to save entity " +:+ id entity
                            +:+ " to chain during creation.") (Some err)),
             mkMachine env2 (heap m1) (sdk m1))
          /\ WorldOps.getEntity (id entity) (world (sdk m1)) = Some entity
          /\ components entity = List.length (heap funded_machine)
          /\ (forall ty,
                EntityOps.getComponent entity ty (heap m1)
                = last_entry ty one_position)
      | (inr _, _) => False
      end
  | (inl _, _) => False
  end.
Proof.
  destruct (createEntity_local sample_host failing_lib one_position
              funded_machine)
    as [[e|[[payer entity] serialized]] m1] eqn:Hlocal.
  - vm_compute in Hlocal. discriminate.
  - destruct (createEntity (storage (sdk m1)) serialized payer
                (Some "default_world") (env m1))
      as [[err|signature] env2] eqn:Hchain.
    + exact (createEntity_keeps_the_local_entity sample_host failing_lib
               one_position funded_machine m1 payer entity serialized err env2
               Hlocal Hchain).
    + vm_compute in Hlocal. injection Hlocal as <- <- <- <-.
      vm_compute in Hchain. discriminate.
Defined.

(** ** Payer resolution *)

Lemma getActivePayer_none (m : Machine) :
  wallet (sdk m) = None -> activeSessionKeypair (sdk m) = None ->
  RushSDKOps.getActivePayer m = (inl no_payer, m).
Proof.
  destruct m as [en h s]. cbn [sdk]. intros Hw Ha.
  unfold RushSDKOps.getActivePayer, bind, get_sdk. cbn [sdk].
  rewrite Ha, Hw. reflexivity.
Qed.

Lemma createEntity_without_payer (host : Host) (lib : Web3.Lib)
    (comps : list (string * JsValue)) (m : Machine) :
  wallet (sdk m) = None -> activeSessionKeypair (sdk m) = None ->
  RushSDKOps.createEntity host lib comps m = (inl no_payer, m).
Proof.
  intros Hw Ha. unfold RushSDKOps.createEntity, bind at 1.
  rewrite (getActivePayer_none m Hw Ha). reflexivity.
Qed.

Lemma saveToChain_without_payer (host : Host) (m : Machine) :
  wallet (sdk m) = None -> activeSessionKeypair (sdk m) = None ->
  RushSDKOps.saveToChain host m = (inl no_payer, m).
Proof.
  intros Hw Ha. unfold RushSDKOps.saveToChain, bind at 1.
  rewrite (getActivePayer_none m Hw Ha). reflexivity.
Qed.

(** The payer of the local statements of [createEntity], which is the one
    its storage call receives, is the one [getActivePayer] resolves. *)
Lemma createEntity_local_payer (host : Host) (lib : Web3.Lib)
    (comps : list (string * JsValue)) (m ma : Machine) (p : Web3.Keypair) :
  RushSDKOps.getActivePayer m = (inr p, ma) ->
  match fst (createEntity_local host lib comps m) with
  | inr (payer, _, _) => payer = p
  | inl _ => True
  end.
Proof.
  intros Hpayer. unfold createEntity_local, bind at 1. rewrite Hpayer.
  unfold bind at 1, lift_env at 1, Web3.Keypair_generate.
  cbn [env heap sdk console generated].
  unfold bind at 1, RushSDKOps.world_createEntity at 1, WorldOps.createEntity,
    EntityOps.new.
  cbn [env heap sdk console generated].
  unfold bind at 1.
  match goal with
  | |- context [for_of comps ?body ?st] =>
      destruct (for_of comps body st) as [[e|[]] mc]
  end; [exact I|].
  unfold bind at 1, RushSDKOps.serializeEntityData at 1,
    EntityOps.getComponents.
  destruct (JSON_stringify host _) as [e|serialized]; [exact I|reflexivity].
Qed.

(** C1.  After [setPrimaryWallet(W1)] and then [activateSessionKeypair(W2)]
    the payer that [getActivePayer] resolves, and that [createEntity] hands
    to the storage port, is [W2] (in the other order it is [W1], since
    [setPrimaryWallet] clears the session).  With no primary wallet and no
    session,
    [createEntity] and [saveToChain] raise the SDK error with the message
    [No active payer wallet found. Set a primary wallet or create and
    activate a session.] and change nothing.  After a subsequent
    [deactivateSession()], however, the payer does not revert to [W1]:
    activation has overwritten the [wallet] field and deactivation clears
    it, so both fields are [null] and every payer-requiring call raises
    that same error. *)
Theorem deactivateSession_loses_the_primary_wallet :
  forall (host : Host) (lib : Web3.Lib) (m : Machine) (W1 W2 : Web3.Keypair),
    let after_both :=
      snd (RushSDKOps.activateSessionKeypair W2
             (snd (RushSDKOps.setPrimaryWallet W1 m))) in
    let after_deactivate := snd (RushSDKOps.deactivateSession after_both) in
    fst (RushSDKOps.getActivePayer after_both) = inr W2
    /\ fst (RushSDKOps.getActivePayer
              (snd (RushSDKOps.setPrimaryWallet W1
                      (snd (RushSDKOps.activateSessionKeypair W2 m)))))
       = inr W1
    /\ (forall comps,
          match fst (createEntity_local host lib comps after_both) with
          | inr (payer, _, _) => payer = W2
          | inl _ => True
          end)
    /\ wallet (sdk after_deactivate) = None
    /\ activeSessionKeypair (sdk after_deactivate) = None
    /\ RushSDKOps.getActivePayer after_deactivate
       = (inl no_payer, after_deactivate)
    /\ (forall comps,
          RushSDKOps.createEntity host lib comps after_deactivate
          = (inl no_payer, after_deactivate))
    /\ RushSDKOps.saveToChain host after_deactivate
       = (inl no_payer, after_deactivate)
    /\ (forall en h w st bp user comps,
          let never_set := mkMachine en h (mkRushSDK w st None bp user None) in
          RushSDKOps.createEntity host lib comps never_set
          = (inl no_payer, never_set)
          /\ RushSDKOps.saveToChain host never_set = (inl no_payer, never_set)).
Proof.
  intros host lib [en h s] W1 W2 after_both after_deactivate.
  assert (wallet (sdk after_deactivate) = None) as Hw by reflexivity.
  assert (activeSessionKeypair (sdk after_deactivate) = None) as Ha
    by reflexivity.
  split; [reflexivity|]. split; [reflexivity|]. split.
  { intros comps.
    apply (createEntity_local_payer host lib comps after_both
             (snd (RushSDKOps.getActivePayer after_both)) W2).
    reflexivity. }
  split; [exact Hw|]. split; [exact Ha|].
  split; [apply getActivePayer_none; assumption|].
  split; [intros comps; apply createEntity_without_payer; assumption|].
  split; [apply saveToChain_without_payer; assumption|].
  intros en' h' w st bp user comps never_set.
  split.
  - apply createEntity_without_payer; reflexivity.
  - apply saveToChain_without_payer; reflexivity.
Qed.

(** * Further properties of the code *)

(** ** Maps *)

Lemma get_None_keys {V : Type} (k : string) (m : JsMap.t V) :
  JsMap.get k m = None <-> k ∉ JsMap.keys m.
Proof.
  unfold JsMap.keys. induction m as [|[k' v'] m IH]; simpl.
  - split; [intros _; apply not_elem_of_nil|reflexivity].
  - rewrite not_elem_of_cons. destruct (String.eqb k' k) eqn:E.
    + apply String.eqb_eq in E. subst k'. split; [discriminate|].
      intros [Hne _]. contradiction.
    + apply String.eqb_neq in E. rewrite IH. split.
      * intros H. split; [congruence|exact H].
      * intros [_ H]. exact H.
Qed.

Lemma keys_set {V : Type} (k : string) (v : V) (m : JsMap.t V) :
  JsMap.keys (JsMap.set k v m)
  = if JsMap.has k m then JsMap.keys m else JsMap.keys m ++ [k].
Proof.
  unfold JsMap.keys, JsMap.has. induction m as [|[k' v'] m IH]; simpl.
  - reflexivity.
  - destruct (String.eqb k' k) eqn:E; simpl.
    + apply String.eqb_eq in E. subst k'. reflexivity.
    + rewrite IH. destruct (JsMap.get k m); reflexivity.
Qed.

Lemma NoDup_keys_set {V : Type} (k : string) (v : V) (m : JsMap.t V) :
  NoDup (JsMap.keys m) -> NoDup (JsMap.keys (JsMap.set k v m)).
Proof.
  intros Hm. rewrite keys_set. unfold JsMap.has.
  destruct (JsMap.get k m) eqn:E; [exact Hm|].
  apply NoDup_app. split; [exact Hm|]. split.
  - intros x Hx Hk. apply list_elem_of_singleton in Hk. subst x.
    apply get_None_keys in E. contradiction.
  - apply NoDup_singleton.
Qed.

Lemma remove_absent {V : Type} (k : string) (m : JsMap.t V) :
  JsMap.get k m = None -> JsMap.remove k m = m.
Proof.
  induction m as [|[k' v'] m IH]; simpl; intros H.
  - reflexivity.
  - destruct (String.eqb k' k); [discriminate|]. rewrite IH by exact H.
    reflexivity.
Qed.

Lemma get_remove_ne {V : Type} (k k0 : string) (m : JsMap.t V) :
  k <> k0 -> JsMap.get k0 (JsMap.remove k m) = JsMap.get k0 m.
Proof.
  intros Hne. induction m as [|[k' v'] m IH]; simpl.
  - reflexivity.
  - destruct (String.eqb k' k) eqn:E; simpl.
    + apply String.eqb_eq in E. subst k'.
      destruct (String.eqb k k0) eqn:E0; [|reflexivity].
      apply String.eqb_eq in E0. contradiction.
    + destruct (String.eqb k' k0); [reflexivity|exact IH].
Qed.

Lemma get_remove_eq {V : Type} (k : string) (m : JsMap.t V) :
  NoDup (JsMap.keys m) -> JsMap.get k (JsMap.remove k m) = None.
Proof.
  unfold JsMap.keys. induction m as [|[k' v'] m IH]; simpl; intros Hm.
  - reflexivity.
  - apply NoDup_cons in Hm as [Hk' Hm].
    destruct (String.eqb k' k) eqn:E; simpl.
    + apply String.eqb_eq in E. subst k'. apply get_None_keys. exact Hk'.
    + rewrite E. apply IH, Hm.
Qed.

Lemma keys_remove_subset {V : Type} (k x : string) (m : JsMap.t V) :
  x ∈ JsMap.keys (JsMap.remove k m) -> x ∈ JsMap.keys m.
Proof.
  unfold JsMap.keys. induction m as [|[k' v'] m IH]; simpl.
  - intros H. exact H.
  - destruct (String.eqb k' k); simpl.
    + intros H. apply elem_of_cons. right. exact H.
    + rewrite !elem_of_cons. intros [H|H]; [left; exact H|right; apply IH, H].
Qed.

Lemma NoDup_keys_remove {V : Type} (k : string) (m : JsMap.t V) :
  NoDup (JsMap.keys m) -> NoDup (JsMap.keys (JsMap.remove k m)).
Proof.
  unfold JsMap.keys. induction m as [|[k' v'] m IH]; simpl; intros Hm.
  - exact Hm.
  - apply NoDup_cons in Hm as [Hk' Hm].
    destruct (String.eqb k' k); simpl; [exact Hm|].
    apply NoDup_cons. split; [|apply IH, Hm].
    intros H. apply Hk'. exact (keys_remove_subset k k' m H).
Qed.

(** ** Entity: components *)

Lemma lookup_live (h : Heap) (i : nat) :
  i < List.length h -> exists m, h !! i = Some m.
Proof.
  intros H. destruct (h !! i) as [m|] eqn:E; [eauto|].
  apply lookup_ge_None in E. lia.
Qed.

Lemma alter_fixed {A : Type} (f : A -> A) (l : list A) (i : nat) :
  (forall x, l !! i = Some x -> f x = x) -> alter f i l = l.
Proof.
  revert i. induction l as [|y l IH]; intros i H; [reflexivity|].
  destruct i as [|i]; simpl.
  - rewrite (H y eq_refl). reflexivity.
  - f_equal. apply IH. intros x Hx. apply H. exact Hx.
Qed.

Lemma hasComponent_get (e : Entity) (ty : string) (h : Heap) :
  EntityOps.hasComponent e ty h = true
  <-> exists m d, h !! components e = Some m /\ JsMap.get ty m = Some d.
Proof.
  unfold EntityOps.hasComponent, JsMap.has.
  destruct (h !! components e) as [m|].
  - destruct (JsMap.get ty m) as [d|] eqn:E.
    + split; [eauto|reflexivity].
    + split; [discriminate|]. intros (m' & d & Hm & Hd).
      injection Hm as <-. congruence.
  - split; [discriminate|]. intros (m' & d & Hm & _). discriminate.
Qed.

(** X1. On an entity of the heap, [addComponent(ty, d)] followed by
    [getComponent(ty)] gives [d] and [hasComponent(ty)] is true; every other
    component of the entity, and every component of every other entity, is
    what it was. *)
Theorem addComponent_round_trip :
  forall (h : Heap) (e : Entity) (ty : string) (d : JsValue),
    components e < List.length h ->
    let h' := EntityOps.addComponent e ty d h in
    EntityOps.getComponent e ty h' = d
    /\ EntityOps.hasComponent e ty h' = true
    /\ (forall ty', ty' <> ty ->
          EntityOps.getComponent e ty' h' = EntityOps.getComponent e ty' h
          /\ EntityOps.hasComponent e ty' h' = EntityOps.hasComponent e ty' h)
    /\ (forall e' ty', components e' <> components e ->
          EntityOps.getComponent e' ty' h' = EntityOps.getComponent e' ty' h
          /\ EntityOps.hasComponent e' ty' h' = EntityOps.hasComponent e' ty' h).
Proof.
  intros h e ty d Hlive h'. subst h'.
  destruct (lookup_live h _ Hlive) as [m Hm].
  unfold EntityOps.getComponent, EntityOps.hasComponent, EntityOps.addComponent,
    JsMap.has.
  rewrite list_lookup_alter_eq, Hm. simpl.
  rewrite get_set_eq. split; [reflexivity|]. split; [reflexivity|]. split.
  - intros ty' Hne. rewrite get_set_ne by congruence. split; reflexivity.
  - intros e' ty' Hne. rewrite list_lookup_alter_ne by congruence.
    split; reflexivity.
Qed.

Lemma addComponent_round_trip_witness :
  let h := snd two_entities in
  let e1 := mkEntity "e1" 0 "pk1" in
  let h' := EntityOps.addComponent e1 "health" (JNum 100) h in
  EntityOps.getComponent e1 "health" h' = JNum 100
  /\ EntityOps.hasComponent e1 "health" h' = true
  /\ (forall ty', ty' <> "health" ->
        EntityOps.getComponent e1 ty' h' = EntityOps.getComponent e1 ty' h
        /\ EntityOps.hasComponent e1 ty' h' = EntityOps.hasComponent e1 ty' h)
  /\ (forall e' ty', components e' <> components e1 ->
        EntityOps.getComponent e' ty' h' = EntityOps.getComponent e' ty' h
        /\ EntityOps.hasComponent e' ty' h' = EntityOps.hasComponent e' ty' h).
Proof.
  apply (addComponent_round_trip (snd two_entities) (mkEntity "e1" 0 "pk1")
           "health" (JNum 100)).
  vm_compute. lia.
Defined.

(** X2. On a heap whose maps have distinct keys, [removeComponent(ty)]
    returns whether the component was there; afterwards [hasComponent(ty)]
    is false and [getComponent(ty)] is [undefined], the other components
    are untouched, and removing a component that is not there changes
    nothing. *)
Theorem removeComponent_removes :
  forall (h : Heap) (e : Entity) (ty : string),
    heap_wf h ->
    let '(present, h') := EntityOps.removeComponent e ty h in
    present = EntityOps.hasComponent e ty h
    /\ EntityOps.hasComponent e ty h' = false
    /\ EntityOps.getComponent e ty h' = JUndefined
    /\ (forall ty', ty' <> ty ->
          EntityOps.getComponent e ty' h' = EntityOps.getComponent e ty' h)
    /\ (present = false -> h' = h)
    /\ heap_wf h'.
Proof.
  intros h e ty Hwf. unfold EntityOps.removeComponent.
  split; [reflexivity|].
  unfold EntityOps.hasComponent, EntityOps.getComponent, JsMap.has.
  rewrite list_lookup_alter_eq.
  destruct (h !! components e) as [m|] eqn:Hm; simpl.
  - assert (NoDup (JsMap.keys m)) as Hnd.
    { eapply Forall_lookup_1 in Hwf; [exact Hwf|exact Hm]. }
    rewrite (get_remove_eq ty m Hnd). split; [reflexivity|].
    split; [reflexivity|]. split; [|split].
    + intros ty' Hne. rewrite get_remove_ne by congruence. reflexivity.
    + intros Habsent. destruct (JsMap.get ty m) eqn:E; [discriminate|].
      apply alter_fixed. intros m' Hm'. rewrite Hm in Hm'.
      injection Hm' as <-. apply remove_absent, E.
    + apply Forall_alter; [exact Hwf|].
      intros m' _ Hm'. apply NoDup_keys_remove, Hm'.
  - split; [reflexivity|]. split; [reflexivity|]. split; [|split].
    + reflexivity.
    + intros _. apply alter_fixed. intros m' Hm'. rewrite Hm in Hm'.
      discriminate.
    + apply Forall_alter; [exact Hwf|].
      intros m' _ Hm'. apply NoDup_keys_remove, Hm'.
Qed.

Lemma removeComponent_removes_witness :
  let h := snd two_entities in
  let e1 := mkEntity "e1" 0 "pk1" in
  let '(present, h') := EntityOps.removeComponent e1 "renderable" h in
  present = EntityOps.hasComponent e1 "renderable" h
  /\ EntityOps.hasComponent e1 "renderable" h' = false
  /\ EntityOps.getComponent e1 "renderable" h' = JUndefined
  /\ (forall ty', ty' <> "renderable" ->
        EntityOps.getComponent e1 ty' h' = EntityOps.getComponent e1 ty' h)
  /\ (present = false -> h' = h)
  /\ heap_wf h'.
Proof.
  apply (removeComponent_removes (snd two_entities) (mkEntity "e1" 0 "pk1")
           "renderable").
  apply (bool_decide_unpack _). vm_compute. exact I.
Defined.

(** ** World: entities *)

Lemma Forall_set {V : Type} (P : string * V -> Prop) (k : string) (v : V)
    (m : JsMap.t V) :
  Forall P m -> P (k, v) -> Forall P (JsMap.set k v m).
Proof.
  intros Hm Hkv. induction Hm as [|[k' v'] m Hx Hm IH]; simpl.
  - repeat constructor. exact Hkv.
  - destruct (String.eqb k' k); constructor; assumption.
Qed.

Lemma Forall_remove {V : Type} (P : string * V -> Prop) (k : string)
    (m : JsMap.t V) :
  Forall P m -> Forall P (JsMap.remove k m).
Proof.
  intros Hm. induction Hm as [|[k' v'] m Hx Hm IH]; simpl.
  - constructor.
  - destruct (String.eqb k' k); [exact Hm|]. constructor; assumption.
Qed.

Lemma world_wf_heap (w : World) (h h' : Heap) :
  List.length h <= List.length h' -> world_wf w h -> world_wf w h'.
Proof.
  intros Hle [Hkeys Hents]. split; [exact Hkeys|].
  eapply Forall_impl; [exact Hents|].
  intros [k e] [Hid Hlive]. split; [exact Hid|]. simpl in *. lia.
Qed.

Lemma world_wf_same_entities (w w' : World) (h : Heap) :
  entities w' = entities w -> world_wf w h -> world_wf w' h.
Proof. unfold world_wf. intros ->. trivial. Qed.

Lemma createEntity_consistent (i : string) (pk : PublicKey) (w : World)
    (h : Heap) :
  consistent (w, h) ->
  consistent (snd (fst (WorldOps.createEntity i pk w h)),
              snd (WorldOps.createEntity i pk w h)).
Proof.
  intros [Hh Hw]. unfold WorldOps.createEntity, EntityOps.new. simpl in *.
  split; simpl.
  - apply Forall_app_2; [exact Hh|]. repeat constructor.
  - apply (world_wf_heap w h (h ++ [JsMap.empty])) in Hw;
      [|rewrite length_app; simpl; lia].
    destruct Hw as [Hkeys Hents]. split; simpl.
    + apply NoDup_keys_set, Hkeys.
    + apply Forall_set; [exact Hents|]. simpl. split; [reflexivity|].
      rewrite length_app. simpl. lia.
Qed.

Lemma removeEntity_consistent (i : string) (w : World) (h : Heap) :
  consistent (w, h) -> consistent (snd (WorldOps.removeEntity i w), h).
Proof.
  intros [Hh [Hkeys Hents]]. unfold WorldOps.removeEntity.
  destruct (JsMap.get i (entities w)); simpl.
  - split; [exact Hh|]. split; simpl.
    + apply NoDup_keys_remove, Hkeys.
    + apply Forall_remove, Hents.
  - split; [exact Hh|]. split; assumption.
Qed.

Lemma alter_consistent (f : JsMap.t JsValue -> JsMap.t JsValue) (i : nat)
    (w : World) (h : Heap) :
  (forall m, NoDup (JsMap.keys m) -> NoDup (JsMap.keys (f m))) ->
  consistent (w, h) -> consistent (w, alter f i h).
Proof.
  intros Hf [Hh Hw]. split; simpl in *.
  - apply Forall_alter; [exact Hh|]. intros m _. apply Hf.
  - apply (world_wf_heap _ h); [rewrite length_alter; lia|exact Hw].
Qed.

Lemma append_consistent (m : JsMap.t JsValue) (w : World) (h : Heap) :
  NoDup (JsMap.keys m) -> consistent (w, h) -> consistent (w, h ++ [m]).
Proof.
  intros Hm [Hh Hw]. split; simpl in *.
  - apply Forall_app_2; [exact Hh|]. repeat constructor. exact Hm.
  - apply (world_wf_heap _ h); [rewrite length_app; simpl; lia|exact Hw].
Qed.

Lemma mutate_consistent (m : nat) (op : MapMutation) (w : World) (h : Heap) :
  consistent (w, h) -> consistent (w, mutate m op h).
Proof.
  destruct op; simpl; apply alter_consistent; intros m0 Hm0.
  - apply NoDup_keys_set, Hm0.
  - apply NoDup_keys_remove, Hm0.
  - constructor.
Qed.

Lemma getComponents_consistent (e : Entity) (w : World) (h : Heap) :
  consistent (w, h) -> consistent (w, snd (EntityOps.getComponents e h)).
Proof.
  intros Hc. unfold EntityOps.getComponents. simpl.
  apply append_consistent; [|exact Hc].
  destruct (h !! components e) as [m|] eqn:E; simpl.
  - destruct Hc as [Hh _]. simpl in Hh.
    eapply Forall_lookup_1 in Hh; [exact Hh|exact E].
  - constructor.
Qed.

Lemma run_keeps_consistent (fuel : nat) :
  (forall p st st',
     consistent st -> run fuel p st = Some st' -> consistent st')
  /\ (forall index deltaTime st st',
        consistent st ->
        update_from fuel index deltaTime st = Some st' -> consistent st').
Proof.
  induction fuel as [|fuel [IHrun IHupd]].
  - split; intros; discriminate.
  - split.
    + intros p [w h] st' Hc Hrun.
      destruct p; simpl in Hrun.
      * injection Hrun as <-. exact Hc.
      * eapply IHrun; [|exact Hrun].
        apply (append_consistent JsMap.empty); [constructor|exact Hc].
      * eapply IHrun; [|exact Hrun].
        apply (createEntity_consistent i pk w h Hc).
      * eapply IHrun; [|exact Hrun]. exact Hc.
      * destruct (WorldOps.removeEntity i w) as [b w1] eqn:E.
        eapply IHrun; [|exact Hrun].
        pose proof (removeEntity_consistent i w h Hc) as H.
        rewrite E in H. exact H.
      * eapply IHrun; [|exact Hrun].
        destruct Hc as [Hh Hw]. split; [exact Hh|].
        apply (world_wf_same_entities w); [reflexivity|exact Hw].
      * destruct (update_from fuel 0 deltaTime (w, h)) as [st1|] eqn:E;
          [|discriminate].
        eapply IHrun; [|exact Hrun].
        eapply IHupd; [|exact E]. exact Hc.
      * eapply IHrun; [|exact Hrun]. exact Hc.
      * eapply IHrun; [|exact Hrun].
        apply alter_consistent; [|exact Hc].
        intros m0. apply NoDup_keys_set.
      * eapply IHrun; [|exact Hrun]. exact Hc.
      * eapply IHrun; [|exact Hrun]. exact Hc.
      * eapply IHrun; [|exact Hrun].
        apply alter_consistent; [|exact Hc].
        intros m0. apply NoDup_keys_remove.
      * eapply IHrun; [|exact Hrun].
        apply (getComponents_consistent e w h Hc).
      * eapply IHrun; [|exact Hrun]. apply mutate_consistent, Hc.
    + intros index deltaTime st st' Hc Hupd. simpl in Hupd.
      destruct (systems (fst st) !! index) as [system|].
      * destruct (run fuel (system deltaTime) st) as [st1|] eqn:E;
          [|discriminate].
        eapply IHupd; [|exact Hupd].
        eapply IHrun; [|exact E]. exact Hc.
      * injection Hupd as <-. exact Hc.
Qed.

(** X3. Whatever client code does through the public operations of World
    and Entity, starting from a fresh World, the state stays well formed:
    component names are unique within each entity, entity ids are unique
    within the World, [getEntity(id)] is only ever an entity whose id is
    [id], and every entity of the World is an object of the heap. *)
Theorem reachable_states_are_consistent :
  consistent (WorldOps.new, [])
  /\ (forall (fuel : nat) (p : Script) (st st' : State),
        consistent st -> run fuel p st = Some st' -> consistent st')
  /\ (forall (w : World) (h : Heap) (i : string) (e : Entity),
        consistent (w, h) ->
        WorldOps.getEntity i w = Some e ->
        id e = i /\ components e < List.length h).
Proof.
  split; [|split].
  - split; simpl; [constructor|]. split; constructor.
  - intros fuel. exact (proj1 (run_keeps_consistent fuel)).
  - intros w h i e [_ [_ Hents]] Hget. unfold WorldOps.getEntity in Hget.
    simpl in Hents.
    induction Hents as [|[k e0] m [Hid Hlive] _ IH]; simpl in Hget;
      [discriminate|].
    destruct (String.eqb k i) eqn:E.
    + injection Hget as <-. apply String.eqb_eq in E. simpl in *.
      split; [congruence|exact Hlive].
    + apply IH, Hget.
Qed.

Lemma reachable_states_are_consistent_witness :
  match run 16 client_script (WorldOps.new, []) with
  | Some st => consistent st
  | None => False
  end.
Proof.
  destruct (run 16 client_script (WorldOps.new, [])) as [st|] eqn:Hrun.
  - exact (proj1 (proj2 reachable_states_are_consistent) 16 client_script
             (WorldOps.new, []) st (proj1 reachable_states_are_consistent)
             Hrun).
  - vm_compute in Hrun. discriminate.
Defined.

Lemma has_get {V : Type} (k : string) (m : JsMap.t V) :
  JsMap.has k m = is_some (JsMap.get k m).
Proof. unfold JsMap.has. destruct (JsMap.get k m); reflexivity. Qed.

(** X4. [createEntity(id, publicKey)] returns an entity with that id and
    key and no component, and [getEntity(id)] then returns it; what
    [getEntity] returns for other ids, and the components of the entities
    that existed, are as before.  A new id goes to the end of the World's
    order; an id already in use keeps its place, its entity replaced. *)
Theorem createEntity_then_getEntity :
  forall (w : World) (h : Heap) (i : string) (pk : PublicKey),
    let '(e, w', h') := WorldOps.createEntity i pk w h in
    WorldOps.getEntity i w' = Some e
    /\ id e = i /\ publicKey e = pk
    /\ (forall ty, EntityOps.getComponent e ty h' = JUndefined
                   /\ EntityOps.hasComponent e ty h' = false)
    /\ (forall j, j <> i -> WorldOps.getEntity j w' = WorldOps.getEntity j w)
    /\ (forall e0 ty, components e0 < List.length h ->
          EntityOps.getComponent e0 ty h' = EntityOps.getComponent e0 ty h)
    /\ JsMap.keys (entities w')
       = (if is_some (WorldOps.getEntity i w) then JsMap.keys (entities w)
          else JsMap.keys (entities w) ++ [i]).
Proof.
  intros w h i pk. unfold WorldOps.createEntity, EntityOps.new,
    WorldOps.getEntity. simpl.
  split; [apply get_set_eq|]. split; [reflexivity|]. split; [reflexivity|].
  split; [|split; [|split]].
  - intros ty. unfold EntityOps.getComponent, EntityOps.hasComponent. simpl.
    rewrite lookup_app_r by lia.
    replace (List.length h - List.length h) with 0 by lia. simpl.
    split; reflexivity.
  - intros j Hne. apply get_set_ne. congruence.
  - intros e0 ty Hlive. apply getComponent_lookup.
    apply lookup_app_l. exact Hlive.
  - rewrite keys_set, has_get. reflexivity.
Qed.

Lemma In_remove {V : Type} (k k0 : string) (v : V) (m : JsMap.t V) :
  NoDup (JsMap.keys m) ->
  (In (k0, v) (JsMap.remove k m) <-> In (k0, v) m /\ k0 <> k).
Proof.
  unfold JsMap.keys. induction m as [|[k' v'] m IH]; simpl; intros Hm.
  - tauto.
  - apply NoDup_cons in Hm as [Hk' Hm]. specialize (IH Hm).
    destruct (String.eqb k' k) eqn:E.
    + apply String.eqb_eq in E. subst k'. split.
      * intros Hin. split; [right; exact Hin|].
        intros ->. apply Hk'. apply list_elem_of_In.
        apply (in_map fst) in Hin. exact Hin.
      * intros [[Heq|Hin] Hne]; [congruence|exact Hin].
    + apply String.eqb_neq in E. simpl. rewrite IH. split.
      * intros [Heq|[Hin Hne]].
        -- split; [left; exact Heq|]. congruence.
        -- split; [right; exact Hin|exact Hne].
      * intros [[Heq|Hin] Hne]; [left; exact Heq|right; split; assumption].
Qed.

Lemma values_remove (i : string) (m : JsMap.t Entity) :
  NoDup (JsMap.keys m) ->
  Forall (fun entry : string * Entity => id (snd entry) = fst entry) m ->
  JsMap.values (JsMap.remove i m)
  = List.filter (fun e => negb (String.eqb (id e) i)) (JsMap.values m).
Proof.
  unfold JsMap.keys, JsMap.values.
  induction m as [|[k e] m IH]; simpl; intros Hnd Hids.
  - reflexivity.
  - apply NoDup_cons in Hnd as [Hk Hnd].
    apply Forall_cons in Hids as [Hid Hids]. simpl in Hid. rewrite Hid.
    destruct (String.eqb k i) eqn:E; simpl.
    + apply String.eqb_eq in E. subst k.
      symmetry. clear IH. induction m as [|[k' e'] m IHm]; simpl.
      * reflexivity.
      * apply Forall_cons in Hids as [Hid' Hids]. simpl in Hid'.
        apply not_elem_of_cons in Hk as [Hne Hk]. simpl in Hne.
        apply NoDup_cons in Hnd as [_ Hnd].
        rewrite Hid'. destruct (String.eqb k' i) eqn:E'.
        -- apply String.eqb_eq in E'. congruence.
        -- simpl. f_equal. apply IHm; assumption.
    + rewrite IH by assumption. reflexivity.
Qed.

Lemma filter_filter_comm {A : Type} (f g : A -> bool) (l : list A) :
  List.filter f (List.filter g l) = List.filter g (List.filter f l).
Proof.
  induction l as [|x l IH]; simpl; [reflexivity|].
  destruct (f x) eqn:Ef, (g x) eqn:Eg; simpl; rewrite ?Ef, ?Eg, IH;
    reflexivity.
Qed.

Lemma world_wf_ids (w : World) (h : Heap) :
  world_wf w h ->
  Forall (fun entry : string * Entity => id (snd entry) = fst entry)
    (entities w).
Proof.
  intros [_ H]. eapply Forall_impl; [exact H|]. intros entry [Hid _].
  exact Hid.
Qed.

(** X5. In a well-formed World, [removeEntity(id)] returns whether the id
    was there; afterwards [getEntity(id)] is absent, the other ids are as
    before, and every query gives what it gave before without the entity of
    that id, in the same order.  Removing an id that is not there changes
    nothing. *)
Theorem removeEntity_removes :
  forall (w : World) (h : Heap) (i : string),
    world_wf w h ->
    let '(removed, w') := WorldOps.removeEntity i w in
    removed = is_some (WorldOps.getEntity i w)
    /\ WorldOps.getEntity i w' = None
    /\ (forall j, j <> i -> WorldOps.getEntity j w' = WorldOps.getEntity j w)
    /\ (forall names,
          WorldOps.query names w' h
          = List.filter (fun e => negb (String.eqb (id e) i))
              (WorldOps.query names w h))
    /\ (removed = false -> w' = w)
    /\ world_wf w' h.
Proof.
  intros w h i Hwf. pose proof (world_wf_ids w h Hwf) as Hids.
  destruct Hwf as [Hkeys Hents].
  unfold WorldOps.removeEntity, WorldOps.getEntity.
  destruct (JsMap.get i (entities w)) as [e|] eqn:Hget; simpl.
  - split; [reflexivity|]. split; [apply get_remove_eq, Hkeys|].
    split; [|split; [|split]].
    + intros j Hne. apply get_remove_ne. congruence.
    + intros names. rewrite !query_unfold. simpl.
      rewrite (values_remove i (entities w) Hkeys Hids).
      apply filter_filter_comm.
    + discriminate.
    + split; simpl; [apply NoDup_keys_remove, Hkeys|].
      apply Forall_remove, Hents.
  - split; [reflexivity|]. split; [exact Hget|]. split; [|split; [|split]].
    + reflexivity.
    + intros names. rewrite !query_unfold.
      rewrite filter_filter_comm. f_equal.
      rewrite <- (values_remove i (entities w) Hkeys Hids).
      rewrite (remove_absent i (entities w) Hget). reflexivity.
    + reflexivity.
    + split; assumption.
Qed.

Lemma removeEntity_removes_witness :
  let '(w, h) := two_entities in
  let '(removed, w') := WorldOps.removeEntity "e1" w in
  removed = is_some (WorldOps.getEntity "e1" w)
  /\ WorldOps.getEntity "e1" w' = None
  /\ (forall j, j <> "e1" -> WorldOps.getEntity j w' = WorldOps.getEntity j w)
  /\ (forall names,
        WorldOps.query names w' h
        = List.filter (fun e => negb (String.eqb (id e) "e1"))
            (WorldOps.query names w h))
  /\ (removed = false -> w' = w)
  /\ world_wf w' h.
Proof.
  apply (removeEntity_removes (fst two_entities) (snd two_entities) "e1").
  apply (bool_decide_unpack _). vm_compute. exact I.
Defined.

Lemma get_Some_keys {V : Type} (k : string) (v : V) (m : JsMap.t V) :
  JsMap.get k m = Some v -> k ∈ JsMap.keys m.
Proof.
  intros H. destruct (decide (k ∈ JsMap.keys m)) as [Hin|Hout]; [exact Hin|].
  apply get_None_keys in Hout. congruence.
Qed.

(** X6. In a well-formed state every entity a query returns is the entity
    the World holds under its id, is an object of the heap and has every
    requested component; and no entity is returned twice. *)
Theorem query_results_are_world_entities :
  forall (w : World) (h : Heap) (names : list string),
    world_wf w h ->
    NoDup (map id (WorldOps.query names w h))
    /\ (forall e, In e (WorldOps.query names w h) ->
          WorldOps.getEntity (id e) w = Some e
          /\ components e < List.length h
          /\ forall c, In c names -> EntityOps.hasComponent e c h = true).
Proof.
  intros w h names [Hkeys Hents]. rewrite query_unfold.
  unfold WorldOps.getEntity, JsMap.values.
  induction (entities w) as [|[k e0] m IH]; simpl in *.
  - split; [constructor|]. intros e [].
  - apply NoDup_cons in Hkeys as [Hk Hkeys].
    apply Forall_cons in Hents as [[Hid Hlive] Hents]. simpl in Hid, Hlive.
    destruct (IH Hkeys Hents) as [IHnd IHin]. clear IH.
    assert (forall e,
              In e (List.filter (WorldOps.hasEvery names h) (map snd m)) ->
              String.eqb k (id e) = false) as Hother.
    { intros e He. apply String.eqb_neq. intros ->.
      apply Hk. destruct (IHin e He) as [Hget _].
      exact (get_Some_keys _ _ _ Hget). }
    destruct (WorldOps.hasEvery names h e0) eqn:Ehas; simpl.
    + split.
      * apply NoDup_cons. split; [|exact IHnd].
        intros Hin. apply list_elem_of_In, in_map_iff in Hin
          as [e [Heq He]].
        pose proof (Hother e He) as Hne. apply String.eqb_neq in Hne.
        congruence.
      * intros e [<-|He].
        -- rewrite Hid, String.eqb_refl. split; [reflexivity|].
           split; [exact Hlive|]. intros c Hc.
           unfold WorldOps.hasEvery in Ehas. rewrite forallb_forall in Ehas.
           apply Ehas, Hc.
        -- rewrite (Hother e He). apply IHin, He.
    + split; [exact IHnd|]. intros e He.
      rewrite (Hother e He). apply IHin, He.
Qed.

Lemma query_results_are_world_entities_witness :
  NoDup (map id (WorldOps.query ["position"] (fst two_entities)
                   (snd two_entities)))
  /\ (forall e, In e (WorldOps.query ["position"] (fst two_entities)
                        (snd two_entities)) ->
        WorldOps.getEntity (id e) (fst two_entities) = Some e
        /\ components e < List.length (snd two_entities)
        /\ forall c, In c ["position"] ->
                     EntityOps.hasComponent e c (snd two_entities) = true).
Proof.
  apply (query_results_are_world_entities (fst two_entities)
           (snd two_entities) ["position"]).
  apply (bool_decide_unpack _). vm_compute. exact I.
Defined.

Lemma createEntity_then_getEntity_witness :
  let '(e, w', h') :=
    WorldOps.createEntity "e3" "pk3" (fst two_entities) (snd two_entities) in
  WorldOps.getEntity "e2" w' = WorldOps.getEntity "e2" (fst two_entities).
Proof.
  pose proof (createEntity_then_getEntity (fst two_entities)
                (snd two_entities) "e3" "pk3") as H.
  destruct (WorldOps.createEntity "e3" "pk3" (fst two_entities)
              (snd two_entities)) as [[e w'] h'].
  destruct H as (_ & _ & _ & _ & H & _). apply H. discriminate.
Defined.

(** ** The schema validator *)

(** X7. The type check comes first.  For a schema whose [type] is a single
    non-empty name, data whose [typeof] is another name - and that is not an
    array checked against [array], nor [null] checked against [null] - is
    rejected with [Data for component "<path>" has incorrect type. Expected
    <type>, got <typeof data>.], whatever else the schema declares; for a
    list of names the condition is the same for every listed name and the
    message joins the names with [ or ].  Nothing is logged. *)
Theorem type_mismatch_is_reported :
  forall (host : Host) (data : JsValue) (schema : ComponentSchema)
         (path : string) (env : Env),
    (forall t,
       type schema = Some (TName t) ->
       t <> "" ->
       typeof data <> t ->
       (t = "array" -> Array_isArray data = false) ->
       (t = "null" -> is_null data = false) ->
       validateComponentDataAgainstSchema host data schema path env
       = (inl (SDKError
                 ("Data for component " +:+ quoted path
                  +:+ " has incorrect type. Expected " +:+ t +:+ ", got "
                  +:+ typeof data +:+ ".") None),
          env))
    /\ (forall ts,
          type schema = Some (TNames ts) ->
          ~ In (typeof data) ts ->
          (In "array" ts -> Array_isArray data = false) ->
          (In "null" ts -> is_null data = false) ->
          validateComponentDataAgainstSchema host data schema path env
          = (inl (SDKError
                    ("Data for component " +:+ quoted path
                     +:+ " has incorrect type. Expected " +:+ join " or " ts
                     +:+ ", got " +:+ typeof data +:+ ".") None),
             env)).
Proof.
  intros host data [ty opt props req its minL maxL pat minV maxV] path env.
  cbn [type]. split.
  - intros t -> Hne Hdiff Harr Hnull.
    cbn [validateComponentDataAgainstSchema]. unfold bind at 1.
    cbn [type_truthy type_differs type_listed typeMatch expected_text].
    apply String.eqb_neq in Hne, Hdiff. rewrite Hne, Hdiff. cbn [negb andb].
    assert (String.eqb t "array" && Array_isArray data = false) as ->.
    { destruct (String.eqb t "array") eqn:E; [|reflexivity].
      apply String.eqb_eq in E. rewrite (Harr E). reflexivity. }
    assert (String.eqb t "null" && is_null data = false) as ->.
    { destruct (String.eqb t "null") eqn:E; [|reflexivity].
      apply String.eqb_eq in E. rewrite (Hnull E). reflexivity. }
    reflexivity.
  - intros ts -> Hout Harr Hnull.
    cbn [validateComponentDataAgainstSchema]. unfold bind at 1.
    cbn [type_truthy type_differs type_listed typeMatch expected_text].
    assert (forall s, ~ In s ts -> includes s ts = false) as Hinc.
    { intros s Hs. unfold includes. destruct (existsb _ ts) eqn:E;
        [|reflexivity].
      apply existsb_exists in E as [x [Hx Heq]]. apply String.eqb_eq in Heq.
      subst x. contradiction. }
    assert (forall s, includes s ts = true -> In s ts) as Hinc'.
    { intros s Hs. unfold includes in Hs.
      apply existsb_exists in Hs as [x [Hx Heq]]. apply String.eqb_eq in Heq.
      subst x. exact Hx. }
    rewrite (Hinc _ Hout). cbn [negb andb orb].
    assert (includes "array" ts && Array_isArray data = false) as ->.
    { destruct (includes "array" ts) eqn:E; [|reflexivity].
      rewrite (Harr (Hinc' _ E)). reflexivity. }
    assert (includes "null" ts && is_null data = false) as ->.
    { destruct (includes "null" ts) eqn:E; [|reflexivity].
      rewrite (Hnull (Hinc' _ E)). reflexivity. }
    reflexivity.
Qed.

Lemma type_mismatch_is_reported_witness :
  validateComponentDataAgainstSchema sample_host (JStr "not_boolean")
    (typed "boolean") "PlayerTag" (mkEnv [] 0)
  = (inl (SDKError
            ("Data for component " +:+ quoted "PlayerTag"
             +:+ " has incorrect type. Expected " +:+ "boolean" +:+ ", got "
             +:+ typeof (JStr "not_boolean") +:+ ".") None),
     mkEnv [] 0).
Proof.
  apply (proj1 (type_mismatch_is_reported sample_host (JStr "not_boolean")
                  (typed "boolean") "PlayerTag" (mkEnv [] 0)) "boolean").
  - reflexivity.
  - discriminate.
  - discriminate.
  - discriminate.
  - discriminate.
Defined.

Lemma for_of_first_throw {S A : Type} (pre post : list A) (x : A)
    (body : A -> M S unit) (err : JsError) (s s' : S) :
  (forall y, In y pre -> body y s = (inr tt, s)) ->
  body x s = (inl err, s') ->
  for_of (pre ++ x :: post) body s = (inl err, s').
Proof.
  intros Hpre Hx. induction pre as [|y pre IH]; simpl.
  - unfold bind. rewrite Hx. reflexivity.
  - unfold bind. rewrite (Hpre y (or_introl eq_refl)).
    apply IH. intros z Hz. apply Hpre. right. exact Hz.
Qed.

(** X8. For an object schema and data that is an object, the names of
    [required] are looked up in order, and the first one the data lacks is
    reported: [Missing required property "<name>" for component "<path>".].
    The properties are not looked at and nothing is logged. *)
Theorem missing_required_property_is_reported :
  forall (host : Host) (props : list (string * JsValue))
         (opt : option bool)
         (schemaProps : option (list (string * ComponentSchema)))
         (present absent_after : list string) (missing : string)
         (its : option (ComponentSchema + list ComponentSchema))
         (minL maxL : option float) (pat : option string) (minV maxV : option float)
         (path : string) (env : Env),
    (forall name, In name present -> js_in name props = true) ->
    js_in missing props = false ->
    validateComponentDataAgainstSchema host (JObj props)
      (mkSchema (Some (TName "object")) opt schemaProps
         (Some (present ++ missing :: absent_after)) its minL maxL pat
         minV maxV)
      path env
    = (inl (SDKError
              ("Missing required property " +:+ quoted missing
               +:+ " for component " +:+ quoted path +:+ ".") None),
       env).
Proof.
  intros host props opt schemaProps present absent_after missing its minL maxL
    pat minV maxV path env Hpresent Hmissing.
  cbn [validateComponentDataAgainstSchema].
  unfold bind at 1. cbn.
  unfold bind at 1. unfold bind at 1. cbn [ret].
  unfold bind at 1.
  rewrite (for_of_first_throw present absent_after missing _
             (SDKError
                ("Missing required property " +:+ quoted missing
                 +:+ " for component " +:+ quoted path +:+ ".") None)
             env env).
  - reflexivity.
  - intros name Hname. rewrite (Hpresent name Hname). reflexivity.
  - rewrite Hmissing. reflexivity.
Qed.

Lemma missing_required_property_is_reported_witness :
  validateComponentDataAgainstSchema sample_host (JObj [("x", JNum 10)])
    Position_schema "Position" (mkEnv [] 0)
  = (inl (SDKError
            ("Missing required property " +:+ quoted "y"
             +:+ " for component " +:+ quoted "Position" +:+ ".") None),
     mkEnv [] 0).
Proof.
  apply (missing_required_property_is_reported sample_host [("x", JNum 10)]
           None
           (Some [ ("x", typed "number"); ("y", typed "number");
                   ("z", mkSchema (Some (TName "number")) (Some true) None
                           None None None None None None None) ])
           ["x"] [] "y" None None None None None None "Position" (mkEnv [] 0)).
  - intros name [<-|[]]. reflexivity.
  - reflexivity.
Defined.

(** X9. For a schema of type [number] and a number [x], the outcome is
    decided by [minimum] and [maximum] alone, the minimum checked first and
    both inclusive: below the minimum, [Component "<path>" value <x> is
    less than minimum <m>.]; above the maximum, [Component "<path>" value
    <x> exceeds maximum <m>.]; otherwise the number is accepted.  The
    comparisons are those of doubles, so [NaN] is accepted whatever the
    bounds are, and the numbers appear in the messages as the host prints
    them.  The string and structure constraints of the schema do not
    apply. *)
Theorem number_schema_outcome :
  forall (host : Host) (x : float) (opt : option bool)
         (props : option (list (string * ComponentSchema)))
         (req : option (list string))
         (its : option (ComponentSchema + list ComponentSchema))
         (minL maxL : option float) (pat : option string)
         (minV maxV : option float) (path : string) (env : Env),
    let below :=
      match minV with Some m => PrimFloat.ltb x m | None => false end in
    let above :=
      match maxV with Some m => PrimFloat.ltb m x | None => false end in
    validateComponentDataAgainstSchema host (JNum x)
      (mkSchema (Some (TName "number")) opt props req its minL maxL pat
         minV maxV)
      path env
    = (if below then
         inl (SDKError
                ("Component " +:+ quoted path +:+ " value "
                 +:+ Number_toString host x +:+ " is less than minimum "
                 +:+ Number_toString host (default 0%float minV) +:+ ".")
                None)
       else if above then
         inl (SDKError
                ("Component " +:+ quoted path +:+ " value "
                 +:+ Number_toString host x +:+ " exceeds maximum "
                 +:+ Number_toString host (default 0%float maxV) +:+ ".")
                None)
       else inr tt,
       env).
Proof.
  intros host x opt props req its minL maxL pat minV maxV path env below
    above. subst below above.
  cbn [validateComponentDataAgainstSchema]. unfold bind. cbn.
  destruct minL, maxL; cbn;
    (destruct minV as [m|]; cbn;
     [destruct (PrimFloat.ltb x m); cbn; [reflexivity|]|]);
    (destruct maxV as [m'|]; cbn;
     [destruct (PrimFloat.ltb m' x); cbn; [reflexivity|]|]);
    destruct pat as [p|]; cbn; rewrite ?andb_false_r; reflexivity.
Qed.

(** X10. For a schema of type [string] and a string [s], the outcome is
    decided by [minLength], [maxLength] and [pattern], in that order, the
    bounds inclusive: [Component "<path>" string length <n> is less than
    minimum <m>.], [... exceeds maximum <m>.], [Component "<path>" value
    "<s>" does not match pattern "<p>".].  The length is the number of
    UTF-16 code units of [s], compared with the bounds as doubles; the
    bounds appear in the messages as the host prints them.  An empty
    [pattern] is ignored; an error of the regular expression itself (a
    malformed pattern) comes out as it is, not as an SDK error.  Nothing is
    logged. *)
Theorem string_schema_outcome :
  forall (host : Host) (s : string) (opt : option bool)
         (props : option (list (string * ComponentSchema)))
         (req : option (list string))
         (its : option (ComponentSchema + list ComponentSchema))
         (minL maxL : option float) (pat : option string)
         (minV maxV : option float) (path : string) (env : Env),
    let len := utf16_length s in
    let too_short :=
      match minL with
      | Some m => PrimFloat.ltb (Number_of_length len) m
      | None => false
      end in
    let too_long :=
      match maxL with
      | Some m => PrimFloat.ltb m (Number_of_length len)
      | None => false
      end in
    validateComponentDataAgainstSchema host (JStr s)
      (mkSchema (Some (TName "string")) opt props req its minL maxL pat
         minV maxV)
      path env
    = (if too_short then
         inl (SDKError
                ("Component " +:+ quoted path +:+ " string length "
                 +:+ pretty len +:+ " is less than minimum "
                 +:+ Number_toString host (default 0%float minL) +:+ ".")
                None)
       else if too_long then
         inl (SDKError
                ("Component " +:+ quoted path +:+ " string length "
                 +:+ pretty len +:+ " exceeds maximum "
                 +:+ Number_toString host (default 0%float maxL) +:+ ".")
                None)
       else
         match pat with
         | Some p =>
             if String.eqb p "" then inr tt
             else
               match RegExp_test host p s with
               | inl e => inl e
               | inr true => inr tt
               | inr false =>
                   inl (SDKError
                          ("Component " +:+ quoted path +:+ " value "
                           +:+ quoted s +:+ " does not match pattern "
                           +:+ quoted p +:+ ".") None)
               end
         | None => inr tt
         end,
       env).
Proof.
  intros host s opt props req its minL maxL pat minV maxV path env len
    too_short too_long. subst len too_short too_long.
  cbn [validateComponentDataAgainstSchema]. unfold bind.
  cbn -[utf16_length Number_of_length].
  destruct minL as [m|]; cbn -[utf16_length Number_of_length];
    [destruct (PrimFloat.ltb (Number_of_length (utf16_length s)) m);
     cbn -[utf16_length Number_of_length]; [reflexivity|]|];
    (destruct maxL as [m'|]; cbn -[utf16_length Number_of_length];
     [destruct (PrimFloat.ltb m' (Number_of_length (utf16_length s)));
      cbn -[utf16_length Number_of_length]; [reflexivity|]|]);
    destruct minV, maxV; cbn;
    (destruct pat as [p|]; cbn; [|reflexivity]);
    (destruct (String.eqb p ""); cbn; [reflexivity|]);
    (destruct (RegExp_test host p s) as [e|[|]]; reflexivity).
Qed.

(** ** What validation does to the state *)

Lemma schema_induction (P : ComponentSchema -> Prop) :
  (forall ty opt props req its minL maxL pat minV maxV,
     (forall ps, props = Some ps -> Forall (fun entry => P (snd entry)) ps) ->
     (forall item, its = Some (inl item) -> P item) ->
     (forall others, its = Some (inr others) -> Forall P others) ->
     P (mkSchema ty opt props req its minL maxL pat minV maxV)) ->
  forall schema, P schema.
Proof.
  intros H. fix IH 1.
  intros [ty opt props req its minL maxL pat minV maxV].
  assert (Hprops : match props with
                   | Some ps => Forall (fun entry => P (snd entry)) ps
                   | None => True
                   end).
  { destruct props as [ps|]; [|exact I]. revert ps. fix IHps 1.
    intros [|[k s] ps]; constructor; [apply IH|apply IHps]. }
  assert (Hits : match its with
                 | Some (inl item) => P item
                 | Some (inr others) => Forall P others
                 | None => True
                 end).
  { destruct its as [[item|others]|]; [apply IH| |exact I].
    revert others. fix IHs 1.
    intros [|s others]; constructor; [apply IH|apply IHs]. }
  apply H.
  - intros ps ->. exact Hprops.
  - intros item ->. exact Hits.
  - intros others ->. exact Hits.
Qed.

Lemma env_eta (env : Env) : mkEnv (console env) (generated env) = env.
Proof. destruct env. reflexivity. Qed.

Lemma warns_ret {A : Type} (a : A) : warns_only (ret a).
Proof.
  exists (inr a), []. split; [constructor|].
  intros env. unfold ret. rewrite app_nil_r, env_eta. reflexivity.
Qed.

Lemma warns_throw {A : Type} (e : JsError) : warns_only (throw (A := A) e).
Proof.
  exists (inl e), []. split; [constructor|].
  intros env. unfold throw. rewrite app_nil_r, env_eta. reflexivity.
Qed.

Lemma warns_outcome {A : Type} (r : JsError + A) : warns_only (outcome r).
Proof. destruct r; [apply warns_throw|apply warns_ret]. Qed.

Lemma warns_console_warn (s : string) : warns_only (console_warn s).
Proof.
  exists (inr tt), [mkLog Warn s None]. split.
  - repeat constructor.
  - intros env. reflexivity.
Qed.

Lemma warns_bind {A B : Type} (c : M Env A) (k : A -> M Env B) :
  warns_only c -> (forall a, warns_only (k a)) -> warns_only (bind c k).
Proof.
  intros (r & ws & Hws & Hc) Hk. destruct r as [e|a].
  - exists (inl e), ws. split; [exact Hws|].
    intros env. unfold bind. rewrite Hc. reflexivity.
  - destruct (Hk a) as (r' & ws' & Hws' & Hka).
    exists r', (ws ++ ws'). split; [apply Forall_app_2; assumption|].
    intros env. unfold bind. rewrite Hc, Hka. cbn [console generated].
    rewrite app_assoc. reflexivity.
Qed.

Lemma warns_when (c : bool) (body : M Env unit) :
  warns_only body -> warns_only (when c body).
Proof. intros H. destruct c; [exact H|apply warns_ret]. Qed.

Lemma warns_for_of {A : Type} (xs : list A) (body : A -> M Env unit) :
  (forall x, warns_only (body x)) -> warns_only (for_of xs body).
Proof.
  intros H. induction xs as [|x xs IH]; simpl.
  - apply warns_ret.
  - apply warns_bind; [apply H|]. intros _. exact IH.
Qed.

Lemma warns_for_each_item (validate_item : JsValue -> string -> M Env unit)
    (path : string) (start : nat) (elems : list JsValue) :
  (forall d p, warns_only (validate_item d p)) ->
  warns_only (for_each_item validate_item path start elems).
Proof.
  intros H. revert start. induction elems as [|x elems IH]; intros start; simpl.
  - apply warns_ret.
  - apply warns_bind; [apply H|]. intros _. apply IH.
Qed.

Create HintDb warns.

#[local] Hint Resolve warns_ret warns_throw warns_outcome warns_console_warn
  warns_when warns_for_of : warns.

Lemma validate_warns (host : Host) (schema : ComponentSchema) :
  forall (data : JsValue) (path : string),
    warns_only (validateComponentDataAgainstSchema host data schema path).
Proof.
  induction schema
    as [ty opt props req its minL maxL pat minV maxV IHprops IHitem IHitems]
    using schema_induction.
  intros data path.
  cbn [validateComponentDataAgainstSchema].
  apply warns_bind; [auto with warns|]. intros _.
  apply warns_bind.
  - destruct (type_is ty "object").
    + apply warns_bind; [auto with warns|]. intros _.
      apply warns_bind; [destruct req; auto with warns|]. intros _.
      destruct props as [ps|]; [|auto with warns].
      apply warns_bind; [|intros _; auto with warns].
      specialize (IHprops ps eq_refl).
      induction IHprops as [|[propName sub] rest Hsub _ IHrest].
      * apply warns_ret.
      * apply warns_bind; [|intros _; exact IHrest].
        destruct (value_in propName data).
        -- apply Hsub.
        -- destruct (_ && _); apply warns_ret.
    + destruct (type_is ty "array"); [|apply warns_ret].
      apply warns_bind; [auto with warns|]. intros _.
      destruct its as [[item|[|item others]]|]; try apply warns_ret;
        destruct (Nat.ltb 0 (js_length data)); try apply warns_ret;
        apply warns_for_each_item; intros d p.
      * apply (IHitem item eq_refl).
      * specialize (IHitems (item :: others) eq_refl).
        apply Forall_cons in IHitems as [Hitem _]. apply Hitem.
  - intros _.
    apply warns_bind; [destruct minL; auto with warns|]. intros _.
    apply warns_bind; [destruct maxL; auto with warns|]. intros _.
    apply warns_bind; [destruct minV; auto with warns|]. intros _.
    apply warns_bind; [destruct maxV; auto with warns|]. intros _.
    destruct pat as [p|]; [|apply warns_ret].
    destruct (_ && _); [|apply warns_ret].
    apply warns_bind; [apply warns_outcome|]. intros matched.
    auto with warns.
Qed.

(** X13. Validation has one outcome for given data, schema and path,
    whatever the ambient state, and its only effect is to append warnings
    to the console: it writes no other kind of entry and draws no key. *)
Theorem validation_only_warns :
  forall (host : Host) (schema : ComponentSchema) (data : JsValue)
         (path : string),
    exists (r : JsError + unit) (ws : list LogEntry),
      Forall (fun l => level l = Warn /\ detail l = None) ws
      /\ forall env,
           validateComponentDataAgainstSchema host data schema path env
           = (r, mkEnv (console env ++ ws) (generated env)).
Proof. intros host schema data path. apply validate_warns. Qed.

(** ** Array schemas *)

Lemma validate_outcome (host : Host) (data : JsValue)
    (schema : ComponentSchema) (path : string) (env : Env) :
  validateComponentDataAgainstSchema host data schema path env
  = (verdict host data schema path,
     mkEnv (console env ++ warnings host data schema path) (generated env)).
Proof.
  destruct (validate_warns host schema data path) as (r & ws & _ & H).
  unfold verdict, warnings. rewrite (H (mkEnv [] 0)), (H env). reflexivity.
Qed.

Lemma for_each_item_all_pass (host : Host) (item : ComponentSchema)
    (path : string) (elems : list JsValue) (start : nat) (env : Env) :
  (forall i x, elems !! i = Some x ->
     verdict host x item (path +:+ "[" +:+ pretty (start + i) +:+ "]")
     = inr tt) ->
  for_each_item (fun d p => validateComponentDataAgainstSchema host d item p)
    path start elems env
  = (inr tt,
     mkEnv (console env
            ++ concat (imap (fun i x =>
                               warnings host x item
                                 (path +:+ "[" +:+ pretty (start + i) +:+ "]"))
                         elems))
       (generated env)).
Proof.
  revert start env. induction elems as [|x elems IH]; intros start env H.
  - simpl. rewrite app_nil_r, env_eta. reflexivity.
  - cbn [for_each_item]. unfold bind. rewrite validate_outcome.
    pose proof (H 0 x eq_refl) as H0. rewrite Nat.add_0_r in H0. rewrite H0.
    rewrite IH.
    + cbn [console generated imap concat]. rewrite Nat.add_0_r.
      rewrite <- app_assoc. do 5 f_equal.
      apply imap_ext. intros i y _. cbn. rewrite Nat.add_succ_r. reflexivity.
    + intros i y Hy. rewrite Nat.add_succ_l, <- Nat.add_succ_r.
      apply H. exact Hy.
Qed.

Lemma for_each_item_first_throw (host : Host) (item : ComponentSchema)
    (path : string) (pre post : list JsValue) (bad : JsValue) (start : nat)
    (err : JsError) (env : Env) :
  (forall i x, pre !! i = Some x ->
     verdict host x item (path +:+ "[" +:+ pretty (start + i) +:+ "]")
     = inr tt) ->
  verdict host bad item
    (path +:+ "[" +:+ pretty (start + List.length pre) +:+ "]")
  = inl err ->
  for_each_item (fun d p => validateComponentDataAgainstSchema host d item p)
    path start (pre ++ bad :: post) env
  = (inl err,
     mkEnv (console env
            ++ concat (imap (fun i x =>
                               warnings host x item
                                 (path +:+ "[" +:+ pretty (start + i) +:+ "]"))
                         (pre ++ [bad])))
       (generated env)).
Proof.
  revert start env. induction pre as [|x pre IH]; intros start env Hpre Hbad.
  - cbn [app for_each_item List.length] in *. unfold bind.
    rewrite validate_outcome. rewrite Nat.add_0_r in Hbad. rewrite Hbad.
    cbn [imap concat]. rewrite Nat.add_0_r, app_nil_r. reflexivity.
  - cbn [app for_each_item List.length] in *. unfold bind.
    rewrite validate_outcome.
    pose proof (Hpre 0 x eq_refl) as H0. rewrite Nat.add_0_r in H0. rewrite H0.
    rewrite IH.
    + cbn [console generated imap concat]. rewrite Nat.add_0_r.
      rewrite <- app_assoc. do 5 f_equal.
      apply imap_ext. intros i y _. cbn. rewrite Nat.add_succ_r. reflexivity.
    + intros i y Hy. rewrite Nat.add_succ_l, <- Nat.add_succ_r.
      apply Hpre. exact Hy.
    + rewrite Nat.add_succ_l, <- Nat.add_succ_r. exact Hbad.
Qed.

(** The item schema an array schema checks with: [items] itself, or the
    first schema when [items] is a list. *)
Lemma array_schema_unfold (host : Host) (elems : list JsValue)
    (opt : option bool) (props : option (list (string * ComponentSchema)))
    (req : option (list string))
    (its : option (ComponentSchema + list ComponentSchema))
    (minL maxL : option float) (pat : option string) (minV maxV : option float)
    (path : string) (env : Env) :
  validateComponentDataAgainstSchema host (JArr elems)
    (mkSchema (Some (TName "array")) opt props req its minL maxL pat minV maxV)
    path env
  = match its with
    | Some (inl item) | Some (inr (item :: _)) =>
        for_each_item
          (fun d p => validateComponentDataAgainstSchema host d item p)
          path 0 elems env
    | _ => (inr tt, env)
    end.
Proof.
  cbn [validateComponentDataAgainstSchema]. unfold bind.
  cbn [type_truthy type_differs type_listed typeMatch type_is typeof
       Array_isArray negb andb orb when ret String.eqb Ascii.eqb Bool.eqb
       js_length array_elems is_null].
  destruct elems as [|x elems].
  { destruct its as [[item|[|item others]]|], minL, maxL, minV, maxV,
      pat as [p|]; cbn; rewrite ?andb_false_r; reflexivity. }
  cbn [List.length Nat.ltb Nat.leb].
  destruct its as [[item|[|item others]]|];
    try (destruct (for_each_item _ path 0 (x :: elems) env) as [[e|[]] s1];
         [reflexivity|]);
    destruct minL, maxL, minV, maxV, pat as [p|]; cbn;
    rewrite ?andb_false_r; reflexivity.
Qed.

(** X11. For an array schema, the elements are checked in order against
    the item schema - [items] itself or, when [items] is a list, only its
    first schema - each at the path [<path>[<index>]].  The first element
    whose check fails ends the validation with its error, and an array
    whose elements all pass is accepted; either way the console gains the
    warnings of the elements checked, the failing one included, in order,
    and nothing else. *)
Theorem array_elements_are_checked_in_order :
  forall (host : Host) (item : ComponentSchema)
         (its : option (ComponentSchema + list ComponentSchema))
         (opt : option bool) (props : option (list (string * ComponentSchema)))
         (req : option (list string)) (minL maxL : option float)
         (pat : option string) (minV maxV : option float) (path : string)
         (env : Env),
    let schema :=
      mkSchema (Some (TName "array")) opt props req its minL maxL pat minV
        maxV in
    let at_index (i : nat) := path +:+ "[" +:+ pretty i +:+ "]" in
    let warned (checked : list JsValue) :=
      concat (imap (fun i x => warnings host x item (at_index i)) checked) in
    (its = Some (inl item) \/ exists others, its = Some (inr (item :: others))) ->
    (forall pre bad post err,
       (forall i x, pre !! i = Some x ->
          verdict host x item (at_index i) = inr tt) ->
       verdict host bad item (at_index (List.length pre)) = inl err ->
       validateComponentDataAgainstSchema host (JArr (pre ++ bad :: post))
         schema path env
       = (inl err,
          mkEnv (console env ++ warned (pre ++ [bad])) (generated env)))
    /\ (forall elems,
          (forall i x, elems !! i = Some x ->
             verdict host x item (at_index i) = inr tt) ->
          validateComponentDataAgainstSchema host (JArr elems) schema path env
          = (inr tt, mkEnv (console env ++ warned elems) (generated env))).
Proof.
  intros host item its opt props req minL maxL pat minV maxV path env schema
    at_index warned Hits. subst schema at_index warned.
  split.
  - intros pre bad post err Hpre Hbad. rewrite array_schema_unfold.
    pose proof (for_each_item_first_throw host item path pre post bad 0 err
                  env Hpre Hbad) as H.
    destruct Hits as [->|[others ->]]; exact H.
  - intros elems Helems. rewrite array_schema_unfold.
    pose proof (for_each_item_all_pass host item path elems 0 env Helems)
      as H.
    destruct Hits as [->|[others ->]]; exact H.
Qed.

Lemma array_elements_are_checked_in_order_witness :
  validateComponentDataAgainstSchema sample_host
    (JArr ([JObj [("x", JNum 1); ("y", JNum 2); ("w", JNum 3)]]
           ++ wrong_position :: [JNull]))
    (mkSchema (Some (TName "array")) None None None
       (Some (inl Position_schema)) None None None None None)
    "Track" (mkEnv [] 0)
  = (inl (SDKError
            ("Data for component " +:+ quoted "Track[1].x"
             +:+ " has incorrect type. Expected number, got string.") None),
     mkEnv [extra_property_warning "Track[0]" "w"] 0).
Proof.
  rewrite (proj1 (array_elements_are_checked_in_order sample_host
                    Position_schema (Some (inl Position_schema)) None None
                    None None None None None None "Track" (mkEnv [] 0)
                    (or_introl eq_refl))
             [JObj [("x", JNum 1); ("y", JNum 2); ("w", JNum 3)]]
             wrong_position [JNull]
             (SDKError
                ("Data for component " +:+ quoted "Track[1].x"
                 +:+ " has incorrect type. Expected number, got string.")
                None)).
  - reflexivity.
  - intros [|i] x Hx; [|destruct i; discriminate].
    injection Hx as <-. reflexivity.
  - reflexivity.
Defined.

(** X12. An array schema without [items], or whose [items] is an empty
    list, accepts every array; and every array schema accepts the empty
    array. *)
Theorem array_without_item_schema_is_accepted :
  forall (host : Host) (elems : list JsValue)
         (its : option (ComponentSchema + list ComponentSchema))
         (opt : option bool) (props : option (list (string * ComponentSchema)))
         (req : option (list string)) (minL maxL : option float)
         (pat : option string) (minV maxV : option float) (path : string)
         (env : Env),
    its = None \/ its = Some (inr []) \/ elems = [] ->
    validateComponentDataAgainstSchema host (JArr elems)
      (mkSchema (Some (TName "array")) opt props req its minL maxL pat minV
         maxV)
      path env
    = (inr tt, env).
Proof.
  intros host elems its opt props req minL maxL pat minV maxV path env H.
  rewrite array_schema_unfold.
  destruct H as [->|[->| ->]]; [reflexivity|reflexivity|].
  destruct its as [[item|[|item others]]|]; reflexivity.
Qed.

Lemma array_without_item_schema_is_accepted_witness :
  validateComponentDataAgainstSchema sample_host (JArr []) Inventory_schema
    "Inventory" (mkEnv [] 0)
  = (inr tt, mkEnv [] 0).
Proof.
  apply (array_without_item_schema_is_accepted sample_host []
           (Some (inl (typed "string"))) None None None None None None None
           None "Inventory" (mkEnv [] 0)).
  right. right. reflexivity.
Defined.

(** ** processComponent and the blueprint *)

(** X14. With a blueprint that has component schemas, a component type
    that is neither one of its own keys nor a name inherited from
    [Object.prototype] is refused before anything else happens: the call
    raises the SDK error naming the type and leaves the whole state,
    console included, as it was. *)
Theorem undeclared_component_type_is_refused :
  forall (host : Host) (m : Machine) (entityId componentType : string)
         (componentData : JsValue) (bp : Types.IBluePrint)
         (schemas : list (string * ComponentSchema)),
    blueprint (sdk m) = Some bp ->
    Types.componentSchemas bp = Some schemas ->
    own_property componentType schemas = None ->
    includes componentType Object_prototype_keys = false ->
    RushSDKOps.processComponent host entityId componentType componentData m
    = (inl (undeclared_component componentType), m).
Proof.
  intros host [en h s] entityId ty d bp schemas Hbp Hschemas Hown Hproto.
  cbn [sdk] in Hbp.
  unfold RushSDKOps.processComponent, bind, get_sdk. cbn [sdk].
  rewrite Hbp, Hschemas. unfold js_in. rewrite Hown, Hproto. reflexivity.
Qed.

Lemma undeclared_component_type_is_refused_witness :
  RushSDKOps.processComponent sample_host "e1" "Velocity" (JNum 1)
    sample_machine
  = (inl (undeclared_component "Velocity"), sample_machine).
Proof.
  apply (undeclared_component_type_is_refused sample_host sample_machine
           "e1" "Velocity" (JNum 1) sampleBlueprint
           (default [] (Types.componentSchemas sampleBlueprint)));
    reflexivity.
Defined.

Lemma no_schema_accepts (host : Host) (data : JsValue) (path : string)
    (en : Env) :
  validateComponentDataAgainstSchema host data no_schema path en = (inr tt, en).
Proof. reflexivity. Qed.

(** X15. The membership test of [processComponent] is the [in]
    operator, which also sees what the schema object inherits.  A component
    type named like a member of [Object.prototype] and not declared in the
    blueprint therefore passes it; what is read as its schema has none of
    the schema fields, so any data at all passes the validation, without a
    warning.  The data is then serialized for the log line: if
    [JSON.stringify] gives a text, the data is reported as validated and
    attached to the entity; if it throws, the call raises what was thrown
    and leaves the state as it was. *)
Theorem inherited_names_pass_the_blueprint :
  forall (host : Host) (m : Machine) (entityId componentType : string)
         (componentData : JsValue) (bp : Types.IBluePrint)
         (schemas : list (string * ComponentSchema)) (e : Entity),
    blueprint (sdk m) = Some bp ->
    Types.componentSchemas bp = Some schemas ->
    own_property componentType schemas = None ->
    In componentType Object_prototype_keys ->
    WorldOps.getEntity entityId (world (sdk m)) = Some e ->
    RushSDKOps.processComponent host entityId componentType componentData m
    = match JSON_stringify host componentData with
      | inr serialized =>
          (inr tt,
           mkMachine
             (mkEnv (console (env m)
                     ++ [validated_log entityId componentType serialized])
                (generated (env m)))
             (EntityOps.addComponent e componentType componentData (heap m))
             (sdk m))
      | inl error => (inl error, m)
      end.
Proof.
  intros host [en h s] entityId ty d bp schemas e Hbp Hschemas Hown Hin Hget.
  cbn [sdk env heap] in *.
  assert (includes ty Object_prototype_keys = true) as Hproto.
  { unfold includes. apply existsb_exists. exists ty. split; [exact Hin|].
    apply String.eqb_refl. }
  unfold RushSDKOps.processComponent, bind, get_sdk, lift_env. cbn [sdk env heap].
  rewrite Hbp, Hschemas. unfold js_in, RushSDKOps.schema_at.
  rewrite Hown, Hproto. cbn [negb when ret default from_option Datatypes.id].
  rewrite no_schema_accepts.
  destruct (JSON_stringify host d) as [error|serialized]; cbn.
  - reflexivity.
  - rewrite Hget. reflexivity.
Qed.

Lemma inherited_names_pass_the_blueprint_witness :
  let m := snd (RushSDKOps.world_createEntity "e1" "pk1" sample_machine) in
  (exists m',
     RushSDKOps.processComponent sample_host "e1" "toString" (JNum 1) m
     = (inr tt, m')
     /\ EntityOps.getComponent (mkEntity "e1" 0 "pk1") "toString" (heap m')
        = JNum 1)
  /\ RushSDKOps.processComponent sample_host "e1" "toString" (JBigInt 1) m
     = (inl (TypeError "Do not know how to serialize a BigInt"), m).
Proof.
  split.
  - eexists. split.
    + apply (inherited_names_pass_the_blueprint sample_host
               (snd (RushSDKOps.world_createEntity "e1" "pk1" sample_machine))
               "e1" "toString" (JNum 1) sampleBlueprint
               (default [] (Types.componentSchemas sampleBlueprint))
               (mkEntity "e1" 0 "pk1")).
      * reflexivity.
      * reflexivity.
      * reflexivity.
      * vm_compute. tauto.
      * reflexivity.
    + reflexivity.
  - apply (inherited_names_pass_the_blueprint sample_host
             (snd (RushSDKOps.world_createEntity "e1" "pk1" sample_machine))
             "e1" "toString" (JBigInt 1) sampleBlueprint
             (default [] (Types.componentSchemas sampleBlueprint))
             (mkEntity "e1" 0 "pk1")).
    + reflexivity.
    + reflexivity.
    + reflexivity.
    + vm_compute. tauto.
    + reflexivity.
Defined.

(** X16. Without a blueprint, or with one that has no component
    schemas, nothing is validated: whatever the type and the data, the
    component is attached to the entity the World holds under the id.  The
    console gets nothing in the first case and one warning in the second. *)
Theorem without_schemas_every_component_is_attached :
  forall (host : Host) (m : Machine) (entityId componentType : string)
         (componentData : JsValue) (e : Entity),
    match blueprint (sdk m) with
    | Some bp => Types.componentSchemas bp = None
    | None => True
    end ->
    WorldOps.getEntity entityId (world (sdk m)) = Some e ->
    exists ws : list LogEntry,
      RushSDKOps.processComponent host entityId componentType componentData m
      = (inr tt,
         mkMachine (mkEnv (console (env m) ++ ws) (generated (env m)))
           (EntityOps.addComponent e componentType componentData (heap m))
           (sdk m))
      /\ Forall (fun l => level l = Warn) ws
      /\ List.length ws = (if is_some (blueprint (sdk m)) then 1 else 0).
Proof.
  intros host [[con gen] h s] entityId ty d e Hbp Hget.
  cbn [sdk env heap console generated] in *.
  unfold RushSDKOps.processComponent, bind, get_sdk, lift_env. cbn [sdk env heap].
  destruct (blueprint s) as [bp|].
  - rewrite Hbp. cbn. rewrite Hget. cbn.
    eexists [_]. split; [reflexivity|]. split; [repeat constructor|reflexivity].
  - cbn. rewrite Hget. cbn. exists [].
    rewrite app_nil_r. split; [reflexivity|]. split; [constructor|reflexivity].
Qed.

Lemma without_schemas_every_component_is_attached_witness :
  let m := snd (RushSDKOps.world_createEntity "e1" "pk1" bare_machine) in
  exists ws : list LogEntry,
    RushSDKOps.processComponent sample_host "e1" "Anything" JNull m
    = (inr tt,
       mkMachine (mkEnv (console (env m) ++ ws) (generated (env m)))
         (EntityOps.addComponent (mkEntity "e1" 0 "pk1") "Anything" JNull
            (heap m))
         (sdk m))
    /\ Forall (fun l => level l = Warn) ws
    /\ List.length ws = (if is_some (blueprint (sdk m)) then 1 else 0).
Proof.
  apply (without_schemas_every_component_is_attached sample_host
           (snd (RushSDKOps.world_createEntity "e1" "pk1" bare_machine))
           "e1" "Anything" JNull (mkEntity "e1" 0 "pk1")).
  - vm_compute. exact I.
  - reflexivity.
Defined.

Lemma processComponent_raises_frame (host : Host) (m m' : Machine)
    (entityId componentType : string) (componentData : JsValue)
    (err : JsError) :
  RushSDKOps.processComponent host entityId componentType componentData m
  = (inl err, m') ->
  heap m' = heap m /\ sdk m' = sdk m.
Proof.
  destruct m as [en h s].
  unfold RushSDKOps.processComponent, bind, get_sdk, lift_env,
    RushSDKOps.entity_addComponent.
  cbn [sdk env heap].
  destruct (blueprint s) as [bp|].
  - destruct (Types.componentSchemas bp) as [schemas|].
    + destruct (js_in componentType schemas);
        cbn [negb when ret throw env heap sdk].
      * destruct (validateComponentDataAgainstSchema host componentData
                    (RushSDKOps.schema_at componentType schemas)
                    componentType en) as [[err'|[]] e1].
        -- cbn. intros H. injection H as _ <-. split; reflexivity.
        -- destruct (JSON_stringify host componentData) as [err'|serialized];
             cbn.
           ++ intros H. injection H as _ <-. split; reflexivity.
           ++ destruct (WorldOps.getEntity entityId (world s)); cbn;
                discriminate.
      * cbn. intros H. injection H as _ <-. split; reflexivity.
    + cbn. destruct (WorldOps.getEntity entityId (world s)); cbn; discriminate.
  - cbn. destruct (WorldOps.getEntity entityId (world s)); cbn; discriminate.
Qed.

Lemma getComponent_addComponent_other (e e' : Entity) (ty ty' : string)
    (d : JsValue) (h : Heap) :
  components e' <> components e \/ ty' <> ty ->
  EntityOps.getComponent e' ty' (EntityOps.addComponent e ty d h)
  = EntityOps.getComponent e' ty' h.
Proof.
  intros Hother. unfold EntityOps.getComponent, EntityOps.addComponent.
  destruct (decide (components e' = components e)) as [Heq|Hne].
  - destruct Hother as [Hne|Hty]; [contradiction|].
    rewrite Heq, list_lookup_alter_eq.
    destruct (h !! components e) as [mp|]; [|reflexivity].
    simpl. rewrite get_set_ne by congruence. reflexivity.
  - rewrite list_lookup_alter_ne by congruence. reflexivity.
Qed.

(** X17. For an entity the World holds, [processComponent] attaches
    the component exactly when it returns normally: the entity then answers
    the data under the component type and every other component of every
    entity is as before; when the call raises, no component of any entity
    has changed.  The facade object is never changed. *)
Theorem component_is_attached_iff_accepted :
  forall (host : Host) (m m' : Machine) (entityId componentType : string)
         (componentData : JsValue) (e : Entity) (r : JsError + unit),
    WorldOps.getEntity entityId (world (sdk m)) = Some e ->
    components e < List.length (heap m) ->
    RushSDKOps.processComponent host entityId componentType componentData m
    = (r, m') ->
    sdk m' = sdk m
    /\ match r with
       | inr _ =>
           EntityOps.getComponent e componentType (heap m') = componentData
           /\ forall e' ty',
                components e' <> components e \/ ty' <> componentType ->
                EntityOps.getComponent e' ty' (heap m')
                = EntityOps.getComponent e' ty' (heap m)
       | inl _ => heap m' = heap m
       end.
Proof.
  intros host m m' entityId ty d e [err|[]] Hget Hlive Hrun.
  - destruct (processComponent_raises_frame host m m' entityId ty d err Hrun)
      as [Hh Hs].
    split; assumption.
  - destruct (processComponent_attaches host m m' entityId ty d e Hget Hrun)
      as [Hs Hh].
    split; [exact Hs|]. rewrite Hh. split.
    + rewrite getComponent_addComponent by exact Hlive.
      rewrite String.eqb_refl. reflexivity.
    + intros e' ty' Hother. apply getComponent_addComponent_other. exact Hother.
Qed.

Lemma component_is_attached_iff_accepted_witness :
  let m := snd (RushSDKOps.world_createEntity "e1" "pk1" sample_machine) in
  let e := mkEntity "e1" 0 "pk1" in
  (exists m',
     RushSDKOps.processComponent sample_host "e1" "Position"
       (JObj [("x", JNum 1); ("y", JNum 2)]) m = (inr tt, m')
     /\ EntityOps.getComponent e "Position" (heap m')
        = JObj [("x", JNum 1); ("y", JNum 2)])
  /\ (exists err m',
        RushSDKOps.processComponent sample_host "e1" "Position" wrong_position m
        = (inl err, m')
        /\ heap m' = heap m).
Proof.
  split.
  - eexists. split; [vm_compute; reflexivity|].
    apply (component_is_attached_iff_accepted sample_host
             (snd (RushSDKOps.world_createEntity "e1" "pk1" sample_machine)) _
             "e1" "Position" (JObj [("x", JNum 1); ("y", JNum 2)])
             (mkEntity "e1" 0 "pk1") (inr tt)).
    + reflexivity.
    + vm_compute. lia.
    + vm_compute. reflexivity.
  - eexists _, _. split; [vm_compute; reflexivity|].
    eapply (component_is_attached_iff_accepted sample_host
              (snd (RushSDKOps.world_createEntity "e1" "pk1" sample_machine)) _
              "e1" "Position" wrong_position
              (mkEntity "e1" 0 "pk1") (inl _)).
    + reflexivity.
    + vm_compute. lia.
    + vm_compute. reflexivity.
Defined.

(** ** Object schemas *)

(** X18. [typeof null] and [typeof] of an array are both [object], so the
    type check lets them through to an object schema; the object check then
    rejects them, and its message reads [data expected to be an object, got
    object.].  Nothing is logged. *)
Theorem object_schema_rejects_null_and_arrays :
  forall (host : Host) (data : JsValue) (opt : option bool)
         (props : option (list (string * ComponentSchema)))
         (req : option (list string))
         (its : option (ComponentSchema + list ComponentSchema))
         (minL maxL : option float) (pat : option string) (minV maxV : option float)
         (path : string) (env : Env),
    is_null data = true \/ Array_isArray data = true ->
    validateComponentDataAgainstSchema host data
      (mkSchema (Some (TName "object")) opt props req its minL maxL pat
         minV maxV)
      path env
    = (inl (SDKError
              ("Component " +:+ quoted path
               +:+ " data expected to be an object, got object.") None),
       env).
Proof.
  intros host data opt props req its minL maxL pat minV maxV path env Hdata.
  destruct data; destruct Hdata as [H|H]; try discriminate H; reflexivity.
Qed.

Lemma object_schema_rejects_null_and_arrays_witness :
  validateComponentDataAgainstSchema sample_host (JArr [JNum 1; JNum 2])
    Position_schema "Position" (mkEnv [] 0)
  = (inl (SDKError
            ("Component " +:+ quoted "Position"
             +:+ " data expected to be an object, got object.") None),
     mkEnv [] 0).
Proof.
  apply (object_schema_rejects_null_and_arrays sample_host
           (JArr [JNum 1; JNum 2])).
  right. reflexivity.
Defined.

Lemma extra_keys_loop (ps : list (string * ComponentSchema)) (path : string)
    (dataKeys : list string) (env : Env) :
  for_of dataKeys (fun dataKey =>
    when (negb (js_in dataKey ps))
      (console_warn
         ("Warning: Component " +:+ quoted path
          +:+ " has extra property " +:+ quoted dataKey
          +:+ " not defined in blueprint schema."))) env
  = (inr tt,
     mkEnv (console env
            ++ map (extra_property_warning path)
                 (List.filter (fun dataKey => negb (js_in dataKey ps)) dataKeys))
       (generated env)).
Proof.
  revert env. induction dataKeys as [|k dataKeys IH]; intros env.
  - simpl. rewrite app_nil_r, env_eta. reflexivity.
  - simpl. unfold bind. destruct (js_in k ps); cbn [negb when ret].
    + apply IH.
    + unfold console_warn, emit. rewrite IH. cbn [console generated map].
      rewrite <- app_assoc. reflexivity.
Qed.

(** X19. For an object schema and data that is an object holding every
    required name: the declared properties are visited in the order of the
    schema's list (the order of the [for..in] loop), one the data lacks is
    passed over whether or not it is marked optional, and if the check of
    each one the data has succeeds, the data is accepted.  The console
    gains the warnings of those checks, in that order, and then one warning
    for each key of the data that the declared properties lack - own or
    inherited, the test being the [in] operator - in the order of the
    data's list; nothing else is logged.  The length, range and pattern
    fields of the schema play no part for an object. *)
Theorem object_properties_are_checked_when_present :
  forall (host : Host) (dataProps : list (string * JsValue))
         (opt : option bool) (ps : list (string * ComponentSchema))
         (req : option (list string))
         (its : option (ComponentSchema + list ComponentSchema))
         (minL maxL : option float) (pat : option string)
         (minV maxV : option float) (path : string) (env : Env),
    let nested :=
      concat
        (map (fun prop : string * ComponentSchema =>
                if js_in (fst prop) dataProps
                then warnings host (js_get (fst prop) dataProps) (snd prop)
                       (path +:+ "." +:+ fst prop)
                else [])
           ps) in
    let extra :=
      map (extra_property_warning path)
        (List.filter (fun dataKey => negb (js_in dataKey ps))
           (map fst dataProps)) in
    (forall name, In name (default [] req) -> js_in name dataProps = true) ->
    (forall propName sub,
       In (propName, sub) ps ->
       js_in propName dataProps = true ->
       verdict host (js_get propName dataProps) sub
         (path +:+ "." +:+ propName)
       = inr tt) ->
    validateComponentDataAgainstSchema host (JObj dataProps)
      (mkSchema (Some (TName "object")) opt (Some ps) req its minL maxL pat
         minV maxV)
      path env
    = (inr tt, mkEnv (console env ++ nested ++ extra) (generated env)).
Proof.
  intros host dataProps opt ps req its minL maxL pat minV maxV path env
    nested extra Hreq Hprops. subst nested extra.
  cbn [validateComponentDataAgainstSchema].
  unfold bind at 1. cbn [type_truthy type_differs typeof String.eqb negb andb
    when ret type_is Ascii.eqb Bool.eqb].
  change (String.eqb "object" "object") with true. cbn [negb andb when ret].
  unfold bind at 1. unfold bind at 1.
  cbn [typeof is_null Array_isArray orb negb when ret].
  change (String.eqb "object" "object") with true. cbn [negb orb when ret].
  unfold bind at 1.
  assert (match req with
          | Some names =>
              for_of names (fun requiredProp =>
                when (negb (value_in requiredProp (JObj dataProps)))
                  (throw (SDKError
                     ("Missing required property " +:+ quoted requiredProp
                      +:+ " for component " +:+ quoted path +:+ ".")
                     None)))
          | None => ret tt
          end env = (inr tt, env)) as ->.
  { destruct req as [names|]; [|reflexivity].
    cbn [default from_option Datatypes.id] in Hreq.
    induction names as [|n names IH]; [reflexivity|].
    simpl. unfold bind. rewrite (Hreq n (or_introl eq_refl)). cbn [negb when ret].
    apply IH. intros name Hin. apply Hreq. right. exact Hin. }
  unfold bind at 1.
  match goal with
  | |- context [?each ps env] =>
      is_fix each;
      assert (forall env0,
                each ps env0
                = (inr tt,
                   mkEnv
                     (console env0
                      ++ concat
                           (map (fun prop : string * ComponentSchema =>
                                   if js_in (fst prop) dataProps
                                   then warnings host
                                          (js_get (fst prop) dataProps)
                                          (snd prop)
                                          (path +:+ "." +:+ fst prop)
                                   else [])
                              ps))
                     (generated env0))) as ->
  end.
  { clear Hreq. induction ps as [|[propName sub] ps IH]; intros env0.
    - cbn. rewrite app_nil_r, env_eta. reflexivity.
    - unfold bind. cbn [value_in value_get map concat fst snd].
      destruct (js_in propName dataProps) eqn:Ein.
      + rewrite validate_outcome.
        rewrite (Hprops propName sub (or_introl eq_refl) Ein).
        rewrite IH by (intros p s Hin; apply Hprops; right; exact Hin).
        cbn [console generated]. rewrite <- app_assoc. reflexivity.
      + assert ((if negb (default false (optional sub))
                    && negb (match req with
                             | Some names => includes propName names
                             | None => false
                             end)
                 then ret tt else ret tt) env0 = (inr tt, env0)) as ->.
        { destruct (_ && _); reflexivity. }
        rewrite IH by (intros p s Hin; apply Hprops; right; exact Hin).
        reflexivity. }
  cbn [value_keys]. rewrite extra_keys_loop. cbn [console generated].
  rewrite <- app_assoc.
  destruct minL, maxL, minV, maxV, pat as [p|]; cbn;
    rewrite ?andb_false_r; reflexivity.
Qed.

Lemma object_properties_are_checked_when_present_witness :
  validateComponentDataAgainstSchema sample_host
    (JObj [ ("position", JObj [("x", JNum 1); ("y", JNum 2); ("w", JNum 3)]);
            ("tag", JBool true) ])
    (mkSchema (Some (TName "object")) None
       (Some [("position", Position_schema); ("health", Health_schema)])
       (Some ["position"]) None None None None None None)
    "Player" (mkEnv [] 0)
  = (inr tt,
     mkEnv [ extra_property_warning "Player.position" "w";
             extra_property_warning "Player" "tag" ] 0).
Proof.
  rewrite (object_properties_are_checked_when_present sample_host
             [ ("position",
                JObj [("x", JNum 1); ("y", JNum 2); ("w", JNum 3)]);
               ("tag", JBool true) ]
             None [("position", Position_schema); ("health", Health_schema)]
             (Some ["position"]) None None None None None None "Player"
             (mkEnv [] 0)).
  - reflexivity.
  - intros name [<-|[]]. reflexivity.
  - intros propName sub [H|[H|[]]] Hin; injection H as <- <-.
    + reflexivity.
    + vm_compute in Hin. discriminate Hin.
Defined.

(** ** createEntity of the facade *)

Lemma for_of_app {S A : Type} (l1 l2 : list A) (body : A -> M S unit) (s : S) :
  for_of (l1 ++ l2) body s
  = match for_of l1 body s with
    | (inl e, s') => (inl e, s')
    | (inr _, s') => for_of l2 body s'
    end.
Proof.
  revert s. induction l1 as [|x l1 IH]; intros s; simpl.
  - reflexivity.
  - unfold bind. destruct (body x s) as [[e|[]] s1]; [reflexivity|apply IH].
Qed.

(** What the first statements of [createEntity] leave when there is a
    payer. *)
Lemma createEntity_prologue_result (lib : Web3.Lib) (m mb : Machine)
    (payer : Web3.Keypair) (entity : Entity) :
  createEntity_prologue lib m = (inr (payer, entity), mb) ->
  let kp := Web3.generate lib (generated (env m)) in
  entity = mkEntity (toBase58 (Web3.publicKey kp)) (List.length (heap m))
             (Web3.publicKey kp)
  /\ fst (RushSDKOps.getActivePayer m) = inr payer
  /\ heap mb = heap m ++ [JsMap.empty]
  /\ generated (env mb) = S (generated (env m))
  /\ WorldOps.getEntity (id entity) (world (sdk mb)) = Some entity
  /\ storage (sdk mb) = storage (sdk m).
Proof.
  unfold createEntity_prologue. unfold bind at 1.
  destruct (RushSDKOps.getActivePayer m) as [[e0|p] ma] eqn:Epayer;
    [discriminate|].
  destruct (getActivePayer_frame m ma _ Epayer) as [Hh [Hs Hg]].
  unfold bind, lift_env, Web3.Keypair_generate, RushSDKOps.world_createEntity,
    WorldOps.createEntity, EntityOps.new, ret.
  cbn [env heap sdk console generated].
  intros H. injection H as <- <- <-. cbn [env heap sdk console generated id].
  rewrite Hh, Hg, Hs.
  repeat split. unfold WorldOps.getEntity. cbn. apply get_set_eq.
Qed.

Lemma createEntity_stops (host : Host) (lib : Web3.Lib)
    (comps : list (string * JsValue)) (m mb mc : Machine)
    (payer : Web3.Keypair) (entity : Entity) (err : JsError) :
  createEntity_prologue lib m = (inr (payer, entity), mb) ->
  for_of comps (fun '(componentType, d) =>
    RushSDKOps.processComponent host (id entity) componentType d) mb
  = (inl err, mc) ->
  RushSDKOps.createEntity host lib comps m = (inl err, mc).
Proof.
  unfold createEntity_prologue. intros Hpro.
  unfold bind at 1 in Hpro.
  destruct (RushSDKOps.getActivePayer m) as [[e0|p] ma] eqn:E1;
    [discriminate|].
  unfold bind at 1 in Hpro.
  destruct (lift_env (Web3.Keypair_generate lib) ma) as [[e1|kp] ma'] eqn:E2;
    [discriminate|].
  cbv zeta in Hpro. unfold bind at 1 in Hpro.
  destruct (RushSDKOps.world_createEntity (toBase58 (Web3.publicKey kp))
              (Web3.publicKey kp) ma') as [[e2|ent] mb'] eqn:E3;
    [discriminate|].
  cbn [ret] in Hpro. injection Hpro as <- <- <-.
  assert (id ent = toBase58 (Web3.publicKey kp)) as Hid.
  { unfold RushSDKOps.world_createEntity, WorldOps.createEntity, EntityOps.new
      in E3. injection E3 as <- _. reflexivity. }
  rewrite Hid. intros Hloop.
  unfold RushSDKOps.createEntity.
  unfold bind at 1. rewrite E1.
  unfold bind at 1. rewrite E2. cbv zeta.
  unfold bind at 1. rewrite E3.
  unfold bind at 1. rewrite Hloop. reflexivity.
Qed.

(** X20. [createEntity] checks the components one after the other, and
    the first one [processComponent] refuses ends the call with that error
    as it is, not wrapped.  The later components are not looked at and the
    storage port is not called.  The entity is by then in the World and
    stays there, holding the components before the refused one. *)
Theorem createEntity_stops_at_a_refused_component :
  forall (host : Host) (lib : Web3.Lib) (m mb mc md : Machine)
         (payer : Web3.Keypair) (entity : Entity)
         (before after : list (string * JsValue)) (componentType : string)
         (componentData : JsValue) (err : JsError),
    createEntity_prologue lib m = (inr (payer, entity), mb) ->
    for_of before (fun '(ty, d) =>
      RushSDKOps.processComponent host (id entity) ty d) mb = (inr tt, mc) ->
    RushSDKOps.processComponent host (id entity) componentType componentData mc
    = (inl err, md) ->
    RushSDKOps.createEntity host lib
      (before ++ (componentType, componentData) :: after) m
    = (inl err, md)
    /\ WorldOps.getEntity (id entity) (world (sdk md)) = Some entity
    /\ components entity = List.length (heap m)
    /\ (forall ty,
          EntityOps.getComponent entity ty (heap md) = last_entry ty before).
Proof.
  intros host lib m mb mc md payer entity before after ty d err
    Hpro Hbefore Hrefused.
  destruct (createEntity_prologue_result lib m mb payer entity Hpro)
    as (Hent & _ & Hheap & _ & Hget & _).
  destruct (components_loop_attaches host (id entity) entity before mb mc
              Hget Hbefore) as [Hsdk Hattach].
  destruct (processComponent_raises_frame host mc md (id entity) ty d err
              Hrefused) as [Hh Hs].
  split; [|split; [|split]].
  - apply (createEntity_stops host lib _ m mb md payer entity err Hpro).
    rewrite for_of_app, Hbefore. simpl. unfold bind. rewrite Hrefused.
    reflexivity.
  - rewrite Hs, Hsdk. exact Hget.
  - rewrite Hent. reflexivity.
  - intros ty'. rewrite Hh, Hattach, getComponent_attach_all.
    + unfold last_entry. destruct (own_property ty' (rev before)); [reflexivity|].
      rewrite Hheap, Hent. unfold EntityOps.getComponent. cbn.
      rewrite lookup_app_r by lia.
      replace (List.length (heap m) - List.length (heap m)) with 0 by lia.
      reflexivity.
    + rewrite Hheap, Hent. cbn. rewrite length_app. simpl. lia.
Qed.

Lemma createEntity_stops_at_a_refused_component_witness :
  exists (entity : Entity) (md : Machine) (err : JsError),
    RushSDKOps.createEntity sample_host failing_lib
      (one_position ++ [("Health", JNum 1); ("Name", JStr "n")])
      funded_machine
    = (inl err, md)
    /\ WorldOps.getEntity (id entity) (world (sdk md)) = Some entity
    /\ components entity = List.length (heap funded_machine)
    /\ (forall ty,
          EntityOps.getComponent entity ty (heap md)
          = last_entry ty one_position).
Proof.
  eexists _, _, _.
  eapply (createEntity_stops_at_a_refused_component sample_host failing_lib
            funded_machine _ _ _ _ _ one_position [("Name", JStr "n")]
            "Health" (JNum 1) _).
  - vm_compute. reflexivity.
  - vm_compute. reflexivity.
  - vm_compute. reflexivity.
Defined.

Lemma createEntity_local_steps (host : Host) (lib : Web3.Lib)
    (comps : list (string * JsValue)) (m m1 : Machine)
    (payer : Web3.Keypair) (entity : Entity) (serialized : Buffer) :
  createEntity_local host lib comps m = (inr (payer, entity, serialized), m1) ->
  exists mb mc,
    createEntity_prologue lib m = (inr (payer, entity), mb)
    /\ for_of comps (fun '(componentType, d) =>
         RushSDKOps.processComponent host (id entity) componentType d) mb
       = (inr tt, mc)
    /\ RushSDKOps.serializeEntityData host entity mc = (inr serialized, m1).
Proof.
  unfold createEntity_local, createEntity_prologue. intros Hlocal.
  unfold bind at 1 in Hlocal. unfold bind at 1.
  destruct (RushSDKOps.getActivePayer m) as [[e0|p] ma]; [discriminate|].
  unfold bind at 1 in Hlocal. unfold bind at 1.
  destruct (lift_env (Web3.Keypair_generate lib) ma) as [[e1|kp] ma'];
    [discriminate|].
  cbv zeta in Hlocal. cbv zeta.
  unfold bind at 1 in Hlocal. unfold bind at 1.
  destruct (RushSDKOps.world_createEntity (toBase58 (Web3.publicKey kp))
              (Web3.publicKey kp) ma') as [[e2|ent] mb] eqn:E3;
    [discriminate|].
  assert (id ent = toBase58 (Web3.publicKey kp)) as Hid.
  { unfold RushSDKOps.world_createEntity, WorldOps.createEntity, EntityOps.new
      in E3. injection E3 as <- _. reflexivity. }
  unfold bind at 1 in Hlocal.
  destruct (for_of comps _ mb) as [[e3|[]] mc] eqn:Eloop; [discriminate|].
  unfold bind at 1 in Hlocal.
  destruct (RushSDKOps.serializeEntityData host ent mc) as [[e4|buf] md]
    eqn:Eser; [discriminate|].
  cbn [ret] in Hlocal. injection Hlocal as <- <- <- <-.
  exists mb, mc. rewrite Hid. repeat split; assumption.
Qed.

Lemma createEntity_submission (host : Host) (lib : Web3.Lib)
    (comps : list (string * JsValue)) (m m1 : Machine)
    (payer : Web3.Keypair) (entity : Entity) (serialized : Buffer) :
  createEntity_local host lib comps m = (inr (payer, entity, serialized), m1) ->
  RushSDKOps.createEntity host lib comps m
  = match createEntity (storage (sdk m1)) serialized payer
            (Some "default_world") (env m1) with
    | (inl err, env2) =>
        (inl (SDKError ("Failed to save entity " +:+ id entity
                        +:+ " to chain during creation.") (Some err)),
         mkMachine env2 (heap m1) (sdk m1))
    | (inr signature, env2) =>
        (inr entity,
         mkMachine
           (mkEnv (console env2 ++ [created_log (id entity) signature])
              (generated env2))
           (heap m1) (sdk m1))
    end.
Proof.
  unfold createEntity_local. intros Hlocal.
  unfold bind at 1 in Hlocal.
  destruct (RushSDKOps.getActivePayer m) as [[e0|p] ma] eqn:E1;
    [discriminate|].
  unfold bind at 1 in Hlocal.
  destruct (lift_env (Web3.Keypair_generate lib) ma) as [[e1|kp] ma'] eqn:E2;
    [discriminate|].
  cbv zeta in Hlocal. unfold bind at 1 in Hlocal.
  destruct (RushSDKOps.world_createEntity (toBase58 (Web3.publicKey kp))
              (Web3.publicKey kp) ma') as [[e2|ent] mb] eqn:E3;
    [discriminate|].
  assert (id ent = toBase58 (Web3.publicKey kp)) as Hid.
  { unfold RushSDKOps.world_createEntity, WorldOps.createEntity, EntityOps.new
      in E3. injection E3 as <- _. reflexivity. }
  unfold bind at 1 in Hlocal.
  destruct (for_of comps _ mb) as [[e3|[]] mc] eqn:Eloop; [discriminate|].
  unfold bind at 1 in Hlocal.
  destruct (RushSDKOps.serializeEntityData host ent mc) as [[e4|buf] md]
    eqn:Eser; [discriminate|].
  cbn [ret] in Hlocal. injection Hlocal as <- <- <- <-.
  unfold RushSDKOps.createEntity.
  unfold bind at 1. rewrite E1.
  unfold bind at 1. rewrite E2. cbv zeta.
  unfold bind at 1. rewrite E3.
  unfold bind at 1. rewrite Eloop.
  unfold bind at 1. rewrite Eser.
  unfold bind at 1, try_catch, bind at 1, get_sdk. cbn [sdk].
  unfold bind at 1, lift_env at 1. cbn [env heap sdk].
  rewrite Hid.
  destruct (createEntity (storage (sdk md)) buf p (Some "default_world")
              (env md)) as [[err|signature] env2]; reflexivity.
Qed.

(** X21. When the local statements of [createEntity] complete and the
    storage port accepts the record, the call returns the entity and logs
    the signature.  The entity is the one the World now holds under its id;
    the id is the text of the key of a freshly generated account, which is
    also what the submitted record names as owner - not the payer; the
    entity holds, for each component type given, the last data given for it;
    and the record is the serialization of the entity's id, that owner and
    the components it then holds. *)
Theorem createEntity_returns_the_registered_entity :
  forall (host : Host) (lib : Web3.Lib) (comps : list (string * JsValue))
         (m m1 : Machine) (payer : Web3.Keypair) (entity : Entity)
         (serialized : Buffer) (signature : string) (env2 : Env),
    createEntity_local host lib comps m = (inr (payer, entity, serialized), m1) ->
    createEntity (storage (sdk m1)) serialized payer (Some "default_world")
      (env m1)
    = (inr signature, env2) ->
    RushSDKOps.createEntity host lib comps m
    = (inr entity,
       mkMachine
         (mkEnv (console env2 ++ [created_log (id entity) signature])
            (generated env2))
         (heap m1) (sdk m1))
    /\ fst (RushSDKOps.getActivePayer m) = inr payer
    /\ publicKey entity
       = Web3.publicKey (Web3.generate lib (generated (env m)))
    /\ id entity = toBase58 (publicKey entity)
    /\ WorldOps.getEntity (id entity) (world (sdk m1)) = Some entity
    /\ (forall ty,
          EntityOps.getComponent entity ty (heap m1) = last_entry ty comps)
    /\ exists text,
         JSON_stringify host
           (JObj [ ("id", JStr (id entity));
                   ("owner", JStr (id entity));
                   ("components",
                    JObj (Object_fromEntries
                            (default JsMap.empty
                               (heap m1 !! components entity)))) ])
         = inr text
         /\ serialized = Buffer_from text.
Proof.
  intros host lib comps m m1 payer entity serialized signature env2
    Hlocal Hchain.
  pose proof (createEntity_submission host lib comps m m1 payer entity
                serialized Hlocal) as Hfirst.
  rewrite Hchain in Hfirst.
  destruct (createEntity_local_steps host lib comps m m1 payer entity
              serialized Hlocal) as (mb & mc & Hpro & Hloop & Hser).
  destruct (createEntity_prologue_result lib m mb payer entity Hpro)
    as (Hent & Hpayer & Hheap & _ & Hget & _).
  destruct (components_loop_attaches host (id entity) entity comps mb mc
              Hget Hloop) as [Hsdk Hattach].
  assert (components entity < List.length (heap mc)) as Hlive.
  { rewrite Hattach, attach_all_length, Hheap, Hent. cbn.
    rewrite length_app. simpl. lia. }
  unfold RushSDKOps.serializeEntityData, EntityOps.getComponents in Hser.
  destruct (JSON_stringify host _) as [e4|text] eqn:Etext; [discriminate|].
  injection Hser as <- <-. cbn [env heap sdk] in *.
  split; [|split; [|split; [|split; [|split; [|split]]]]].
  - exact Hfirst.
  - exact Hpayer.
  - rewrite Hent. reflexivity.
  - rewrite Hent. reflexivity.
  - rewrite Hsdk. exact Hget.
  - intros ty. apply eq_trans with (EntityOps.getComponent entity ty (heap mc)).
    + apply getComponent_lookup. apply lookup_app_l. exact Hlive.
    + rewrite Hattach, getComponent_attach_all.
      * unfold last_entry. destruct (own_property ty (rev comps)); [reflexivity|].
        rewrite Hheap, Hent. unfold EntityOps.getComponent. cbn.
        rewrite lookup_app_r by lia.
        replace (List.length (heap m) - List.length (heap m)) with 0 by lia.
        reflexivity.
      * rewrite Hheap, Hent. cbn. rewrite length_app. simpl. lia.
  - exists text. split; [|reflexivity]. rewrite <- Etext.
    unfold EntityOps.getId, EntityOps.getPublicKey.
    rewrite (lookup_app_l _ _ (components entity)) by exact Hlive.
    rewrite lookup_app_r by lia.
    replace (List.length (heap mc) - List.length (heap mc)) with 0 by lia.
    rewrite Hent. reflexivity.
Qed.

Lemma createEntity_returns_the_registered_entity_witness :
  exists (entity : Entity) (m2 : Machine),
    RushSDKOps.createEntity sample_host working_lib one_position
      connected_machine
    = (inr entity, m2)
    /\ id entity = "account0"
    /\ WorldOps.getEntity "account0" (world (sdk m2)) = Some entity
    /\ EntityOps.getComponent entity "Position" (heap m2)
       = JObj [("x", JNum 1); ("y", JNum 2)].
Proof.
  destruct (createEntity_local sample_host working_lib one_position
              connected_machine)
    as [[e|[[payer entity] serialized]] m1] eqn:Hlocal;
    [vm_compute in Hlocal; discriminate|].
  destruct (createEntity (storage (sdk m1)) serialized payer
              (Some "default_world") (env m1))
    as [[err|signature] env2] eqn:Hchain.
  - vm_compute in Hlocal. injection Hlocal as <- <- <- <-.
    vm_compute in Hchain. discriminate.
  - destruct (createEntity_returns_the_registered_entity sample_host
                working_lib one_position connected_machine m1 payer entity
                serialized signature env2 Hlocal Hchain)
      as (Hrun & _ & _ & _ & Hget & Hlast & _).
    exists entity, (mkMachine
                      (mkEnv (console env2
                              ++ [created_log (id entity) signature])
                         (generated env2))
                      (heap m1) (sdk m1)).
    vm_compute in Hlocal. injection Hlocal as <- <- <- <-.
    split; [exact Hrun|]. split; [reflexivity|].
    split; [exact Hget|]. apply (Hlast "Position").
Defined.

(** ** saveToChain *)

Lemma getActivePayer_by_sdk (m1 m2 : Machine) :
  sdk m1 = sdk m2 ->
  fst (RushSDKOps.getActivePayer m1) = fst (RushSDKOps.getActivePayer m2).
Proof.
  destruct m1 as [e1 h1 s1], m2 as [e2 h2 s2]. cbn [sdk]. intros ->.
  unfold RushSDKOps.getActivePayer, bind, get_sdk, lift_env. cbn.
  destruct (activeSessionKeypair s2); [|destruct (wallet s2)]; reflexivity.
Qed.

(** One [saveEntityToChain]: the facade object is untouched, the heap only
    gains the copy the serialization makes, and with [payer] the active
    payer an error is the wrapped error of the serialization or of the
    storage port. *)
Lemma saveEntityToChain_outcome (host : Host) (entity : Entity)
    (m m' : Machine) (payer : Web3.Keypair) (r : JsError + unit) :
  fst (RushSDKOps.getActivePayer m) = inr payer ->
  RushSDKOps.saveEntityToChain host entity m = (r, m') ->
  sdk m' = sdk m
  /\ (exists copies, heap m' = heap m ++ copies)
  /\ match r with
     | inr _ => True
     | inl err =>
         exists cause,
           save_failure host (storage (sdk m)) payer entity cause
           /\ err = entity_save_error (id entity) cause
     end.
Proof.
  intros Hpayer. unfold RushSDKOps.saveEntityToChain. unfold bind at 1.
  destruct (RushSDKOps.getActivePayer m) as [[e0|p] ma] eqn:E1;
    [discriminate|].
  cbn [fst] in Hpayer. injection Hpayer as ->.
  destruct (getActivePayer_frame m ma _ E1) as (Hh & Hs & _).
  unfold try_catch, bind, RushSDKOps.serializeEntityData,
    EntityOps.getComponents, get_sdk, lift_env, EntityOps.getId,
    EntityOps.getPublicKey.
  cbn [env heap sdk].
  destruct (JSON_stringify host _) as [cause|text] eqn:Etext.
  { cbn. intros H. injection H as <- <-. cbn [sdk heap].
    split; [exact Hs|]. split; [rewrite Hh; eexists; reflexivity|].
    exists cause. split; [|reflexivity]. left. eexists. exact Etext. }
  cbn [env heap sdk].
  destruct (setEntityDataById (storage (sdk ma)) (id entity) _ payer
              (Some "default_world") (env ma)) as [[cause|sig] env2] eqn:Eset.
  - cbn. intros H. injection H as <- <-. cbn [sdk heap].
    split; [exact Hs|]. split; [rewrite Hh; eexists; reflexivity|].
    rewrite Hs in Eset. exists cause. split; [|reflexivity].
    right. eexists _, _, _. exact Eset.
  - cbn. intros H. injection H as <- <-. cbn [sdk heap].
    split; [exact Hs|]. split; [rewrite Hh; eexists; reflexivity|exact I].
Qed.

Lemma save_loop_outcome (host : Host) (payer : Web3.Keypair)
    (ents : list Entity) (m m' : Machine) (r : JsError + unit) :
  fst (RushSDKOps.getActivePayer m) = inr payer ->
  for_of ents (RushSDKOps.saveEntityToChain host) m = (r, m') ->
  sdk m' = sdk m
  /\ (exists copies, heap m' = heap m ++ copies)
  /\ match r with
     | inr _ => True
     | inl err =>
         exists entity cause,
           In entity ents
           /\ save_failure host (storage (sdk m)) payer entity cause
           /\ err = entity_save_error (id entity) cause
     end.
Proof.
  revert m. induction ents as [|e ents IH]; intros m Hpayer; simpl.
  - intros H. injection H as <- <-.
    split; [reflexivity|]. split; [exists []; rewrite app_nil_r; reflexivity|].
    exact I.
  - unfold bind.
    destruct (RushSDKOps.saveEntityToChain host e m) as [[err|[]] m1] eqn:E.
    + intros H. injection H as <- <-.
      destruct (saveEntityToChain_outcome host e m m1 payer _ Hpayer E)
        as (Hs & Hh & cause & Hfail & Herr).
      split; [exact Hs|]. split; [exact Hh|].
      exists e, cause.
      split; [left; reflexivity|]. split; assumption.
    + intros Hrest.
      destruct (saveEntityToChain_outcome host e m m1 payer _ Hpayer E)
        as (Hs & [c1 Hh] & _).
      assert (fst (RushSDKOps.getActivePayer m1) = inr payer) as Hpayer1.
      { rewrite (getActivePayer_by_sdk m1 m Hs). exact Hpayer. }
      destruct (IH m1 Hpayer1 Hrest) as (Hs' & [c2 Hh'] & Hr).
      split; [congruence|].
      split; [exists (c1 ++ c2); rewrite Hh', Hh, app_assoc; reflexivity|].
      destruct r as [err|]; [|exact I].
      destruct Hr as (entity & cause & Hin & Hfail & Herr).
      exists entity, cause.
      split; [right; exact Hin|]. rewrite <- Hs. split; assumption.
Qed.

Lemma saveToChain_unfold (host : Host) (m ma : Machine) (payer : Web3.Keypair) :
  RushSDKOps.getActivePayer m = (inr payer, ma) ->
  RushSDKOps.saveToChain host m
  = let start :=
      mkMachine
        (mkEnv (console (env ma)
                ++ [mkLog Log "Saving world state to the blockchain..." None])
           (generated (env ma)))
        (heap ma) (sdk ma) in
    match for_of (WorldOps.query [] (world (sdk ma)) (heap ma))
            (RushSDKOps.saveEntityToChain host) start with
    | (inl err, m') => (inl (world_save_error err), m')
    | (inr _, m') =>
        (inr tt,
         mkMachine
           (mkEnv (console (env m')
                   ++ [mkLog Log "World state saved to blockchain." None])
              (generated (env m')))
           (heap m') (sdk m'))
    end.
Proof.
  intros E1. unfold RushSDKOps.saveToChain. unfold bind at 1. rewrite E1.
  unfold bind at 1, lift_env at 1. cbn [console_log emit env heap sdk].
  unfold try_catch, bind at 1. unfold bind at 1. cbn [env heap sdk].
  destruct (for_of _ _ _) as [[err|[]] m'] eqn:Eloop.
  - reflexivity.
  - unfold lift_env. reflexivity.
Qed.

(** X22. [saveToChain] changes nothing of the local state: however it
    ends, the facade object - World, wallets, blueprint - is the one before
    the call, and the heap has only gained the copies the serialization
    makes, so every entity answers [getComponent] as before. *)
Theorem saveToChain_leaves_the_local_state :
  forall (host : Host) (m m' : Machine) (r : JsError + unit),
    RushSDKOps.saveToChain host m = (r, m') ->
    sdk m' = sdk m
    /\ (exists copies, heap m' = heap m ++ copies)
    /\ (forall entity ty,
          components entity < List.length (heap m) ->
          EntityOps.getComponent entity ty (heap m')
          = EntityOps.getComponent entity ty (heap m)).
Proof.
  intros host m m' r Hrun.
  assert (sdk m' = sdk m /\ exists copies, heap m' = heap m ++ copies)
    as [Hs [copies Hh]].
  { destruct (RushSDKOps.getActivePayer m) as [[e0|payer] ma] eqn:E1.
    - unfold RushSDKOps.saveToChain in Hrun. unfold bind at 1 in Hrun.
      rewrite E1 in Hrun. injection Hrun as <- <-.
      destruct (getActivePayer_frame m ma _ E1) as (Hh & Hs & _).
      split; [exact Hs|]. exists []. rewrite app_nil_r. exact Hh.
    - rewrite (saveToChain_unfold host m ma payer E1) in Hrun.
      destruct (getActivePayer_frame m ma _ E1) as (Hh & Hs & _).
      cbv zeta in Hrun.
      destruct (for_of _ _ _) as [r1 m1] eqn:Eloop.
      apply (save_loop_outcome host payer) in Eloop.
      + destruct Eloop as (Hs1 & [copies Hh1] & _). cbn [sdk heap] in *.
        destruct r1 as [err|[]]; injection Hrun as <- <-; cbn [sdk heap];
          (split; [congruence|]); exists copies; congruence.
      + rewrite (getActivePayer_by_sdk _ m) by (cbn [sdk]; exact Hs).
        rewrite E1. reflexivity. }
  split; [exact Hs|]. split; [exists copies; exact Hh|].
  intros entity ty Hlive. apply getComponent_lookup.
  rewrite Hh. apply lookup_app_l. exact Hlive.
Qed.

Lemma saveToChain_leaves_the_local_state_witness :
  exists (r : JsError + unit) (m' : Machine),
    RushSDKOps.saveToChain sample_host populated_machine = (r, m')
    /\ sdk m' = sdk populated_machine
    /\ EntityOps.getComponent (mkEntity "e1" 0 "pk1") "Position" (heap m')
       = JObj [("x", JNum 1); ("y", JNum 2)].
Proof.
  exists (fst (RushSDKOps.saveToChain sample_host populated_machine)),
         (snd (RushSDKOps.saveToChain sample_host populated_machine)).
  split; [apply surjective_pairing|].
  destruct (saveToChain_leaves_the_local_state sample_host populated_machine
              _ _ (surjective_pairing _)) as (Hs & _ & Hc).
  split; [exact Hs|]. rewrite Hc; [reflexivity|vm_compute; lia].
Defined.

(** X23. An error of [saveToChain] is either the missing-payer error
    of [getActivePayer], raised before anything is logged or sent, or the
    error [Failed to save world state to chain] whose cause is [Failed to
    save entity <id> to chain] for an entity of the World.  The cause of
    that, in turn, is what [JSON.stringify] threw on a record of that
    entity (its id, its owner, components), or what the storage port's
    [setEntityDataById] raised for that id and the active payer. *)
Theorem saveToChain_errors_are_nested :
  forall (host : Host) (m m' : Machine) (err : JsError),
    RushSDKOps.saveToChain host m = (inl err, m') ->
    (err = no_payer /\ m' = m
     /\ wallet (sdk m) = None /\ activeSessionKeypair (sdk m) = None)
    \/ exists payer entity cause,
         fst (RushSDKOps.getActivePayer m) = inr payer
         /\ In entity (JsMap.values (entities (world (sdk m))))
         /\ err = world_save_error (entity_save_error (id entity) cause)
         /\ ((exists comps,
                JSON_stringify host (entity_record entity comps) = inl cause)
             \/ (exists buf env1 env2,
                   setEntityDataById (storage (sdk m)) (id entity) buf payer
                     (Some "default_world") env1 = (inl cause, env2))).
Proof.
  intros host m m' err Hrun.
  destruct (RushSDKOps.getActivePayer m) as [[e0|payer] ma] eqn:E1.
  - left. unfold RushSDKOps.saveToChain in Hrun. unfold bind at 1 in Hrun.
    rewrite E1 in Hrun. injection Hrun as <- <-.
    destruct m as [en h s]. revert E1.
    unfold RushSDKOps.getActivePayer, bind, get_sdk, lift_env. cbn.
    destruct (activeSessionKeypair s); [discriminate|].
    destruct (wallet s); [discriminate|].
    intros H. injection H as <- <-. repeat split.
  - right. rewrite (saveToChain_unfold host m ma payer E1) in Hrun.
    destruct (getActivePayer_frame m ma _ E1) as (Hh & Hs & _).
    cbv zeta in Hrun.
    destruct (for_of _ _ _) as [[err1|[]] m1] eqn:Eloop; [|discriminate].
    injection Hrun as <- <-.
    apply (save_loop_outcome host payer) in Eloop.
    + destruct Eloop as (_ & _ & entity & cause & Hin & Hfail & Herr).
      cbn [sdk] in Hfail. rewrite Hs in Hfail, Hin.
      exists payer, entity, cause.
      split; [reflexivity|]. split.
      * rewrite query_unfold in Hin. apply List.filter_In in Hin.
        exact (proj1 Hin).
      * split; [rewrite Herr; reflexivity|exact Hfail].
    + rewrite (getActivePayer_by_sdk _ m) by (cbn [sdk]; exact Hs).
      rewrite E1. reflexivity.
Qed.

Lemma saveToChain_errors_are_nested_witness :
  exists (cause : JsError) (m' : Machine),
    RushSDKOps.saveToChain sample_host populated_machine
    = (inl (world_save_error (entity_save_error "e1" cause)), m').
Proof.
  destruct (RushSDKOps.saveToChain sample_host populated_machine)
    as [[err|[]] m'] eqn:Hrun; [|vm_compute in Hrun; discriminate].
  destruct (saveToChain_errors_are_nested sample_host populated_machine m' err
              Hrun)
    as [(_ & _ & Hw & _)|(payer & entity & cause & _ & Hin & -> & _)].
  - vm_compute in Hw. discriminate.
  - exists cause, m'. vm_compute in Hin. destruct Hin as [<-|[]].
    reflexivity.
Defined.

(** ** The wallet methods *)

Lemma wallet_call_result (c : WalletCall) (m : Machine) :
  exists en user,
    wallet_call c m
    = (inr tt,
       mkMachine en (heap m)
         (mkRushSDK (world (sdk m)) (storage (sdk m))
            match c with
            | CallSetPrimaryWallet w => Some w
            | CallActivateSessionKeypair k => Some k
            | CallDeactivateSession => None
            | CallSetWallet w => Some w
            end
            (blueprint (sdk m)) user
            match c with
            | CallActivateSessionKeypair k => Some k
            | _ => None
            end)).
Proof.
  destruct m as [en h s]. destruct c; cbn; eexists _, _; reflexivity.
Qed.

Lemma wallet_calls_keep (cs : list WalletCall) (m : Machine) :
  fst (wallet_calls cs m) = inr tt
  /\ heap (snd (wallet_calls cs m)) = heap m
  /\ world (sdk (snd (wallet_calls cs m))) = world (sdk m)
  /\ storage (sdk (snd (wallet_calls cs m))) = storage (sdk m)
  /\ blueprint (sdk (snd (wallet_calls cs m))) = blueprint (sdk m).
Proof.
  unfold wallet_calls. revert m. induction cs as [|c cs IH]; intros m; simpl.
  - repeat split.
  - unfold bind. destruct (wallet_call_result c m) as (en & user & ->).
    match goal with
    | |- context [for_of cs wallet_call ?m1] =>
        destruct (IH m1) as (H1 & H2 & H3 & H4 & H5)
    end.
    repeat split; assumption.
Qed.

(** X24. Each of [setPrimaryWallet], [activateSessionKeypair],
    [deactivateSession] and [setWallet] writes both the [wallet] and the
    [activeSessionKeypair] field, so after any sequence of such calls, from
    any state, the payer is decided by the last call alone: its argument
    for the three that take a keypair, and no payer at all after
    [deactivateSession].  None of the calls fails, and none touches the
    World, the storage port, the blueprint or any entity's components. *)
Theorem payer_is_decided_by_the_last_wallet_call :
  forall (m : Machine) (earlier : list WalletCall) (c : WalletCall),
    let m' := snd (wallet_calls (earlier ++ [c]) m) in
    fst (wallet_calls (earlier ++ [c]) m) = inr tt
    /\ fst (RushSDKOps.getActivePayer m')
       = match c with
         | CallSetPrimaryWallet w => inr w
         | CallActivateSessionKeypair k => inr k
         | CallDeactivateSession => inl no_payer
         | CallSetWallet w => inr w
         end
    /\ heap m' = heap m
    /\ world (sdk m') = world (sdk m)
    /\ storage (sdk m') = storage (sdk m)
    /\ blueprint (sdk m') = blueprint (sdk m).
Proof.
  intros m earlier c m'.
  destruct (wallet_calls_keep (earlier ++ [c]) m) as (H1 & H2 & H3 & H4 & H5).
  split; [exact H1|]. split; [|repeat split; assumption].
  subst m'. unfold wallet_calls. rewrite for_of_app.
  destruct (wallet_calls_keep earlier m) as (He & _).
  unfold wallet_calls in He.
  destruct (for_of earlier wallet_call m) as [[e|[]] m1]; [discriminate|].
  simpl. unfold bind.
  destruct (wallet_call_result c m1) as (en & user & ->). cbn [snd].
  unfold RushSDKOps.getActivePayer, bind, get_sdk, lift_env. cbn.
  destruct c; reflexivity.
Qed.

(** ** The constructor of the facade *)

(** X25. The constructor either returns a facade with an empty World, the
    permissive adapter over the given connection and program, and no
    wallet, user key or session, or raises.  It raises only when given a
    non-empty blueprint path, and then the error is the SDK error [Failed to
    load blueprint from <path>], whose cause is what reading or parsing the
    file raised, or the error [Invalid blueprint structure.]; nothing is
    logged.  A facade it returns has a blueprint exactly when the path was
    non-empty; that blueprint is the parsed document, it has a non-empty
    name and an [entities] field (component schemas are not asked for), and
    its loading is the one thing logged. *)
Theorem constructor_outcome :
  forall (host : Host) (lib : Web3.Lib) (connection : Web3.Connection)
         (programId : PublicKey) (blueprintPath : option string) (en : Env),
    match RushSDKOps.new host lib connection programId blueprintPath en with
    | (inr this, en') =>
        world this = WorldOps.new
        /\ storage this
           = SolanaStorageAdapter.port lib
               (SolanaStorageAdapter.mk connection programId)
        /\ wallet this = None
        /\ userWalletPublicKey this = None
        /\ activeSessionKeypair this = None
        /\ match blueprint this with
           | None =>
               (blueprintPath = None \/ blueprintPath = Some "") /\ en' = en
           | Some bp =>
               exists path,
                 blueprintPath = Some path /\ path <> ""
                 /\ read_blueprint host path = inr (Some bp)
                 /\ Types.name bp <> ""
                 /\ Types.entities bp <> None
                 /\ en' = mkEnv (console en
                                 ++ [mkLog Log
                                       ("Blueprint " +:+ quoted (Types.name bp)
                                        +:+ " loaded successfully.") None])
                        (generated en)
           end
    | (inl err, en') =>
        exists path cause,
          blueprintPath = Some path /\ path <> ""
          /\ err = SDKError ("Failed to load blueprint from " +:+ path)
                     (Some cause)
          /\ (read_blueprint host path = inl cause
              \/ cause = Error "Invalid blueprint structure.")
          /\ en' = en
    end.
Proof.
  intros host lib connection programId blueprintPath en.
  unfold RushSDKOps.new.
  destruct blueprintPath as [path|]; [|cbn; repeat split; left; reflexivity].
  destruct (String.eqb path "") eqn:Epath; cbn [negb].
  - apply String.eqb_eq in Epath. subst path. cbn. repeat split.
    right. reflexivity.
  - apply String.eqb_neq in Epath.
    unfold RushSDKOps.loadBlueprint, try_catch, bind, outcome.
    destruct (read_blueprint host path) as [cause|[bp|]] eqn:Eread; cbn.
    + exists path, cause. repeat split; try assumption. left. exact Eread.
    + destruct (String.eqb (Types.name bp) "") eqn:Ename; cbn.
      * exists path, (Error "Invalid blueprint structure.").
        repeat split; try assumption. right. reflexivity.
      * destruct (Types.entities bp) as [ents|] eqn:Eents; cbn.
        -- repeat split. exists path. rewrite Eents.
           apply String.eqb_neq in Ename. repeat split; try assumption.
           discriminate.
        -- exists path, (Error "Invalid blueprint structure.").
           repeat split; try assumption. right. reflexivity.
    + exists path, (Error "Invalid blueprint structure.").
      repeat split; try assumption. right. reflexivity.
Qed.

(** ** The adapters' writes *)

Lemma try_catch_typed {A : Type} (code : string) (c : M Env A)
    (handler : JsError -> M Env A) (en : Env) :
  (forall e en', typed_failure code (handler e en')) ->
  typed_failure code (try_catch c handler en).
Proof.
  intros H. unfold typed_failure, try_catch in *.
  destruct (c en) as [[e|a] en']; [apply H|exact I].
Qed.

(** X26. Whatever goes wrong in a write of the adapter that raises
    [SolanaStorageError] - deriving the address, asking for the rent,
    sending or confirming - the error that leaves the method is a
    [SolanaStorageError] with the code of the method: [TRANSACTION_SEND_ERROR]
    for [sendTransaction], [ENTITY_CREATE_ERROR], [ENTITY_SET_ERROR],
    [ENTITY_DELETE_ERROR] and [WORLD_MIGRATE_ERROR]. *)
Theorem strict_write_failures_are_typed :
  forall (lib : Web3.Lib) (this : StrictSolanaStorageAdapter.t) (en : Env),
    (forall transaction,
       typed_failure "TRANSACTION_SEND_ERROR"
         (StrictSolanaStorageAdapter.sendTransaction this transaction en))
    /\ (forall entityData payer worldName,
          typed_failure "ENTITY_CREATE_ERROR"
            (StrictSolanaStorageAdapter.createEntity lib this entityData payer
               worldName en))
    /\ (forall entityId data payer worldName,
          typed_failure "ENTITY_SET_ERROR"
            (StrictSolanaStorageAdapter.setEntityDataById lib this entityId
               data payer worldName en))
    /\ (forall entityId payer worldName,
          typed_failure "ENTITY_DELETE_ERROR"
            (StrictSolanaStorageAdapter.deleteEntityById lib this entityId
               payer worldName en))
    /\ (forall worldName payer,
          typed_failure "WORLD_MIGRATE_ERROR"
            (StrictSolanaStorageAdapter.migrate lib this worldName payer en)).
Proof.
  intros lib this en.
  repeat split; intros; apply try_catch_typed; intros e en';
    unfold typed_failure; cbn; split; reflexivity.
Qed.

Lemma strict_send_fails (this : StrictSolanaStorageAdapter.t)
    (transaction : Web3.Transaction) (signers : list Web3.Keypair)
    (cause : JsError) (en : Env) :
  Web3.sendTransaction (StrictSolanaStorageAdapter.connection this)
    transaction signers = inl cause ->
  StrictSolanaStorageAdapter.sendAndConfirmTransaction this transaction
    signers en
  = (inl (SolanaStorageError ("Transaction failed: " +:+ error_message cause)
            "TRANSACTION_SEND_ERROR"),
     en).
Proof.
  intros H.
  unfold StrictSolanaStorageAdapter.sendAndConfirmTransaction, try_catch, bind,
    outcome.
  rewrite H. reflexivity.
Qed.

(** X27. When the node rejects the transaction, the private
    [sendAndConfirmTransaction] raises [Transaction failed: <cause>] with
    code [TRANSACTION_SEND_ERROR], and the method that called it catches
    that and raises its own error: the caller sees the method's code, and a
    message that carries both prefixes, as in [Failed to set entity data
    for ID <id>: Transaction failed: <cause>]. *)
Theorem strict_transaction_failure_is_rewrapped :
  forall (lib : Web3.Lib) (this : StrictSolanaStorageAdapter.t)
         (cause : JsError) (en : Env),
    (forall transaction signers,
       Web3.sendTransaction (StrictSolanaStorageAdapter.connection this)
         transaction signers = inl cause) ->
    (forall entityId data payer worldName pda,
       StrictSolanaStorageAdapter.entityPda lib this entityId worldName
       = inr pda ->
       fst (StrictSolanaStorageAdapter.setEntityDataById lib this entityId
              data payer worldName en)
       = inl (SolanaStorageError
                ("Failed to set entity data for ID " +:+ entityId
                 +:+ ": Transaction failed: " +:+ error_message cause)
                "ENTITY_SET_ERROR"))
    /\ (forall entityId payer worldName pda,
          StrictSolanaStorageAdapter.entityPda lib this entityId worldName
          = inr pda ->
          fst (StrictSolanaStorageAdapter.deleteEntityById lib this entityId
                 payer worldName en)
          = inl (SolanaStorageError
                   ("Failed to delete entity with ID " +:+ entityId
                    +:+ ": Transaction failed: " +:+ error_message cause)
                   "ENTITY_DELETE_ERROR"))
    /\ (forall worldName payer pda,
          Web3.findProgramAddressSync lib [Buffer_from worldName]
            (StrictSolanaStorageAdapter.programId this) = inr pda ->
          fst (StrictSolanaStorageAdapter.migrate lib this worldName payer en)
          = inl (SolanaStorageError
                   ("Failed to migrate world: Transaction failed: "
                    +:+ error_message cause)
                   "WORLD_MIGRATE_ERROR"))
    /\ (forall entityData payer worldName pda rent,
          Web3.findProgramAddressSync lib
            [Buffer_from "world"; Buffer_from worldName]
            (StrictSolanaStorageAdapter.programId this) = inr pda ->
          Web3.getMinimumBalanceForRentExemption
            (StrictSolanaStorageAdapter.connection this)
            (List.length entityData) = inr rent ->
          fst (StrictSolanaStorageAdapter.createEntity lib this entityData
                 payer worldName en)
          = inl (SolanaStorageError
                   ("Failed to create entity: Transaction failed: "
                    +:+ error_message cause)
                   "ENTITY_CREATE_ERROR")).
Proof.
  intros lib this cause en Hsend.
  split; [|split; [|split]].
  - intros entityId data payer worldName pda Hpda.
    unfold StrictSolanaStorageAdapter.setEntityDataById, try_catch.
    unfold bind at 1. rewrite Hpda. cbn [outcome ret].
    unfold bind at 1. cbn [console_log emit].
    unfold bind at 1. rewrite (strict_send_fails _ _ _ cause) by apply Hsend.
    reflexivity.
  - intros entityId payer worldName pda Hpda.
    unfold StrictSolanaStorageAdapter.deleteEntityById, try_catch.
    unfold bind at 1. rewrite Hpda. cbn [outcome ret].
    unfold bind at 1. cbn [console_log emit].
    unfold bind at 1. rewrite (strict_send_fails _ _ _ cause) by apply Hsend.
    reflexivity.
  - intros worldName payer pda Hpda.
    unfold StrictSolanaStorageAdapter.migrate, try_catch. cbv zeta.
    unfold bind at 1. rewrite Hpda. cbn [outcome ret].
    unfold bind at 1. cbn [console_log emit].
    unfold bind at 1. rewrite (strict_send_fails _ _ _ cause) by apply Hsend.
    reflexivity.
  - intros entityData payer worldName pda rent Hpda Hrent.
    unfold StrictSolanaStorageAdapter.createEntity, try_catch. cbv zeta.
    unfold bind at 1. rewrite Hpda. cbn [outcome ret].
    unfold bind at 1. cbn [console_log emit].
    unfold bind at 1. unfold Web3.Keypair_generate at 1.
    cbn [console generated].
    unfold bind at 1. cbn [console_log emit].
    unfold bind at 1. rewrite Hrent. cbn [outcome ret].
    unfold bind at 1. rewrite (strict_send_fails _ _ _ cause) by apply Hsend.
    reflexivity.
Qed.

Lemma strict_transaction_failure_is_rewrapped_witness :
  fst (StrictSolanaStorageAdapter.setEntityDataById failing_lib
         (StrictSolanaStorageAdapter.mk unreachable_node "program")
         "e1" (Buffer_from "{}") wallet1 "default_world" (mkEnv [] 0))
  = inl (SolanaStorageError
           ("Failed to set entity data for ID " +:+ "e1"
            +:+ ": Transaction failed: " +:+ "Send failed")
           "ENTITY_SET_ERROR").
Proof.
  apply (proj1 (strict_transaction_failure_is_rewrapped failing_lib
                  (StrictSolanaStorageAdapter.mk unreachable_node "program")
                  (Error "Send failed") (mkEnv [] 0)
                  (fun _ _ => eq_refl))
           "e1" (Buffer_from "{}") wallet1 "default_world" ("program", 255%Z)).
  reflexivity.
Defined.

Lemma try_catch_plain {A : Type} (prefix unknown report : string)
    (c : M Env A) (en : Env) :
  plain_failure prefix unknown
    (try_catch c
       (fun error =>
          console_error report error ;;
          if instanceof_Error error
          then throw (Error (prefix +:+ error_message error))
          else throw (Error unknown)) en).
Proof.
  unfold plain_failure, try_catch.
  destruct (c en) as [[cause|a] en']; [|exact I].
  destruct cause as [n msg code ca|n msg]; cbn;
    [exists (mkError n msg code ca), report|exists (mkThrown n msg), report];
    (split; [reflexivity|apply last_snoc]).
Qed.

(** X28. The writes of the adapter the facade constructs raise plain
    errors: whatever failed inside [createEntity], [setEntityDataById] or
    [deleteEntityById], what leaves the method is an [Error] - no code, no
    link to the cause.  When what was caught is an instance of [Error], the
    message is [Failed to create entity: ], [Failed to set entity data: ] or
    [Failed to delete entity: ] followed by the message of the cause;
    otherwise it is [Failed to create entity due to an unknown error.] and
    the like.  Either way the cause is the last thing reported on the
    console. *)
Theorem permissive_write_failures_keep_only_the_message :
  forall (lib : Web3.Lib) (this : SolanaStorageAdapter.t) (en : Env),
    (forall entityData payer worldName,
       plain_failure "Failed to create entity: "
         "Failed to create entity due to an unknown error."
         (SolanaStorageAdapter.createEntity lib this entityData payer
            worldName en))
    /\ (forall entityId newData payer worldName,
          plain_failure "Failed to set entity data: "
            "Failed to set entity data due to an unknown error."
            (SolanaStorageAdapter.setEntityDataById lib this entityId newData
               payer worldName en))
    /\ (forall entityId payer worldName,
          plain_failure "Failed to delete entity: "
            "Failed to delete entity due to an unknown error."
            (SolanaStorageAdapter.deleteEntityById lib this entityId payer
               worldName en)).
Proof.
  intros lib this en. repeat split; intros; apply try_catch_plain.
Qed.

(** Both messages occur: a library whose transactions are rejected with an
    [Error], and one whose transactions are rejected with an object that is
    not an [Error]. *)
Example permissive_write_failure_messages :
  let adapter := SolanaStorageAdapter.mk small_ledger "program" in
  fst (SolanaStorageAdapter.setEntityDataById failing_lib adapter "e1"
         (Buffer_from "{}") wallet1 None (mkEnv [] 0))
  = inl (Error "Failed to set entity data: Create failed")
  /\ fst (SolanaStorageAdapter.setEntityDataById rejecting_lib adapter "e1"
            (Buffer_from "{}") wallet1 None (mkEnv [] 0))
     = inl (Error "Failed to set entity data due to an unknown error.").
Proof. split; reflexivity. Qed.

Lemma permissive_getEntityDataById_result :
  forall (lib : Web3.Lib) (this : SolanaStorageAdapter.t) (entityId : string)
         (worldName : option string) (en : Env),
    fst (SolanaStorageAdapter.getEntityDataById lib this entityId worldName en)
    = inr match Web3.findProgramAddressSync lib
                  [ Buffer_from "entity";
                    Buffer_from (default "default_world" worldName);
                    Buffer_from entityId ]
                  (SolanaStorageAdapter.programId this) with
          | inr (address, _) =>
              match Web3.getAccountInfo (SolanaStorageAdapter.connection this)
                      address with
              | inr (Some info) => Web3.data info
              | _ => None
              end
          | inl _ => None
          end.
Proof.
  intros lib this entityId worldName en.
  unfold SolanaStorageAdapter.getEntityDataById, SolanaStorageAdapter.entityPDA,
    SolanaStorageAdapter.getProgramId, worldName_or_default, try_catch.
  unfold bind at 1.
  destruct (Web3.findProgramAddressSync lib _ _) as [err|[address bump]];
    [reflexivity|].
  cbn [outcome ret]. unfold bind at 1. cbn [console_log emit fst].
  match goal with
  | |- context [SolanaStorageAdapter.getData this address ?e] =>
      pose proof (permissive_getData_outcome this address e) as Hdata;
      destruct (SolanaStorageAdapter.getData this address e) as [r e']
  end.
  cbn [fst] in Hdata. subst r.
  destruct (Web3.getAccountInfo _ address) as [err|[info|]]; reflexivity.
Qed.

(** X29. [getEntityDataById] of that adapter never raises.  It gives
    the payload of the account at the address derived from the seeds
    [entity], the world name - [default_world] when none is given - and the
    entity id, under the adapter's program; and the absent value when the
    derivation fails, the fetch fails, the account is not found or it has
    no payload. *)
Theorem permissive_getEntityDataById_outcome :
  forall (lib : Web3.Lib) (this : SolanaStorageAdapter.t) (entityId : string)
         (worldName : option string) (en : Env),
    fst (SolanaStorageAdapter.getEntityDataById lib this entityId worldName en)
    = inr match Web3.findProgramAddressSync lib
                  [ Buffer_from "entity";
                    Buffer_from (default "default_world" worldName);
                    Buffer_from entityId ]
                  (SolanaStorageAdapter.programId this) with
          | inr (address, _) =>
              match Web3.getAccountInfo (SolanaStorageAdapter.connection this)
                      address with
              | inr (Some info) => Web3.data info
              | _ => None
              end
          | inl _ => None
          end.
Proof. exact permissive_getEntityDataById_result. Qed.

(** X30. Over the same connection and program the two adapters read
    the same: what the adapter that returns absent values gives for
    [getData] and [getEntityDataById] is the payload the other adapter
    returns, and the absent value exactly when the other raises; and when
    the other adapter's [getMultipleAccounts] returns, both return the
    same array. *)
Theorem adapters_agree_on_reads :
  forall (lib : Web3.Lib) (connection : Web3.Connection)
         (programId : PublicKey) (en en' : Env),
    let permissive := SolanaStorageAdapter.mk connection programId in
    let strict := StrictSolanaStorageAdapter.mk connection programId in
    let absent_if_raised (r : JsError + option Buffer) : option Buffer :=
      match r with inr payload => payload | inl _ => None end in
    (forall address,
       fst (SolanaStorageAdapter.getData permissive address en)
       = inr (absent_if_raised
                (fst (StrictSolanaStorageAdapter.getData strict address en'))))
    /\ (forall entityId worldName,
          fst (SolanaStorageAdapter.getEntityDataById lib permissive entityId
                 (Some worldName) en)
          = inr (absent_if_raised
                   (fst (StrictSolanaStorageAdapter.getEntityDataById lib
                           strict entityId worldName en'))))
    /\ (forall addresses results,
          fst (StrictSolanaStorageAdapter.getMultipleAccounts strict addresses
                 en') = inr results ->
          fst (SolanaStorageAdapter.getMultipleAccounts permissive addresses en)
          = inr results).
Proof.
  intros lib connection programId en en' permissive strict absent_if_raised.
  split; [|split].
  - intros address. rewrite permissive_getData_outcome.
    pose proof (strict_getData_outcome strict address en') as Hs.
    cbn [SolanaStorageAdapter.connection StrictSolanaStorageAdapter.connection
           permissive strict] in *.
    destruct (Web3.getAccountInfo connection address) as [err|[info|]].
    + destruct Hs as [msg ->]. reflexivity.
    + destruct (Web3.data info) as [d|].
      * rewrite Hs. reflexivity.
      * destruct Hs as [msg ->]. reflexivity.
    + destruct Hs as [msg ->]. reflexivity.
  - intros entityId worldName.
    rewrite permissive_getEntityDataById_result.
    pose proof (strict_getEntityDataById_outcome lib strict entityId worldName
                  en') as Hs.
    cbn [SolanaStorageAdapter.connection StrictSolanaStorageAdapter.connection
           SolanaStorageAdapter.programId StrictSolanaStorageAdapter.programId
           permissive strict default from_option Datatypes.id] in *.
    destruct (Web3.findProgramAddressSync lib _ programId)
      as [err|[address bump]].
    + destruct Hs as [msg ->]. reflexivity.
    + destruct (Web3.getAccountInfo connection address) as [err|[info|]].
      * destruct Hs as [msg ->]. reflexivity.
      * destruct (Web3.data info) as [d|].
        -- rewrite Hs. reflexivity.
        -- destruct Hs as [msg ->]. reflexivity.
      * destruct Hs as [msg ->]. reflexivity.
  - intros addresses results Hresults.
    pose proof (strict_getMultipleAccounts_outcome strict addresses en') as Hs.
    unfold SolanaStorageAdapter.getMultipleAccounts, try_catch, bind, outcome.
    cbn [SolanaStorageAdapter.connection StrictSolanaStorageAdapter.connection
           permissive strict] in *.
    destruct (Web3.getMultipleAccountsInfo connection addresses)
      as [err|infos].
    + destruct Hs as [msg Hs]. rewrite Hs in Hresults. discriminate.
    + destruct (forallb _ infos).
      * rewrite Hs in Hresults. injection Hresults as <-. reflexivity.
      * destruct Hs as [msg Hs]. rewrite Hs in Hresults. discriminate.
Qed.

Lemma adapters_agree_on_reads_witness :
  fst (SolanaStorageAdapter.getMultipleAccounts
         (SolanaStorageAdapter.mk small_ledger "program") ["full"; "full"]
         (mkEnv [] 0))
  = inr [Some (Buffer_from "data1"); Some (Buffer_from "data1")].
Proof.
  apply (proj2 (proj2 (adapters_agree_on_reads failing_lib small_ledger
                         "program" (mkEnv [] 0) (mkEnv [] 0)))).
  reflexivity.
Defined.
